(** * Governance-gated access and storage layer of the EDM MCP server

    A shallow embedding of the TypeScript sources, one module per source
    file:

    - [Js]          the few JavaScript primitives the code leans on
                    (truthiness, [===], [Array.prototype.slice], dates);
    - [Types]       src/types.ts, the JSON shapes;
    - [Governance]  src/security/governance.ts;
    - [Middleware]  src/security/middleware.ts;
    - [Memory]      src/storage/memory.ts;
    - [Storage]     src/storage/base.ts;
    - [Ddna]        src/resources/ddna.ts;
    - [Seal]        src/tools/seal.ts;
    - [Edm]         src/resources/edm.ts;
    - [Extract]     src/tools/extract.ts;
    - [Validate]    src/tools/validate.ts.

    The sample data and the specification-side vocabularies ([HexSpec],
    [FilterSpec], [SemverSpec]) follow the model; the theorems come last.

    Artifacts and envelopes are modelled as they exist at run time.
    TypeScript interfaces are erased, artifacts arrive as parsed JSON, and
    the code itself tests aggregates and fields for absence
    ([!artifact.governance], [artifact.meta?.visibility],
    [!args.artifact.artifact_id]).  Every property of theirs is therefore
    an [option] ([None]: the key is absent), string enumerations are plain
    strings, and reading a property of an absent aggregate throws a
    [TypeError], which the functions below return explicitly.  Identity
    contexts are built by the middleware and always carry a user id.

    Header objects are plain JavaScript objects: besides the properties
    of their own they answer for the members of [Object.prototype]
    ([Middleware.property]).  The arguments of a tool call reach the
    handlers as the client sent them ([Extract.ToolArguments]), and an
    object literal handed to a spread may name a key and give it no value
    ([Governance.Supplied]). *)

From Stdlib Require Import ZArith String Ascii List Bool Lia.
From stdpp Require Import base option list strings gmap.

Local Open Scope string_scope.
Local Open Scope Z_scope.

(* ================================================================== *)
(** ** Outcomes: a value returned, or a value thrown *)
(* ================================================================== *)

Inductive Outcome (E A : Type) : Type :=
| Returns (a : A)
| Throws (e : E).
Arguments Returns {E A} a.
Arguments Throws {E A} e.

Definition bind {E A B} (m : Outcome E A) (k : A -> Outcome E B) : Outcome E B :=
  match m with
  | Returns a => k a
  | Throws e => Throws e
  end.

Notation "'let?' x ':=' m 'in' k" := (bind m (fun x => k))
  (at level 10, x name, m at level 100, k at level 200, only parsing).

(** The only exception the governance functions can raise on their own. *)
Inductive JsTypeError : Type := TypeError.

(* ================================================================== *)
(** ** JavaScript primitives *)
(* ================================================================== *)

Module Js.

(** Truthiness of an optional string property: absent and [""] are falsy. *)
Definition truthy_str (o : option string) : bool :=
  match o with
  | Some s => negb (String.eqb s "")
  | None => false
  end.

(** Truthiness of an optional numeric property: absent and [0] are falsy.
    Numbers are integers here; fractional day counts and [NaN] are outside
    the model. *)
Definition truthy_num (o : option Z) : bool :=
  match o with
  | Some n => negb (n =? 0)
  | None => false
  end.

(** [a === b] where [a] may be [undefined] and [b] is a string. *)
Definition seq_str (a : option string) (b : string) : bool :=
  match a with
  | Some s => String.eqb s b
  | None => false
  end.

(** [a === b] where either side may be [undefined]. *)
Definition seq_opt (a b : option string) : bool :=
  match a, b with
  | Some s, Some t => String.eqb s t
  | None, None => true
  | _, _ => false
  end.

(** [xs.includes(x)] on an array of strings. *)
Definition includes (x : string) (xs : list string) : bool :=
  existsb (String.eqb x) xs.

(** [s.startsWith(p)] *)
Definition startsWith (s p : string) : bool := String.prefix p s.

(** [s.slice(n)] for [0 <= n] *)
Definition slice_from (n : nat) (s : string) : string :=
  String.substring n (String.length s - n) s.

(** Template-literal rendering of a possibly absent string. *)
Definition render (o : option string) : string :=
  match o with
  | Some s => s
  | None => "undefined"
  end.

(** [xs.join(sep)] *)
Definition join (sep : string) (xs : list string) : string := String.concat sep xs.

(** Relative index of [Array.prototype.slice]: negative counts from the end. *)
Definition relIndex (len k : Z) : Z :=
  if k <? 0 then Z.max (len + k) 0 else Z.min k len.

(** [xs.slice(start, stop)] *)
Definition slice {A} (xs : list A) (start stop : Z) : list A :=
  let len := Z.of_nat (length xs) in
  let from := relIndex len start in
  let to := relIndex len stop in
  take (Z.to_nat (to - from)) (drop (Z.to_nat from) xs).

(** *** Dates

    A [Date] is its time value: milliseconds since the epoch, or [NaN]
    ([None]) for an invalid date. *)
Definition Date : Type := option Z.

Definition maxTime : Z := 8640000000000000.

(** [new Date(t)] for a number [t] ([None]: NaN): TimeClip. *)
Definition Date_of_number (t : option Z) : Date :=
  match t with
  | Some v => if (Z.abs v <=? maxTime) then Some v else None
  | None => None
  end.

(** [d.getTime()] *)
Definition getTime (d : Date) : option Z := d.

(** [x + n] where [x] may be NaN. *)
Definition num_add (x : option Z) (n : Z) : option Z :=
  match x with
  | Some v => Some (v + n)
  | None => None
  end.

(** [a < b] on dates: compares time values, false as soon as one is NaN. *)
Definition Date_lt (a b : Date) : bool :=
  match a, b with
  | Some x, Some y => x <? y
  | _, _ => false
  end.

End Js.

(* ================================================================== *)
(** ** src/types.ts *)
(* ================================================================== *)

Module Types.

(** Opaque JSON payloads (content, provenance, extraction metadata). *)
#[warnings="-register-all"]
Inductive Json : Type :=
| JNull
| JBool (b : bool)
| JNum (n : Z)
| JStr (s : string)
| JArr (xs : list Json)
| JObj (kvs : list (string * Json)).

Record RetentionPolicy : Type := {
  duration_days : option Z;
  expires_at : option string;
  auto_delete : option bool
}.

Record ArtifactGovernance : Type := {
  exportability : option string;
  retention : option RetentionPolicy;
  classification : option string;
  compliance : option (list string)
}.

Record ArtifactMeta : Type := {
  created_at : option string;
  updated_at : option string;
  visibility : option string;
  owner_user_id : option string;
  owner_org_id : option string;
  tags : option (list string);
  title : option string;
  description : option string
}.

Record EdmArtifact : Type := {
  schema_version : option string;
  artifact_id : option string;
  meta : option ArtifactMeta;
  content : option Json;
  provenance : option Json;
  governance : option ArtifactGovernance;
  extraction : option Json
}.

Record EnvelopeSignature : Type := {
  algorithm : option string;
  signer_did : option string;
  value : option string;
  public_key : option string
}.

Record DdnaEnvelope : Type := {
  version : option string;
  artifact : option EdmArtifact;
  signature : option EnvelopeSignature;
  sealed_at : option string
}.

Record AuthContext : Type := {
  userId : string;
  roles : option (list string);
  organizationId : option string;
  permissions : option (list string)
}.

Record StorageFilter : Type := {
  f_userId : option string;
  f_organizationId : option string;
  f_tags : option (list string);
  f_visibility : option string;
  limit : option Z;
  offset : option Z
}.

(** The declared value sets of the two string enumerations. *)
Definition declared_exportability (s : string) : bool :=
  Js.includes s ["allowed"; "restricted"; "prohibited"].

Definition declared_visibility (s : string) : bool :=
  Js.includes s ["public"; "private"; "shared"].

End Types.

(* ================================================================== *)
(** ** src/security/governance.ts *)
(* ================================================================== *)

Module Governance.
Import Types.

Record AccessCheckResult : Type := {
  allowed : bool;
  reasons : list string
}.

Record GovernanceValidation : Type := {
  valid : bool;
  errors : list string;
  warnings : list string
}.

(** ['read' | 'export' | 'modify' | 'delete'] *)
Inductive Purpose : Type := Read | Export | Modify | Delete.

(** [artifact.governance.<p>] and [artifact.meta.<p>]: the aggregate must
    be there for the property read to succeed. *)
Definition the_governance (artifact : EdmArtifact)
  : Outcome JsTypeError ArtifactGovernance :=
  match governance artifact with
  | Some g => Returns g
  | None => Throws TypeError
  end.

Definition the_meta (artifact : EdmArtifact) : Outcome JsTypeError ArtifactMeta :=
  match meta artifact with
  | Some m => Returns m
  | None => Throws TypeError
  end.

Definition canExport (artifact : EdmArtifact) : Outcome JsTypeError bool :=
  let? g := the_governance artifact in
  Returns (Js.seq_str (exportability g) "allowed").

Definition isRestricted (artifact : EdmArtifact) : Outcome JsTypeError bool :=
  let? g := the_governance artifact in
  Returns (Js.seq_str (exportability g) "restricted").

Definition isProhibited (artifact : EdmArtifact) : Outcome JsTypeError bool :=
  let? g := the_governance artifact in
  Returns (Js.seq_str (exportability g) "prohibited").

(** [context.permissions?.includes(p)] *)
Definition has_permission (context : AuthContext) (p : string) : bool :=
  match permissions context with
  | Some ps => Js.includes p ps
  | None => false
  end.

Definition checkVisibility (artifact : EdmArtifact) (context : option AuthContext)
  : Outcome JsTypeError bool :=
  let? m := the_meta artifact in
  let visibility := visibility m in
  if Js.seq_str visibility "public" then Returns true
  else
    match context with
    | None => Returns false
    | Some context =>
      if Js.seq_str visibility "private" then
        Returns (Js.seq_str (owner_user_id m) (userId context))
      else if Js.seq_str visibility "shared" then
        if Js.seq_str (owner_user_id m) (userId context) then Returns true
        else if Js.truthy_str (owner_org_id m)
                && Js.seq_opt (organizationId context) (owner_org_id m)
        then Returns true
        else if has_permission context
                  ("artifact:read:" ++ Js.render (artifact_id artifact))
        then Returns true
        else Returns false
      else Returns false
    end.

(** [context?.roles?.includes('admin') ?? false] *)
Definition isAdmin (context : option AuthContext) : bool :=
  match context with
  | Some c =>
    match roles c with
    | Some rs => Js.includes "admin" rs
    | None => false
    end
  | None => false
  end.

(** [result.reasons.push(reason)] *)
Definition push (result : AccessCheckResult) (reason : string) : AccessCheckResult :=
  {| allowed := allowed result; reasons := reasons result ++ [reason] |}.

(** [result.allowed = true] *)
Definition allow (result : AccessCheckResult) : AccessCheckResult :=
  {| allowed := true; reasons := reasons result |}.

Section Clock.
(** [new Date(s)] for a string: the platform's date parser, [None] for an
    invalid date. *)
Variable Date_parse : string -> Js.Date.

(** The clock reading [new Date()], in milliseconds. *)
Variable now : Z.

Definition isExpired (artifact : EdmArtifact) : Outcome JsTypeError bool :=
  let? g := the_governance artifact in
  match retention g with
  | None => Returns false
  | Some retention =>
    if Js.truthy_str (expires_at retention) then
      Returns (Js.Date_lt (Date_parse (Js.render (expires_at retention))) (Some now))
    else if Js.truthy_num (duration_days retention) then
      let? m := the_meta artifact in
      if Js.truthy_str (created_at m) then
        let createdAt := Date_parse (Js.render (created_at m)) in
        let expiresAt :=
          Js.Date_of_number
            (Js.num_add (Js.getTime createdAt)
               (default 0 (duration_days retention) * 24 * 60 * 60 * 1000)) in
        Returns (Js.Date_lt expiresAt (Some now))
      else Returns false
    else Returns false
  end.

(** [canAccess]; a caller that omits [purpose] gets ['read']. *)
Definition canAccess (artifact : EdmArtifact) (context : option AuthContext)
           (purpose : Purpose) : Outcome JsTypeError AccessCheckResult :=
  let result := {| allowed := false; reasons := [] |} in
  let? expired := isExpired artifact in
  if expired then Returns (push result "Artifact has expired")
  else
    let isAdmin := isAdmin context in
    match purpose with
    | Modify | Delete =>
      match context with
      | None => Returns (push result "Authentication required for modification")
      | Some context =>
        let? m := the_meta artifact in
        let isOwner := Js.seq_str (owner_user_id m) (userId context) in
        if negb isOwner && negb isAdmin then
          Returns (push result "Only owner or admin can modify/delete")
        else Returns (allow result)
      end
    | Read | Export =>
      let? hidden :=
        (if negb isAdmin then
           let? visible := checkVisibility artifact context in
           Returns (negb visible)
         else Returns false) in
      if hidden then Returns (push result "Visibility check failed")
      else
        let? blocked :=
          (match purpose with
           | Export => let? ok := canExport artifact in Returns (negb ok)
           | _ => Returns false
           end) in
        if blocked then
          let? prohibited := isProhibited artifact in
          if prohibited then Returns (push result "Artifact export is prohibited")
          else
            let? restricted := isRestricted artifact in
            if restricted then Returns (push result "Artifact export is restricted")
            else Returns result
        else Returns (allow result)
    end.

(** [canAccessEnvelope]: delegates to the embedded artifact. *)
Definition canAccessEnvelope (envelope : DdnaEnvelope)
           (context : option AuthContext) (purpose : Purpose)
  : Outcome JsTypeError AccessCheckResult :=
  match artifact envelope with
  | Some a => canAccess a context purpose
  | None => Throws TypeError
  end.

End Clock.

Definition validateGovernance (artifact : EdmArtifact) : GovernanceValidation :=
  match governance artifact with
  | None =>
    {| valid := false; errors := ["Missing governance field"]; warnings := [] |}
  | Some g =>
    let errors :=
      if negb (Js.truthy_str (exportability g)) then ["Missing exportability setting"]
      else if negb (declared_exportability (Js.render (exportability g)))
      then ["Invalid exportability value"]
      else [] in
    let warnings1 :=
      if negb (Js.truthy_str (mbind visibility (meta artifact))) then
        ["Missing visibility setting, defaulting to private"]
      else [] in
    let warnings2 :=
      match retention g with
      | Some retention =>
        if Js.truthy_num (duration_days retention)
           && Js.truthy_str (expires_at retention)
        then ["Both duration_days and expires_at set; expires_at takes precedence"]
        else []
      | None => []
      end in
    {| valid := Nat.eqb (length errors) 0;
       errors := errors;
       warnings := warnings1 ++ warnings2 |}
  end.

(** [applyDefaultGovernance]: object spreads put the defaults first, so a
    key present in the argument overrides them.  [nowIso] is
    [new Date().toISOString()] at the time of the call.  Here a key is
    absent or holds a value of its declared kind; for an argument with keys
    set to [undefined] or [null] see [applyDefaultGovernance_partial]. *)
Definition applyDefaultGovernance (nowIso : string) (artifact : EdmArtifact)
  : EdmArtifact :=
  {| schema_version := schema_version artifact;
     artifact_id := artifact_id artifact;
     meta :=
       Some
         match meta artifact with
         | Some m =>
           {| created_at := Some (default nowIso (created_at m));
              updated_at := updated_at m;
              visibility := Some (default "private" (visibility m));
              owner_user_id := owner_user_id m;
              owner_org_id := owner_org_id m;
              tags := tags m;
              title := title m;
              description := description m |}
         | None =>
           {| created_at := Some nowIso;
              updated_at := None;
              visibility := Some "private";
              owner_user_id := None;
              owner_org_id := None;
              tags := None;
              title := None;
              description := None |}
         end;
     content := content artifact;
     provenance := provenance artifact;
     governance :=
       Some
         match governance artifact with
         | Some g =>
           {| exportability := Some (default "restricted" (exportability g));
              retention := retention g;
              classification := classification g;
              compliance := compliance g |}
         | None =>
           {| exportability := Some "restricted";
              retention := None;
              classification := None;
              compliance := None |}
         end;
     extraction := extraction artifact |}.

(** A key of an object literal as a spread sees it: absent, present with
    [undefined] or [null] for value, or present with a value.  The spread
    copies a key that is present, whatever it holds, over the default
    written before it. *)
Inductive Supplied (A : Type) : Type :=
| Absent
| Nullish
| Value (a : A).
Arguments Absent {A}.
Arguments Nullish {A}.
Arguments Value {A} a.

(** [{ key: d, ...o }.key], as the functions that read the result see it:
    a key that holds [undefined] or [null] reads like one that is not
    there. *)
Definition spread_over {A} (d : A) (supplied : Supplied A) : option A :=
  match supplied with
  | Absent => Some d
  | Nullish => None
  | Value a => Some a
  end.


(** The argument of [applyDefaultGovernance] with the three keys that have
    a default spelled out: [given] holds every other key, and says whether
    the [governance] and [meta] objects are there at all; what [given]
    itself has under the three keys is not read. *)
Record PartialArtifact : Type := {
  given : EdmArtifact;
  governance_exportability : Supplied string;
  meta_visibility : Supplied string;
  meta_created_at : Supplied string
}.

(** [applyDefaultGovernance] on such an argument; the result as
    [validateGovernance], [canExport], [checkVisibility] and the other
    readers see it. *)
Definition applyDefaultGovernance_partial (nowIso : string)
           (partial : PartialArtifact) : EdmArtifact :=
  let artifact := given partial in
  {| schema_version := schema_version artifact;
     artifact_id := artifact_id artifact;
     meta :=
       Some
         match meta artifact with
         | Some m =>
           {| created_at := spread_over nowIso (meta_created_at partial);
              updated_at := updated_at m;
              visibility := spread_over "private" (meta_visibility partial);
              owner_user_id := owner_user_id m;
              owner_org_id := owner_org_id m;
              tags := tags m;
              title := title m;
              description := description m |}
         | None =>
           {| created_at := Some nowIso;
              updated_at := None;
              visibility := Some "private";
              owner_user_id := None;
              owner_org_id := None;
              tags := None;
              title := None;
              description := None |}
         end;
     content := content artifact;
     provenance := provenance artifact;
     governance :=
       Some
         match governance artifact with
         | Some g =>
           {| exportability :=
                spread_over "restricted" (governance_exportability partial);
              retention := retention g;
              classification := classification g;
              compliance := compliance g |}
         | None =>
           {| exportability := Some "restricted";
              retention := None;
              classification := None;
              compliance := None |}
         end;
     extraction := extraction artifact |}.


End Governance.


(** A thrown JavaScript value: an [Error] object with its [name] and its
    optional [code] property, or some other value. *)
Inductive Thrown : Type :=
| ErrorObject (name : string) (code : option string)
| NonError.

Definition thrown_TypeError : Thrown := ErrorObject "TypeError" None.

(* ================================================================== *)
(** ** src/security/middleware.ts *)
(* ================================================================== *)

Module Middleware.
Import Types.

(** A header value as [extractHeaders] distinguishes them: a string, an
    array (of strings, as HTTP libraries deliver repeated headers), or
    anything else. *)
Inductive HeaderValue : Type :=
| HString (s : string)
| HArray (xs : list string)
| HOther.

(** The inbound request ([unknown] in the source), as far as
    [extractHeaders] inspects it: not an object at all, or an object whose
    [headers] property, when it is an object, is listed in [Object.entries]
    order, and whose [params._meta.headers], when it is an object, is a
    string map. *)
Inductive Request : Type :=
| NotAnObject
| RequestObject (headers : option (list (string * HeaderValue)))
                (meta_headers : option (gmap string string)).

(** [c.toLowerCase()] on the ASCII range; header names are ASCII tokens. *)
Definition lower_ascii (c : ascii) : ascii :=
  let n := N_of_ascii c in
  if ((65 <=? n) && (n <=? 90))%N then ascii_of_N (n + 32) else c.

Fixpoint toLowerCase (s : string) : string :=
  match s with
  | EmptyString => EmptyString
  | String c rest => String (lower_ascii c) (toLowerCase rest)
  end.

(** [result[key] = value] on the plain object [result]: the assignment
    makes, or replaces, a property of the object's own, except under the
    name [__proto__], where it reaches the accessor of [Object.prototype],
    which ignores a string. *)
Definition assign (key value : string) (result : gmap string string)
  : gmap string string :=
  if String.eqb key "__proto__" then result else <[key := value]> result.

(** One round of the [for (const [key, value] of Object.entries(headers))]
    loop. *)
Definition copy_header (result : gmap string string) (entry : string * HeaderValue)
  : gmap string string :=
  match entry.2 with
  | HString v => assign (toLowerCase entry.1) v result
  | HArray (v :: _) => assign (toLowerCase entry.1) v result
  | _ => result
  end.

(** [extractHeaders]: the properties of its own that the object returned
    has.  The object is a plain one in every branch ([{}], the [result]
    built here, or the parsed [params._meta.headers], returned as it was
    sent), so that reading it also finds what [Object.prototype] holds:
    see [property]. *)
Definition extractHeaders (request : Request) : gmap string string :=
  match request with
  | NotAnObject => ∅
  | RequestObject (Some headers) _ => foldl copy_header ∅ headers
  | RequestObject None (Some headers) => headers
  | RequestObject None None => ∅
  end.

(** The names under which a plain object finds a member of
    [Object.prototype] when it has no property of its own: functions, and
    under [__proto__] the prototype object itself; every one of them is
    truthy and none is a string. *)
Definition object_prototype : list string :=
  ["constructor"; "__proto__"; "hasOwnProperty"; "isPrototypeOf";
   "propertyIsEnumerable"; "toLocaleString"; "toString"; "valueOf";
   "__defineGetter__"; "__defineSetter__"; "__lookupGetter__";
   "__lookupSetter__"].

(** What [headers[key]] evaluates to. *)
Inductive Property : Type :=
| Own (value : string)
| Inherited (member : string)
| Undefined.

Definition property (headers : gmap string string) (key : string) : Property :=
  match headers !! key with
  | Some value => Own value
  | None => if Js.includes key object_prototype then Inherited key else Undefined
  end.

(** What a middleware invocation does besides returning: the calls it
    makes, in order. *)
Inductive Call : Type :=
| CallBaseMiddleware (request : Request)
| CallExtractHeaders (request : Request).

Definition AuthMiddleware : Type := Request -> option AuthContext.

(** What [withOrganizationHeader] resolves: a context as the interface has
    it, or the base context with, for [organizationId], the member of
    [Object.prototype] that the header name denotes (a function or an
    object where the interface has a string). *)
Inductive Enriched : Type :=
| Context (context : AuthContext)
| ForeignOrganization (context : AuthContext) (member : string).

Definition withOrganizationHeader (baseMiddleware : AuthMiddleware)
           (orgHeader : option string) (request : Request)
  : list Call * option Enriched :=
  let orgHeader := default "x-organization-id" orgHeader in
  match baseMiddleware request with
  | None => ([CallBaseMiddleware request], None)
  | Some context =>
    let headers := extractHeaders request in
    let orgId := property headers (toLowerCase orgHeader) in
    ([CallBaseMiddleware request; CallExtractHeaders request],
     match orgId with
     | Own value =>
       if Js.truthy_str (Some value) then
         Some (Context {| userId := userId context;
                          roles := roles context;
                          organizationId := Some value;
                          permissions := permissions context |})
       else Some (Context context)
     | Inherited member => Some (ForeignOrganization context member)
     | Undefined => Some (Context context)
     end)
  end.

(** [composeAuthMiddleware]: the middlewares are tried in order; the trace
    lists the positions of those that were invoked. *)
Fixpoint compose_from (position : nat) (middlewares : list AuthMiddleware)
         (request : Request) : list nat * option AuthContext :=
  match middlewares with
  | [] => ([], None)
  | middleware :: rest =>
    match middleware request with
    | Some context => ([position], Some context)
    | None =>
      let '(calls, result) := compose_from (S position) rest request in
      (position :: calls, result)
    end
  end.

Definition composeAuthMiddleware (middlewares : list AuthMiddleware)
           (request : Request) : list nat * option AuthContext :=
  compose_from 0 middlewares request.

(** [headers['authorization'] || headers['x-auth-token']]; neither name is
    a member of [Object.prototype], so each is found only as a property of
    the object's own. *)
Definition authHeader (headers : gmap string string) : option string :=
  if Js.truthy_str (headers !! "authorization") then headers !! "authorization"
  else headers !! "x-auth-token".

(** [authHeader.startsWith('Bearer ') ? authHeader.slice(7) : authHeader] *)
Definition bearer_token (authHeader : string) : string :=
  if Js.startsWith authHeader "Bearer " then Js.slice_from 7 authHeader
  else authHeader.

(** [createTokenAuthMiddleware]; the [Map] of valid tokens is read by key
    only. *)
Definition createTokenAuthMiddleware (validTokens : gmap string AuthContext)
  : AuthMiddleware :=
  fun request =>
    let headers := extractHeaders request in
    let authHeader := authHeader headers in
    if negb (Js.truthy_str authHeader) then None
    else validTokens !! bearer_token (Js.render authHeader).

(** [s.split(',')] *)
Fixpoint split_commas (s : string) : list string :=
  match s with
  | EmptyString => [EmptyString]
  | String c rest =>
    if Ascii.eqb c "," then EmptyString :: split_commas rest
    else
      match split_commas rest with
      | first :: others => String c first :: others
      | [] => [String c EmptyString]
      end
  end.

(** [a || b] on an optional string and a default. *)
Definition or_default (o : option string) (d : string) : string :=
  if Js.truthy_str o then Js.render o else d.

(** [createEnvTokenMiddleware].  [validToken] is [process.env[envVarName]]
    as read when the middleware is created; [env] is [process.env] as it
    stands when a request is served.  The console warning of the open mode
    is not modelled. *)
Definition createEnvTokenMiddleware (validToken : option string)
           (env : gmap string string) : AuthMiddleware :=
  fun request =>
    if negb (Js.truthy_str validToken) then
      Some {| userId := "anonymous"; roles := Some ["user"];
              organizationId := None; permissions := None |}
    else
      let headers := extractHeaders request in
      let authHeader := authHeader headers in
      if negb (Js.truthy_str authHeader) then None
      else
        let token := bearer_token (Js.render authHeader) in
        if Js.seq_opt (Some token) validToken then
          Some {| userId := or_default (env !! "EDM_USER_ID") "authenticated-user";
                  roles :=
                    Some (split_commas (or_default (env !! "EDM_USER_ROLES") "user"));
                  organizationId := env !! "EDM_ORG_ID";
                  permissions := None |}
        else None.

End Middleware.

(* ================================================================== *)
(** ** src/storage/base.ts *)
(* ================================================================== *)

Module Storage.
Import Types.

Inductive StorageErrorCode : Type :=
| NOT_FOUND
| ALREADY_EXISTS
| PERMISSION_DENIED
| INVALID_DATA
| CONNECTION_ERROR
| UNKNOWN.

Record StorageError : Type := {
  message : string;
  code : StorageErrorCode;
  cause : option Thrown
}.

Definition refuse {A} (message : string) (code : StorageErrorCode)
  : Outcome StorageError A :=
  Throws {| message := message; code := code; cause := None |}.

(** [BaseArtifactStorage.validateArtifact] *)
Definition validateArtifact (artifact : EdmArtifact) : Outcome StorageError unit :=
  if negb (Js.truthy_str (artifact_id artifact)) then
    refuse "Artifact must have an artifact_id" INVALID_DATA
  else if negb (Js.truthy_str (schema_version artifact)) then
    refuse "Artifact must have a schema_version" INVALID_DATA
  else
    match governance artifact with
    | None => refuse "Artifact must have governance settings" INVALID_DATA
    | Some _ => Returns tt
    end.

(** The digits of [Number.prototype.toString(36)]. *)
Definition digit36 (n : N) : ascii :=
  match String.get (N.to_nat n) "0123456789abcdefghijklmnopqrstuvwxyz" with
  | Some c => c
  | None => "0"
  end.

Fixpoint digits36 (fuel : nat) (n : N) (acc : string) : string :=
  match fuel with
  | O => acc
  | S fuel =>
    let acc := String (digit36 (n mod 36)) acc in
    if (n / 36 =? 0)%N then acc else digits36 fuel (n / 36) acc
  end.

(** [n.toString(36)] for an integer [n]; a number has no more digits in
    base 36 than in base 2. *)
Definition toString36 (n : Z) : string :=
  let magnitude := Z.to_N (Z.abs n) in
  let digits := digits36 (S (N.to_nat (N.size magnitude))) magnitude "" in
  if n <? 0 then String "-" digits else digits.

(** [BaseArtifactStorage.generateId]: [nowMs] is [Date.now()] and [random]
    is [Math.random().toString(36).substring(2, 10)]. *)
Definition generateId (nowMs : Z) (random : string) : string :=
  "edm_" ++ toString36 nowMs ++ "_" ++ random.

(** [BaseEnvelopeStorage.validateEnvelope] *)
Definition validateEnvelope (envelope : DdnaEnvelope) : Outcome StorageError unit :=
  match artifact envelope with
  | None => refuse "Envelope must contain an artifact" INVALID_DATA
  | Some _ =>
    match signature envelope with
    | None => refuse "Envelope must have a signature" INVALID_DATA
    | Some signature =>
      if negb (Js.truthy_str (signer_did signature)) then
        refuse "Envelope signature must have a signer DID" INVALID_DATA
      else Returns tt
    end
  end.

(** [BaseEnvelopeStorage.generateId]; reading [envelope.artifact.artifact_id]
    needs the artifact. *)
Definition generateEnvelopeId (nowMs : Z) (envelope : DdnaEnvelope)
  : Outcome JsTypeError string :=
  match artifact envelope with
  | None => Throws TypeError
  | Some a =>
    Returns ("ddna_" ++ Js.render (artifact_id a) ++ "_" ++ toString36 nowMs)
  end.

End Storage.

(* ================================================================== *)
(** ** src/storage/memory.ts *)
(* ================================================================== *)

Module Memory.
Import Types.

(** A JavaScript [Map<string, V>]: entries in insertion order, keys
    distinct. *)
Definition JsMap (V : Type) : Type := list (string * V).

Fixpoint get {V} (store : JsMap V) (id : string) : option V :=
  match store with
  | [] => None
  | (k, v) :: rest => if String.eqb k id then Some v else get rest id
  end.

Definition keys {V} (store : JsMap V) : list string := map fst store.

(** [xs.filter(f)] with a callback that may throw: the first exception
    aborts the whole call. *)
Fixpoint filterM {E A} (f : A -> Outcome E bool) (xs : list A)
  : Outcome E (list A) :=
  match xs with
  | [] => Returns []
  | x :: rest =>
    let? keep := f x in
    let? kept := filterM f rest in
    Returns (if keep then x :: kept else kept)
  end.

(** [artifact?.meta.<p>]: [undefined] for a missing artifact, a
    [TypeError] for an artifact without [meta]. *)
Definition meta_prop {P} (p : ArtifactMeta -> option P) (entry : option EdmArtifact)
  : Outcome JsTypeError (option P) :=
  match entry with
  | None => Returns None
  | Some a => let? m := Governance.the_meta a in Returns (p m)
  end.

(** [filter.tags!.some((tag) => artifactTags.includes(tag))] *)
Definition some_tag (wanted artifactTags : list string) : bool :=
  existsb (fun tag => Js.includes tag artifactTags) wanted.

(** [filter.tags && filter.tags.length > 0] *)
Definition has_tags (o : option (list string)) : bool :=
  match o with
  | Some (_ :: _) => true
  | _ => false
  end.

(** The [if (filter.limit) { ... slice ... }] step shared by both stores. *)
Definition paginate (filter : StorageFilter) (ids : list string) : list string :=
  if Js.truthy_num (limit filter) then
    let offset := default 0 (offset filter) in
    Js.slice ids offset (offset + default 0 (limit filter))
  else ids.

(** [MemoryArtifactStorage.list] before its pagination step. *)
Definition artifact_filters (store : JsMap EdmArtifact) (filter : StorageFilter)
  : Outcome JsTypeError (list string) :=
  let ids := keys store in
  let? ids :=
    (if Js.truthy_str (f_userId filter) then
       filterM (fun id =>
                  let? owner := meta_prop owner_user_id (get store id) in
                  Returns (Js.seq_opt owner (f_userId filter))) ids
     else Returns ids) in
  let? ids :=
    (if Js.truthy_str (f_organizationId filter) then
       filterM (fun id =>
                  let? org := meta_prop owner_org_id (get store id) in
                  Returns (Js.seq_opt org (f_organizationId filter))) ids
     else Returns ids) in
  let? ids :=
    (if Js.truthy_str (f_visibility filter) then
       filterM (fun id =>
                  let? vis := meta_prop visibility (get store id) in
                  Returns (Js.seq_opt vis (f_visibility filter))) ids
     else Returns ids) in
  if has_tags (f_tags filter) then
    filterM (fun id =>
               let? artifactTags := meta_prop tags (get store id) in
               Returns (some_tag (default [] (f_tags filter))
                                 (default [] artifactTags))) ids
  else Returns ids.

(** [MemoryArtifactStorage.list] *)
Definition artifact_list (store : JsMap EdmArtifact) (filter : option StorageFilter)
  : Outcome JsTypeError (list string) :=
  match filter with
  | None => Returns (keys store)
  | Some filter =>
    let? ids := artifact_filters store filter in
    Returns (paginate filter ids)
  end.




(** [store.set(id, value)]: an existing key keeps its place. *)
Fixpoint set {V} (store : JsMap V) (id : string) (value : V) : JsMap V :=
  match store with
  | [] => [(id, value)]
  | (k, v) :: rest =>
    if String.eqb k id then (id, value) :: rest else (k, v) :: set rest id value
  end.

(** [store.delete(id)] *)
Fixpoint remove {V} (store : JsMap V) (id : string) : JsMap V :=
  match store with
  | [] => []
  | (k, v) :: rest => if String.eqb k id then rest else (k, v) :: remove rest id
  end.

(** [store.has(id)] *)
Definition has {V} (store : JsMap V) (id : string) : bool :=
  match get store id with
  | Some _ => true
  | None => false
  end.

(** [MemoryArtifactStorage.load]; the JSON round trip that copies the
    stored value is the identity on these values. *)
Definition load (store : JsMap EdmArtifact) (id : string)
  : Outcome Storage.StorageError EdmArtifact :=
  match get store id with
  | Some artifact => Returns artifact
  | None => Storage.refuse ("Artifact not found: " ++ id) Storage.NOT_FOUND
  end.

(** The first step of [save]: [if (!artifact.artifact_id)
    artifact.artifact_id = this.generateId()].  It is the caller's object
    that receives the id. *)
Definition ensure_id (nowMs : Z) (random : string) (artifact : EdmArtifact)
  : EdmArtifact :=
  if negb (Js.truthy_str (artifact_id artifact)) then
    {| schema_version := schema_version artifact;
       artifact_id := Some (Storage.generateId nowMs random);
       meta := meta artifact;
       content := content artifact;
       provenance := provenance artifact;
       governance := governance artifact;
       extraction := extraction artifact |}
  else artifact.

(** [MemoryArtifactStorage.save]: the id returned and the store
    afterwards. *)
Definition save (store : JsMap EdmArtifact) (nowMs : Z) (random : string)
           (artifact : EdmArtifact)
  : Outcome Storage.StorageError (string * JsMap EdmArtifact) :=
  let artifact := ensure_id nowMs random artifact in
  let? _ := Storage.validateArtifact artifact in
  let id := Js.render (artifact_id artifact) in
  Returns (id, set store id artifact).

(** [MemoryArtifactStorage.delete] and [MemoryEnvelopeStorage.delete];
    the two differ in the wording of the message. *)
Definition delete_from {V} (what : string) (store : JsMap V) (id : string)
  : Outcome Storage.StorageError (JsMap V) :=
  if negb (has store id) then
    Storage.refuse (what ++ " not found: " ++ id) Storage.NOT_FOUND
  else Returns (remove store id).

Definition delete (store : JsMap EdmArtifact) (id : string)
  : Outcome Storage.StorageError (JsMap EdmArtifact) :=
  delete_from "Artifact" store id.

(** [exists], [clear], [count] *)
Definition exists_ {V} (store : JsMap V) (id : string) : bool := has store id.

Definition clear {V} (store : JsMap V) : JsMap V := [].

Definition count {V} (store : JsMap V) : nat := length store.

(** How [MemoryEnvelopeStorage.save] can fail. *)
Inductive SaveFailure : Type :=
| Refused (e : Storage.StorageError)
| UncaughtTypeError.

(** [MemoryEnvelopeStorage.load] *)
Definition envelope_load (store : JsMap DdnaEnvelope) (id : string)
  : Outcome Storage.StorageError DdnaEnvelope :=
  match get store id with
  | Some envelope => Returns envelope
  | None => Storage.refuse ("Envelope not found: " ++ id) Storage.NOT_FOUND
  end.

(** [MemoryEnvelopeStorage.save] *)
Definition envelope_save (store : JsMap DdnaEnvelope) (nowMs : Z)
           (envelope : DdnaEnvelope)
  : Outcome SaveFailure (string * JsMap DdnaEnvelope) :=
  match Storage.validateEnvelope envelope with
  | Throws e => Throws (Refused e)
  | Returns _ =>
    match Storage.generateEnvelopeId nowMs envelope with
    | Throws TypeError => Throws UncaughtTypeError
    | Returns id => Returns (id, set store id envelope)
    end
  end.

Definition envelope_delete (store : JsMap DdnaEnvelope) (id : string)
  : Outcome Storage.StorageError (JsMap DdnaEnvelope) :=
  delete_from "Envelope" store id.

End Memory.

(* ================================================================== *)
(** ** src/resources/ddna.ts *)
(* ================================================================== *)

Module Ddna.
Import Types.

Definition DDNA_URI_PREFIX : string := "ddna://envelope/".

Definition DDNA_MIME_TYPE : string := "application/vnd.deepadata.ddna+json".

Definition parseDdnaUri (uri : string) : option string :=
  if negb (Js.startsWith uri DDNA_URI_PREFIX) then None
  else
    let id := Js.slice_from (String.length DDNA_URI_PREFIX) uri in
    if String.eqb id "" then None else Some id.

Record DdnaResourceResult : Type := {
  uri : string;
  mimeType : string;
  text : string
}.

Inductive DdnaResourceErrorCode : Type :=
| NOT_FOUND
| ACCESS_DENIED
| INVALID_URI
| INVALID_SIGNATURE
| STORAGE_ERROR.

(** How [read] can fail: with a [DdnaResourceError] of its own, or with an
    exception it does not catch. *)
Inductive ReadFailure : Type :=
| DdnaResourceError (message : string) (code : DdnaResourceErrorCode)
| Uncaught (e : Thrown).

(** The answer of the signature-verification capability. *)
Record Verification : Type := {
  valid : bool;
  error : option string
}.

(** The collaborators [read] calls, in call order. *)
Inductive Effect : Type :=
| StorageLoad (id : string)
| VerifySignature (envelope : DdnaEnvelope)
| GetAuthContext
| CanAccessEnvelope (envelope : DdnaEnvelope) (context : option AuthContext)
                    (purpose : Governance.Purpose).

(** [error instanceof Error && 'code' in error && error.code === 'NOT_FOUND'] *)
Definition is_not_found (error : Thrown) : bool :=
  match error with
  | ErrorObject _ (Some code) => String.eqb code "NOT_FOUND"
  | _ => false
  end.

Section Provider.
Variable Date_parse : string -> Js.Date.
Variable now : Z.
(** [this.storage.load] *)
Variable storage_load : string -> Outcome Thrown DdnaEnvelope.
(** What [this.getAuthContext()] answers during this request. *)
Variable authContext : option AuthContext.
(** [this.verifySignature] *)
Variable verifySignature : DdnaEnvelope -> Outcome Thrown Verification.
(** [JSON.stringify(envelope, null, 2)] *)
Variable JSON_stringify : DdnaEnvelope -> string.

Definition read (uri : string)
  : list Effect * Outcome ReadFailure DdnaResourceResult :=
  match parseDdnaUri uri with
  | None =>
    ([], Throws (DdnaResourceError ("Invalid DDNA URI: " ++ uri) INVALID_URI))
  | Some id =>
    match storage_load id with
    | Throws error =>
      ([StorageLoad id],
       if is_not_found error then
         Throws (DdnaResourceError ("Envelope not found: " ++ id) NOT_FOUND)
       else
         Throws (DdnaResourceError ("Failed to load envelope: " ++ id) STORAGE_ERROR))
    | Returns envelope =>
      match verifySignature envelope with
      | Throws e => ([StorageLoad id; VerifySignature envelope], Throws (Uncaught e))
      | Returns verification =>
        if negb (valid verification) then
          ([StorageLoad id; VerifySignature envelope],
           Throws (DdnaResourceError
                     ("Invalid envelope signature: " ++ Js.render (error verification))
                     INVALID_SIGNATURE))
        else
          let trace :=
            [StorageLoad id; VerifySignature envelope; GetAuthContext;
             CanAccessEnvelope envelope authContext Governance.Export] in
          match Governance.canAccessEnvelope Date_parse now envelope authContext
                                             Governance.Export with
          | Throws TypeError => (trace, Throws (Uncaught thrown_TypeError))
          | Returns accessCheck =>
            if negb (Governance.allowed accessCheck) then
              (trace,
               Throws (DdnaResourceError
                         ("Access denied: "
                            ++ Js.join ", " (Governance.reasons accessCheck))
                         ACCESS_DENIED))
            else
              (trace,
               Returns {| uri := uri;
                          mimeType := DDNA_MIME_TYPE;
                          text := JSON_stringify envelope |})
          end
      end
    end
  end.

End Provider.

(** [buildDdnaUri] *)
Definition buildDdnaUri (id : string) : string := DDNA_URI_PREFIX ++ id.

(** [defaultVerifier]: the placeholder that accepts whatever carries a
    signature value and a signer. *)
Definition defaultVerifier (envelope : DdnaEnvelope) : Outcome Thrown Verification :=
  if negb (Js.truthy_str (signature envelope ≫= value)) then
    Returns {| valid := false; error := Some "Missing signature" |}
  else if negb (Js.truthy_str (signature envelope ≫= signer_did)) then
    Returns {| valid := false; error := Some "Missing signer DID" |}
  else Returns {| valid := true; error := None |}.

Record DdnaResourceListItem : Type := {
  item_uri : string;
  item_name : string;
  item_description : option string;
  item_mimeType : string;
  signer : option string;
  sealedAt : option string
}.

Section Listing.
Variable Date_parse : string -> Js.Date.
Variable now : Z.
(** [this.storage.load] and the outcome of [this.storage.list()] *)
Variable storage_load : string -> Outcome Thrown DdnaEnvelope.
Variable storage_list : Outcome Thrown (list string).
Variable authContext : option AuthContext.

(** The body of the [try] block of [list] for one id: [None] stands for
    [continue]. *)
Definition list_entry (id : string) (envelope : DdnaEnvelope)
  : Outcome JsTypeError (option DdnaResourceListItem) :=
  let? accessCheck :=
    Governance.canAccessEnvelope Date_parse now envelope authContext Governance.Read in
  if negb (Governance.allowed accessCheck) then Returns None
  else
    match artifact envelope with
    | None => Throws TypeError
    | Some artifact =>
      let? m := Governance.the_meta artifact in
      match signature envelope with
      | None => Throws TypeError
      | Some signature =>
        Returns (Some {| item_uri := buildDdnaUri id;
                         item_name := if Js.truthy_str (title m)
                                      then Js.render (title m) else id;
                         item_description := description m;
                         item_mimeType := DDNA_MIME_TYPE;
                         signer := signer_did signature;
                         sealedAt := sealed_at envelope |})
      end
    end.

(** The [for (const id of ids)] loop; whatever an iteration throws is
    caught and the entry skipped. *)
Fixpoint list_entries (ids : list string) : list DdnaResourceListItem :=
  match ids with
  | [] => []
  | id :: rest =>
    match storage_load id with
    | Throws _ => list_entries rest
    | Returns envelope =>
      match list_entry id envelope with
      | Returns (Some item) => item :: list_entries rest
      | Returns None | Throws _ => list_entries rest
      end
    end
  end.

(** [DdnaResourceProvider.list] *)
Definition list : Outcome Thrown (list DdnaResourceListItem) :=
  let? ids := storage_list in
  Returns (list_entries ids).

End Listing.

End Ddna.

(* ================================================================== *)
(** ** src/tools/seal.ts *)
(* ================================================================== *)

Module Seal.
Import Types.

Inductive SealErrorCode : Type :=
| INVALID_INPUT
| GOVERNANCE_VIOLATION
| SIGNING_FAILED
| STORAGE_FAILED
| INVALID_KEY.

Record SealError : Type := {
  message : string;
  code : SealErrorCode;
  cause : option Thrown
}.

(** [/^[0-9a-fA-F]$/] on one character *)
Definition is_hex_digit (c : ascii) : bool :=
  let n := N_of_ascii c in
  (((48 <=? n) && (n <=? 57)) || ((97 <=? n) && (n <=? 102))
   || ((65 <=? n) && (n <=? 70)))%N.

(** [/^[0-9a-fA-F]*$/.test(s)] *)
Fixpoint all_hex (s : string) : bool :=
  match s with
  | EmptyString => true
  | String c rest => is_hex_digit c && all_hex rest
  end.

(** The value [parseInt] gives one hexadecimal digit. *)
Definition hex_value (c : ascii) : Z :=
  let n := Z.of_N (N_of_ascii c) in
  if (48 <=? n) && (n <=? 57) then n - 48
  else if (97 <=? n) && (n <=? 102) then n - 87
  else n - 55.

(** The loop [for (i = 0; i < cleanHex.length; i += 2)
    bytes[i / 2] = parseInt(cleanHex.substring(i, i + 2), 16)]. *)
Fixpoint parse_pairs (s : string) : list Z :=
  match s with
  | String hi (String lo rest) => (16 * hex_value hi + hex_value lo) :: parse_pairs rest
  | _ => []
  end.

(** [hex.startsWith('0x') ? hex.slice(2) : hex] *)
Definition cleanHex (hex : string) : string :=
  if Js.startsWith hex "0x" then Js.slice_from 2 hex else hex.

(** [hexToKey]; a [Uint8Array] is the list of its bytes. *)
Definition hexToKey (hex : string) : Outcome SealError (list Z) :=
  let cleanHex := cleanHex hex in
  if negb (all_hex cleanHex) then
    Throws {| message := "Invalid hex string"; code := INVALID_KEY; cause := None |}
  else if negb (Nat.eqb (String.length cleanHex mod 2) 0) then
    Throws {| message := "Hex string must have even length";
              code := INVALID_KEY; cause := None |}
  else Returns (parse_pairs cleanHex).

(** The arguments of [execute]; [artifact] and [did] are tested for
    absence by the code. *)
Record Args : Type := {
  arg_artifact : option EdmArtifact;
  privateKey : string;
  did : option string;
  arg_algorithm : option string;
  save : option bool
}.

Record SealResult : Type := {
  envelope : DdnaEnvelope;
  savedId : option string;
  warnings : option (list string)
}.

(** How [execute] can fail: with a [SealError], or with an exception it
    does not catch. *)
Inductive Failure : Type :=
| Rejected (e : SealError)
| Uncaught (e : Thrown).

(** The capabilities [execute] invokes, in call order. *)
Inductive Effect : Type :=
| SealFn (artifact : EdmArtifact) (privateKey : list Z) (did : string)
         (algorithm : option string)
| StorageSave (envelope : DdnaEnvelope).

(** A [SealError] as the thrown value it is. *)
Definition as_thrown (e : SealError) : Thrown :=
  ErrorObject "SealError"
    (Some match code e with
          | INVALID_INPUT => "INVALID_INPUT"
          | GOVERNANCE_VIOLATION => "GOVERNANCE_VIOLATION"
          | SIGNING_FAILED => "SIGNING_FAILED"
          | STORAGE_FAILED => "STORAGE_FAILED"
          | INVALID_KEY => "INVALID_KEY"
          end).

Definition reject (message : string) (code : SealErrorCode) (cause : option Thrown)
  : Outcome Failure SealResult :=
  Throws (Rejected {| message := message; code := code; cause := cause |}).

Section Handler.
(** [this.storage]: absent, or its [save] method. *)
Variable storage : option (DdnaEnvelope -> Outcome Thrown string).
(** [this.sealFn] *)
Variable sealFn :
  EdmArtifact -> list Z -> string -> option string -> Outcome Thrown DdnaEnvelope.

Definition execute (args : Args) : list Effect * Outcome Failure SealResult :=
  match arg_artifact args with
  | None => ([], reject "Artifact is required" INVALID_INPUT None)
  | Some artifact =>
    if negb (Js.truthy_str (artifact_id artifact)) then
      ([], reject "Artifact must have an artifact_id" INVALID_INPUT None)
    else
      let govValidation := Governance.validateGovernance artifact in
      if negb (Governance.valid govValidation) then
        ([], reject ("Governance validation failed: "
                       ++ Js.join ", " (Governance.errors govValidation))
                    GOVERNANCE_VIOLATION None)
      else
        let warnings := Governance.warnings govValidation in
        match Governance.canExport artifact with
        | Throws TypeError => ([], Throws (Uncaught thrown_TypeError))
        | Returns false =>
          ([], reject "Artifact is not exportable and cannot be sealed"
                      GOVERNANCE_VIOLATION None)
        | Returns true =>
          if negb (Js.truthy_str (did args))
             || negb (Js.startsWith (Js.render (did args)) "did:")
          then
            ([], reject "Invalid DID format (must start with did:)" INVALID_INPUT None)
          else
            match hexToKey (privateKey args) with
            | Throws error =>
              ([], reject "Invalid private key format" INVALID_KEY
                          (Some (as_thrown error)))
            | Returns privateKeyBytes =>
              let sealing :=
                SealFn artifact privateKeyBytes (Js.render (did args))
                       (arg_algorithm args) in
              match sealFn artifact privateKeyBytes (Js.render (did args))
                           (arg_algorithm args) with
              | Throws error =>
                ([sealing], reject "Signing failed" SIGNING_FAILED (Some error))
              | Returns envelope =>
                let result savedId :=
                  Returns {| envelope := envelope;
                             savedId := savedId;
                             warnings :=
                               match warnings with
                               | [] => None
                               | _ :: _ => Some warnings
                               end |} in
                match default false (save args), storage with
                | true, Some storage_save =>
                  match storage_save envelope with
                  | Throws error =>
                    ([sealing; StorageSave envelope],
                     reject "Failed to save envelope" STORAGE_FAILED (Some error))
                  | Returns id => ([sealing; StorageSave envelope], result (Some id))
                  end
                | _, _ => ([sealing], result None)
                end
              end
            end
        end
  end.

End Handler.

End Seal.

(* ================================================================== *)
(** ** src/resources/edm.ts *)
(* ================================================================== *)

Module Edm.
Import Types.

Definition EDM_URI_PREFIX : string := "edm://artifact/".

Definition EDM_MIME_TYPE : string := "application/json".

Definition parseEdmUri (uri : string) : option string :=
  if negb (Js.startsWith uri EDM_URI_PREFIX) then None
  else
    let id := Js.slice_from (String.length EDM_URI_PREFIX) uri in
    if String.eqb id "" then None else Some id.

Definition buildEdmUri (id : string) : string := EDM_URI_PREFIX ++ id.

Record EdmResourceResult : Type := {
  uri : string;
  mimeType : string;
  text : string
}.

Inductive EdmResourceErrorCode : Type :=
| NOT_FOUND
| ACCESS_DENIED
| INVALID_URI
| STORAGE_ERROR.

(** How [read] can fail: with an [EdmResourceError] of its own, or with an
    exception it does not catch. *)
Inductive ReadFailure : Type :=
| EdmResourceError (message : string) (code : EdmResourceErrorCode)
| Uncaught (e : Thrown).

(** The collaborators [read] calls, in call order. *)
Inductive Effect : Type :=
| StorageLoad (id : string)
| GetAuthContext
| CanAccess (artifact : EdmArtifact) (context : option AuthContext)
            (purpose : Governance.Purpose).

Record EdmResourceListItem : Type := {
  item_uri : string;
  item_name : string;
  item_description : option string;
  item_mimeType : string
}.

Section Provider.
Variable Date_parse : string -> Js.Date.
Variable now : Z.
(** [this.storage.load] and the outcome of [this.storage.list()] *)
Variable storage_load : string -> Outcome Thrown EdmArtifact.
Variable storage_list : Outcome Thrown (list string).
(** What [this.getAuthContext()] answers during this request. *)
Variable authContext : option AuthContext.
(** [JSON.stringify(artifact, null, 2)] *)
Variable JSON_stringify : EdmArtifact -> string.

(** [EdmResourceProvider.read] *)
Definition read (uri : string) : list Effect * Outcome ReadFailure EdmResourceResult :=
  match parseEdmUri uri with
  | None =>
    ([], Throws (EdmResourceError ("Invalid EDM URI: " ++ uri) INVALID_URI))
  | Some id =>
    match storage_load id with
    | Throws error =>
      ([StorageLoad id],
       if Ddna.is_not_found error then
         Throws (EdmResourceError ("Artifact not found: " ++ id) NOT_FOUND)
       else
         Throws (EdmResourceError ("Failed to load artifact: " ++ id) STORAGE_ERROR))
    | Returns artifact =>
      let trace :=
        [StorageLoad id; GetAuthContext;
         CanAccess artifact authContext Governance.Export] in
      match Governance.canAccess Date_parse now artifact authContext
                                 Governance.Export with
      | Throws TypeError => (trace, Throws (Uncaught thrown_TypeError))
      | Returns accessCheck =>
        if negb (Governance.allowed accessCheck) then
          (trace,
           Throws (EdmResourceError
                     ("Access denied: "
                        ++ Js.join ", " (Governance.reasons accessCheck))
                     ACCESS_DENIED))
        else
          (trace,
           Returns {| uri := uri;
                      mimeType := EDM_MIME_TYPE;
                      text := JSON_stringify artifact |})
      end
    end
  end.

(** The body of the [try] block of [list] for one id: [None] stands for
    [continue]. *)
Definition list_entry (id : string) (artifact : EdmArtifact)
  : Outcome JsTypeError (option EdmResourceListItem) :=
  let? accessCheck :=
    Governance.canAccess Date_parse now artifact authContext Governance.Read in
  if negb (Governance.allowed accessCheck) then Returns None
  else
    let? m := Governance.the_meta artifact in
    Returns (Some {| item_uri := buildEdmUri id;
                     item_name := if Js.truthy_str (title m)
                                  then Js.render (title m) else id;
                     item_description := description m;
                     item_mimeType := EDM_MIME_TYPE |}).

(** The [for (const id of ids)] loop; whatever an iteration throws is
    caught and the entry skipped. *)
Fixpoint list_entries (ids : list string) : list EdmResourceListItem :=
  match ids with
  | [] => []
  | id :: rest =>
    match storage_load id with
    | Throws _ => list_entries rest
    | Returns artifact =>
      match list_entry id artifact with
      | Returns (Some item) => item :: list_entries rest
      | Returns None | Throws _ => list_entries rest
      end
    end
  end.

(** [EdmResourceProvider.list] *)
Definition list : Outcome Thrown (list EdmResourceListItem) :=
  let? ids := storage_list in
  Returns (list_entries ids).

End Provider.

End Edm.

(* ================================================================== *)
(** ** Untyped JSON values, as the tools probe them *)
(* ================================================================== *)

Module JsonValue.
Import Types.

(** [o[key]] for an object that lists each key once. *)
Fixpoint lookup (key : string) (kvs : list (string * Json)) : option Json :=
  match kvs with
  | [] => None
  | (k, v) :: rest => if String.eqb k key then Some v else lookup key rest
  end.

(** [j.key] for a value [j] that is neither [null] nor [undefined]:
    numbers, booleans, strings and arrays have no such property. *)
Definition prop (key : string) (j : Json) : option Json :=
  match j with
  | JObj kvs => lookup key kvs
  | _ => None
  end.

(** [j?.key] where [j] may be [undefined] or [null]. *)
Definition chain (key : string) (j : option Json) : option Json :=
  match j with
  | None | Some JNull => None
  | Some j => prop key j
  end.

(** Truthiness of a value that is there. *)
Definition truthy_value (j : Json) : bool :=
  match j with
  | JNull => false
  | JBool b => b
  | JNum n => negb (n =? 0)
  | JStr s => negb (String.eqb s "")
  | JArr _ | JObj _ => true
  end.

(** Truthiness of a property that may be absent. *)
Definition truthy (j : option Json) : bool :=
  match j with
  | Some j => truthy_value j
  | None => false
  end.

End JsonValue.

(* ================================================================== *)
(** ** src/tools/extract.ts *)
(* ================================================================== *)

Module Extract.
Import Types.

Inductive ExtractionErrorCode : Type :=
| INVALID_INPUT
| EXTRACTION_FAILED
| STORAGE_FAILED
| API_ERROR.

Record ExtractionError : Type := {
  message : string;
  code : ExtractionErrorCode;
  cause : option Thrown
}.

(** The arguments object of a tool call.  The server hands over what the
    client sent, unchecked against the input schema: [text] is whatever
    JSON value arrived under that key, if any. *)
Record Args : Type := {
  text : option Json;
  image : option string;
  metadata : option Json;
  contentType : option string;
  save : option bool
}.

(** [request.params.arguments] as a tool receives it: nothing at all
    ([undefined] or [null]), a value that is no object and so has no
    [text] to read, or an arguments object. *)
Inductive ToolArguments : Type :=
| NoArguments
| NotAnObject
| ArgumentsObject (args : Args).

(** What [!args.text || args.text.trim().length === 0] makes of the text:
    it is turned away, or it goes on as the string it is, or it is truthy
    and no string, so that [args.text.trim] is not a function. *)
Inductive TextCheck : Type :=
| Blank
| Text (text : string)
| NotAString.

Record RequestContent : Type := {
  content_text : string;
  content_image : option string
}.

Record ExtractionRequest : Type := {
  request_content : RequestContent;
  request_metadata : option Json
}.

Record ExtractionInfo : Type := {
  model : option Json;
  confidence : option Json;
  extracted_at : Json
}.

Record ExtractionResult : Type := {
  artifact : EdmArtifact;
  savedId : option string;
  extraction_info : ExtractionInfo
}.

(** How [execute] can fail: with an [ExtractionError], or with an
    exception it does not catch. *)
Inductive Failure : Type :=
| Rejected (e : ExtractionError)
| Uncaught (e : Thrown).

(** The capabilities [execute] invokes, in call order. *)
Inductive Effect : Type :=
| ExtractFn (request : ExtractionRequest)
| GetAuthContext
| StorageSave (artifact : EdmArtifact).

Definition reject (message : string) (code : ExtractionErrorCode)
           (cause : option Thrown) : Outcome Failure ExtractionResult :=
  Throws (Rejected {| message := message; code := code; cause := cause |}).

(** The two assignments [artifact.meta.owner_user_id = authContext.userId]
    and [artifact.meta.owner_org_id = authContext.organizationId]; they
    need [artifact.meta]. *)
Definition set_owner (context : AuthContext) (artifact : EdmArtifact)
  : Outcome JsTypeError EdmArtifact :=
  match meta artifact with
  | None => Throws TypeError
  | Some m =>
    Returns {| schema_version := schema_version artifact;
               artifact_id := artifact_id artifact;
               meta := Some {| created_at := created_at m;
                               updated_at := updated_at m;
                               visibility := visibility m;
                               owner_user_id := Some (userId context);
                               owner_org_id := organizationId context;
                               tags := tags m;
                               title := title m;
                               description := description m |};
               content := content artifact;
               provenance := provenance artifact;
               governance := governance artifact;
               extraction := Types.extraction artifact |}
  end.

Section Handler.
(** [String.prototype.trim] *)
Variable trim : string -> string.
(** [new Date().toISOString()] when the defaults are applied, and when the
    result is built. *)
Variable nowIso : string.
Variable laterIso : string.
(** [this.storage]: absent, or its [save] method, which answers with the
    id and leaves the artifact object it was handed in some state (a store
    writes the id it generates into the object). *)
Variable storage : option (EdmArtifact -> Outcome Thrown (string * EdmArtifact)).
(** What [this.getAuthContext()] answers during this request. *)
Variable authContext : option AuthContext.
(** [this.extractFn]; it may resolve to [null] or [undefined] ([None])
    where an artifact is due. *)
Variable extractFn : ExtractionRequest -> Outcome Thrown (option EdmArtifact).

Definition check_text (args : Args) : TextCheck :=
  match text args with
  | None => Blank
  | Some (JStr s) =>
    if negb (JsonValue.truthy_value (JStr s)) || (String.length (trim s) =? 0)%nat
    then Blank else Text s
  | Some other => if JsonValue.truthy_value other then NotAString else Blank
  end.

Definition result (artifact : EdmArtifact) (savedId : option string)
  : Outcome Failure ExtractionResult :=
  Returns
    {| artifact := artifact;
       savedId := savedId;
       extraction_info :=
         {| model := JsonValue.chain "model" (Types.extraction artifact);
            confidence := JsonValue.chain "confidence" (Types.extraction artifact);
            extracted_at :=
              match JsonValue.chain "extracted_at" (Types.extraction artifact) with
              | Some at_ => if JsonValue.truthy_value at_ then at_ else JStr laterIso
              | None => JStr laterIso
              end |} |}.

(** [ExtractToolHandler.execute], called with an arguments object.  The
    input check and [applyDefaultGovernance(artifact)] stand outside the
    two [try] blocks: a [TypeError] raised there leaves [execute] as it
    is. *)
Definition execute (args : Args) : list Effect * Outcome Failure ExtractionResult :=
  match check_text args with
  | Blank => ([], reject "Text content is required" INVALID_INPUT None)
  | NotAString => ([], Throws (Uncaught thrown_TypeError))
  | Text text =>
    let request :=
      {| request_content := {| content_text := text;
                               content_image := image args |};
         request_metadata := metadata args |} in
    match extractFn request with
    | Throws error =>
      ([ExtractFn request], reject "Extraction failed" EXTRACTION_FAILED (Some error))
    | Returns None => ([ExtractFn request], Throws (Uncaught thrown_TypeError))
    | Returns (Some artifact) =>
      let artifact := Governance.applyDefaultGovernance nowIso artifact in
      match
        match authContext with
        | Some context => set_owner context artifact
        | None => Returns artifact
        end
      with
      | Throws TypeError =>
        ([ExtractFn request; GetAuthContext], Throws (Uncaught thrown_TypeError))
      | Returns artifact =>
        match default false (save args), storage with
        | true, Some storage_save =>
          let trace := [ExtractFn request; GetAuthContext; StorageSave artifact] in
          match storage_save artifact with
          | Throws error =>
            (trace, reject "Failed to save artifact" STORAGE_FAILED (Some error))
          | Returns (id, artifact) => (trace, result artifact (Some id))
          end
        | _, _ => ([ExtractFn request; GetAuthContext], result artifact None)
        end
      end
    end
  end.

(** The handler [createExtractTool] returns, [(args) => handler.execute(args)],
    on what the server passes it: [execute] starts by reading [args.text]. *)
Definition handler (arguments : ToolArguments)
  : list Effect * Outcome Failure ExtractionResult :=
  match arguments with
  | NoArguments => ([], Throws (Uncaught thrown_TypeError))
  | NotAnObject => ([], reject "Text content is required" INVALID_INPUT None)
  | ArgumentsObject args => execute args
  end.

End Handler.

(** A [StorageError] as the thrown value it is. *)
Definition storage_thrown (e : Storage.StorageError) : Thrown :=
  ErrorObject "StorageError"
    (Some match Storage.code e with
          | Storage.NOT_FOUND => "NOT_FOUND"
          | Storage.ALREADY_EXISTS => "ALREADY_EXISTS"
          | Storage.PERMISSION_DENIED => "PERMISSION_DENIED"
          | Storage.INVALID_DATA => "INVALID_DATA"
          | Storage.CONNECTION_ERROR => "CONNECTION_ERROR"
          | Storage.UNKNOWN => "UNKNOWN"
          end).

(** The [save] method of a [MemoryArtifactStorage] that holds [store], as
    the handler sees it: the id, and the artifact object with the id the
    store may have written into it. *)
Definition memory_save (store : Memory.JsMap EdmArtifact) (nowMs : Z)
           (random : string) (artifact : EdmArtifact)
  : Outcome Thrown (string * EdmArtifact) :=
  match Memory.save store nowMs random artifact with
  | Returns (id, _) => Returns (id, Memory.ensure_id nowMs random artifact)
  | Throws e => Throws (storage_thrown e)
  end.

End Extract.

(* ================================================================== *)
(** ** src/tools/validate.ts *)
(* ================================================================== *)

Module Validate.
Import Types.

Record ValidationError : Type := {
  path : string;
  message : string;
  code : string
}.

(** A [ValidationWarning] has the shape of a [ValidationError]. *)
Definition ValidationWarning : Type := ValidationError.

Record ValidationResult : Type := {
  valid : bool;
  errors : list ValidationError;
  warnings : option (list ValidationWarning)
}.

Definition is_digit (c : ascii) : bool :=
  (48 <=? nat_of_ascii c)%nat && (nat_of_ascii c <=? 57)%nat.

(** What a run of digits leaves of the text. *)
Fixpoint skip_digits (s : string) : string :=
  match s with
  | String c rest => if is_digit c then skip_digits rest else s
  | EmptyString => s
  end.

(** [\d+]: what a non-empty run of digits leaves.  The pattern continues
    with a dot or the end of the text, so the longest run is the only one
    that can match. *)
Definition digits (s : string) : option string :=
  match s with
  | String c rest => if is_digit c then Some (skip_digits rest) else None
  | EmptyString => None
  end.

(** [\.] *)
Definition dot (s : string) : option string :=
  match s with
  | String c rest => if Ascii.eqb c "." then Some rest else None
  | EmptyString => None
  end.

(** [s.match(/^\d+\.\d+\.\d+$/)], as a truth value. *)
Definition matches_semver (s : string) : bool :=
  match digits s ≫= (fun s => dot s ≫= (fun s => digits s ≫= (fun s =>
        dot s ≫= digits))) with
  | Some rest => String.eqb rest ""
  | None => false
  end.

Definition error (path message code : string) : ValidationError :=
  {| path := path; message := message; code := code |}.

Definition missing (path : string) : ValidationError :=
  error path ("Missing required field: " ++ path) "MISSING_FIELD".

Section Validator.
(** [Date.parse]; [None] is [NaN]. *)
Variable Date_parse : string -> Js.Date.

(** The checks of [defaultValidator] on [artifact.meta]: errors and
    warnings. *)
Definition check_meta (m : ArtifactMeta)
  : list ValidationError * list ValidationWarning :=
  ((if negb (Js.truthy_str (created_at m)) then [missing "meta.created_at"]
    else match Date_parse (Js.render (created_at m)) with
         | None => [error "meta.created_at" "Invalid ISO8601 date format"
                          "INVALID_FORMAT"]
         | Some _ => []
         end)
     ++ (if negb (Js.truthy_str (visibility m)) then []
         else if negb (declared_visibility (Js.render (visibility m))) then
                [error "meta.visibility" "Invalid visibility value" "INVALID_VALUE"]
              else []),
   if negb (Js.truthy_str (visibility m)) then
     [error "meta.visibility" "Missing visibility, will default to private"
            "MISSING_OPTIONAL"]
   else [])%list.

(** [defaultValidator] *)
Definition defaultValidator (artifact : option EdmArtifact) : ValidationResult :=
  match artifact with
  | None =>
    {| valid := false;
       errors := [error "" "Artifact is null or undefined" "MISSING_ARTIFACT"];
       warnings := Some [] |}
  | Some artifact =>
    let version_errors :=
      if negb (Js.truthy_str (schema_version artifact)) then [missing "schema_version"]
      else if negb (matches_semver (Js.render (schema_version artifact))) then
             [error "schema_version"
                    "Invalid schema_version format (expected semver)" "INVALID_FORMAT"]
           else [] in
    let id_errors :=
      if negb (Js.truthy_str (artifact_id artifact)) then [missing "artifact_id"]
      else [] in
    let meta_checks :=
      match meta artifact with
      | None => ([missing "meta"], [])
      | Some m => check_meta m
      end in
    let content_errors :=
      match content artifact with
      | Some c =>
        if JsonValue.truthy_value c then
          ((if negb (JsonValue.truthy (JsonValue.prop "type" c))
            then [missing "content.type"] else [])
             ++ (if negb (JsonValue.truthy (JsonValue.prop "data" c))
                 then [missing "content.data"] else []))%list
        else [missing "content"]
      | None => [missing "content"]
      end in
    let provenance_errors :=
      match provenance artifact with
      | Some p =>
        if JsonValue.truthy_value p then
          if negb (JsonValue.truthy (JsonValue.prop "source" p))
          then [missing "provenance.source"] else []
        else [missing "provenance"]
      | None => [missing "provenance"]
      end in
    let governance_checks :=
      match governance artifact with
      | None => ([missing "governance"], [])
      | Some _ =>
        let govValidation := Governance.validateGovernance artifact in
        (map (fun e => error "governance" e "GOVERNANCE_ERROR")
             (Governance.errors govValidation),
         map (fun w => error "governance" w "GOVERNANCE_WARNING")
             (Governance.warnings govValidation))
      end in
    let extraction_warnings :=
      match extraction artifact with
      | Some x =>
        if JsonValue.truthy_value x
           && negb (JsonValue.truthy (JsonValue.prop "extracted_at" x))
        then [error "extraction.extracted_at" "Missing extraction timestamp"
                    "MISSING_OPTIONAL"]
        else []
      | None => []
      end in
    let errors :=
      (version_errors ++ id_errors ++ fst meta_checks ++ content_errors
         ++ provenance_errors ++ fst governance_checks)%list in
    let warnings :=
      (snd meta_checks ++ snd governance_checks ++ extraction_warnings)%list in
    {| valid := match errors with [] => true | _ :: _ => false end;
       errors := errors;
       warnings := match warnings with [] => None | _ :: _ => Some warnings end |}
  end.

End Validator.

Record Args : Type := {
  arg_artifact : option EdmArtifact;
  strict : option bool
}.

(** The error strict mode makes of a warning. *)
Definition strict_error (w : ValidationWarning) : ValidationError :=
  {| path := path w;
     message := "[Strict] " ++ message w;
     code := "STRICT_" ++ code w |}.

Section Handler.
(** [this.validateFn] *)
Variable validateFn : option EdmArtifact -> ValidationResult.

(** [ValidateToolHandler.execute] *)
Definition execute (args : Args) : ValidationResult :=
  let result := validateFn (arg_artifact args) in
  match default false (strict args), warnings result with
  | true, Some (w :: ws) =>
    {| valid := false;
       errors := (errors result ++ map strict_error (w :: ws))%list;
       warnings := None |}
  | _, _ => result
  end.

End Handler.

End Validate.
(* ================================================================== *)
(** * Sample data used to exercise the theorems *)
(* ================================================================== *)

Module Sample.
Import Types.

(** A date parser that knows three instants. *)
Definition Date_parse (s : string) : Js.Date :=
  if String.eqb s "2020-01-01T00:00:00.000Z" then Some 1577836800000
  else if String.eqb s "2023-01-01T00:00:00.000Z" then Some 1672531200000
  else if String.eqb s "2030-01-01T00:00:00.000Z" then Some 1893456000000
  else None.

(** 2023-11-14T22:13:20.000Z *)
Definition now : Z := 1700000000000.

Definition the_meta (vis : string) (owner : option string) : ArtifactMeta :=
  {| created_at := Some "2023-01-01T00:00:00.000Z";
     updated_at := None;
     visibility := Some vis;
     owner_user_id := owner;
     owner_org_id := None;
     tags := None;
     title := None;
     description := None |}.

Definition the_governance (e : option string) (r : option RetentionPolicy)
  : ArtifactGovernance :=
  {| exportability := e; retention := r; classification := None; compliance := None |}.

Definition the_artifact (id : string) (m : option ArtifactMeta)
           (g : option ArtifactGovernance) : EdmArtifact :=
  {| schema_version := Some "0.4.0";
     artifact_id := Some id;
     meta := m;
     content := Some (JObj [("type", JStr "test")]);
     provenance := Some (JObj [("source", JStr "test")]);
     governance := g;
     extraction := None |}.

Definition expires (at_ : string) : RetentionPolicy :=
  {| duration_days := None; expires_at := Some at_; auto_delete := None |}.

Definition lasts (days : Z) : RetentionPolicy :=
  {| duration_days := Some days; expires_at := None; auto_delete := None |}.

(** Public, exportable, retention ended in 2020. *)
Definition expired_artifact : EdmArtifact :=
  the_artifact "art-old" (Some (the_meta "public" (Some "user-1")))
               (Some (the_governance (Some "allowed")
                                     (Some (expires "2020-01-01T00:00:00.000Z")))).


(** Private, export restricted, owned by user-1. *)
Definition restricted_artifact : EdmArtifact :=
  the_artifact "art-r" (Some (the_meta "private" (Some "user-1")))
               (Some (the_governance (Some "restricted") None)).

Definition admin : AuthContext :=
  {| userId := "root"; roles := Some ["admin"]; organizationId := None;
     permissions := None |}.

Definition user (id : string) (org : option string) : AuthContext :=
  {| userId := id; roles := Some ["user"]; organizationId := org;
     permissions := None |}.

End Sample.

Module SampleDdna.
Import Types.

(** An envelope around the public, exportable artifact "art-1", with an
    empty signature value. *)
Definition unsigned_envelope : DdnaEnvelope :=
  {| version := Some "1.0";
     artifact :=
       Some (Sample.the_artifact "art-1" (Some (Sample.the_meta "public" None))
                                 (Some (Sample.the_governance (Some "allowed") None)));
     signature :=
       Some {| algorithm := Some "Ed25519";
               signer_did := Some "did:example:123";
               value := Some "";
               public_key := None |};
     sealed_at := Some "2023-01-01T00:00:00.000Z" |}.

(** A store that holds the envelope above under one id. *)
Definition storage_load (id : string) : Outcome Thrown DdnaEnvelope :=
  if String.eqb id "ddna_art-1_abc" then Returns unsigned_envelope
  else Throws (ErrorObject "StorageError" (Some "NOT_FOUND")).

(** A verifier that insists on a non-empty signature value. *)
Definition strict_verifier (envelope : DdnaEnvelope) : Outcome Thrown Ddna.Verification :=
  if Js.truthy_str (signature envelope ≫= value) then
    Returns {| Ddna.valid := true; Ddna.error := None |}
  else
    Returns {| Ddna.valid := false; Ddna.error := Some "Empty signature" |}.

Definition JSON_stringify (envelope : DdnaEnvelope) : string := "{}".

End SampleDdna.


Module SampleSeal.
Import Types.

(** A stand-in for the signing capability. *)
Definition sealFn (artifact : EdmArtifact) (privateKey : list Z) (did : string)
           (algorithm : option string) : Outcome Thrown DdnaEnvelope :=
  Returns {| version := Some "1.0";
             artifact := Some artifact;
             signature :=
               Some {| algorithm := Some (default "Ed25519" algorithm);
                       signer_did := Some did;
                       value := Some "c2lnbmF0dXJl";
                       public_key := None |};
             sealed_at := Some "2023-11-14T22:13:20.000Z" |}.

(** A stand-in for the envelope store's [save]. *)
Definition storage_save (envelope : DdnaEnvelope) : Outcome Thrown string :=
  Returns "ddna_saved".

(** Restricted, structurally valid, with a proper id. *)
Definition restricted_args : Seal.Args :=
  {| Seal.arg_artifact := Some Sample.restricted_artifact;
     Seal.privateKey := "0x0102";
     Seal.did := Some "did:example:123";
     Seal.arg_algorithm := None;
     Seal.save := Some true |}.

(** Restricted and valid for [validateGovernance], but with an empty id. *)
Definition anonymous_restricted_artifact : EdmArtifact :=
  {| schema_version := Some "0.4.0";
     artifact_id := Some "";
     meta := Some (Sample.the_meta "private" (Some "user-1"));
     content := None;
     provenance := None;
     governance := Some (Sample.the_governance (Some "restricted") None);
     extraction := None |}.

Definition anonymous_restricted_args : Seal.Args :=
  {| Seal.arg_artifact := Some anonymous_restricted_artifact;
     Seal.privateKey := "0x0102";
     Seal.did := Some "did:example:123";
     Seal.arg_algorithm := None;
     Seal.save := Some true |}.

(** Exportable artifact, good signer, odd-length key. *)
Definition odd_key_args : Seal.Args :=
  {| Seal.arg_artifact :=
       Some (Sample.the_artifact "art-1" (Some (Sample.the_meta "private" (Some "user-1")))
                                 (Some (Sample.the_governance (Some "allowed") None)));
     Seal.privateKey := "010";
     Seal.did := Some "did:example:123";
     Seal.arg_algorithm := None;
     Seal.save := Some true |}.

End SampleSeal.

(* ================================================================== *)
(** * What a hexadecimal string denotes

    Written from the specification's words, independently of the decoder:
    a digit stands for its position in the digit alphabet (either case),
    and each pair of digits for one byte, high digit first. *)
(* ================================================================== *)

Module HexSpec.

Definition lower_digits : string := "0123456789abcdef".
Definition upper_digits : string := "0123456789ABCDEF".

(** [digit c v]: the character [c] is the hexadecimal digit of value [v]. *)
Definition digit (c : ascii) (v : Z) : Prop :=
  0 <= v < 16
  /\ (String.get (Z.to_nat v) lower_digits = Some c
      \/ String.get (Z.to_nat v) upper_digits = Some c).

(** [denotes s bytes]: the digit string [s] spells the byte sequence. *)
Inductive denotes : string -> list Z -> Prop :=
| denotes_empty : denotes "" []
| denotes_pair (hi lo : ascii) (rest : string) (h l : Z) (bytes : list Z) :
    digit hi h -> digit lo l -> denotes rest bytes ->
    denotes (String hi (String lo rest)) ((16 * h + l) :: bytes).

End HexSpec.

Module SampleMiddleware.
Import Types.

(** A resolved identity that already belongs to organization "org-a". *)
Definition member : AuthContext :=
  {| userId := "user-1"; roles := Some ["user"]; organizationId := Some "org-a";
     permissions := Some ["artifact:read:art-1"] |}.

Definition baseMiddleware : Middleware.AuthMiddleware := fun _ => Some member.

(** A request whose organization header names another organization. *)
Definition request : Middleware.Request :=
  Middleware.RequestObject
    (Some [("X-Organization-Id", Middleware.HString "org-b")]) None.

(** The same header sent the MCP way: no [headers] object, and the name
    capitalised under [params._meta.headers]. *)
Definition meta_request : Middleware.Request :=
  Middleware.RequestObject None (Some {[ "X-Organization-Id" := "org-b" ]}).

End SampleMiddleware.

(* ================================================================== *)
(** * Which entries a storage filter selects

    Written from the filter's description: an owner, organization or
    visibility that is asked for must be the entry's own, and of the tags
    asked for at least one must be among the entry's. *)
(* ================================================================== *)

Module FilterSpec.
Import Types.








End FilterSpec.

Module SampleMemory.
Import Types.

Definition public_artifact (id : string) : EdmArtifact :=
  Sample.the_artifact id (Some (Sample.the_meta "public" (Some "user-1")))
                      (Some (Sample.the_governance (Some "allowed") None)).

(** Five public artifacts and a private one, in insertion order. *)
Definition store : Memory.JsMap EdmArtifact :=
  [("art-1", public_artifact "art-1");
   ("art-2", public_artifact "art-2");
   ("art-x", Sample.restricted_artifact);
   ("art-3", public_artifact "art-3");
   ("art-4", public_artifact "art-4");
   ("art-5", public_artifact "art-5")].

Definition public_page (l o : option Z) : StorageFilter :=
  {| f_userId := None; f_organizationId := None; f_tags := None;
     f_visibility := Some "public"; limit := l; offset := o |}.

End SampleMemory.


(** The decision that allows, and the one that denies for one reason. *)
Module Decisions.
Import Governance.

Definition granted : AccessCheckResult := {| allowed := true; reasons := [] |}.

Definition denied (reason : string) : AccessCheckResult :=
  {| allowed := false; reasons := [reason] |}.

End Decisions.

Module SampleAccess.
Import Types.

(** Private, exportable, owned by user-1, no retention policy. *)
Definition private_artifact : EdmArtifact :=
  Sample.the_artifact "art-own" (Some (Sample.the_meta "private" (Some "user-1")))
                      (Some (Sample.the_governance (Some "allowed") None)).

(** Public and exportable. *)
Definition open_artifact : EdmArtifact :=
  Sample.the_artifact "art-open" (Some (Sample.the_meta "public" (Some "user-1")))
                      (Some (Sample.the_governance (Some "allowed") None)).

(** An artifact whose visibility is none of the declared values. *)
Definition odd_visibility_artifact : EdmArtifact :=
  Sample.the_artifact "art-odd" (Some (Sample.the_meta "internal" (Some "user-1")))
                      (Some (Sample.the_governance (Some "allowed") None)).

End SampleAccess.

Module SampleShared.
Import Types.

Definition shared_meta : ArtifactMeta :=
  {| created_at := Some "2023-01-01T00:00:00.000Z";
     updated_at := None;
     visibility := Some "shared";
     owner_user_id := Some "user-1";
     owner_org_id := Some "org-1";
     tags := None;
     title := None;
     description := None |}.

(** Shared within org-1, owned by user-1. *)
Definition shared_artifact : EdmArtifact :=
  Sample.the_artifact "art-s" (Some shared_meta)
                      (Some (Sample.the_governance (Some "allowed") None)).

(** user-9, who belongs to no organization but holds a read permission on
    "art-s". *)
Definition guest : AuthContext :=
  {| userId := "user-9"; roles := Some ["user"]; organizationId := None;
     permissions := Some ["artifact:read:art-s"] |}.

(** A bare artifact, as an extractor might hand it over. *)
Definition bare_artifact : EdmArtifact :=
  {| schema_version := Some "0.4.0";
     artifact_id := Some "art-bare";
     meta := None;
     content := None;
     provenance := None;
     governance := None;
     extraction := None |}.

End SampleShared.

Module SampleSealOk.
Import Types.

(** Exportable artifact, good signer, good key, save requested. *)
Definition args : Seal.Args :=
  {| Seal.arg_artifact := Some SampleAccess.private_artifact;
     Seal.privateKey := "0x0102";
     Seal.did := Some "did:example:123";
     Seal.arg_algorithm := None;
     Seal.save := Some true |}.

(** What [SampleSeal.sealFn] makes of it. *)
Definition sealed : DdnaEnvelope :=
  {| version := Some "1.0";
     artifact := Some SampleAccess.private_artifact;
     signature :=
       Some {| algorithm := Some "Ed25519";
               signer_did := Some "did:example:123";
               value := Some "c2lnbmF0dXJl";
               public_key := None |};
     sealed_at := Some "2023-11-14T22:13:20.000Z" |}.

End SampleSealOk.

Module SampleAuth.
Import Types.

Definition alice : AuthContext :=
  {| userId := "alice"; roles := Some ["user"]; organizationId := None;
     permissions := None |}.

Definition bob : AuthContext :=
  {| userId := "bob"; roles := Some ["user"]; organizationId := None;
     permissions := None |}.

Definition nobody : Middleware.AuthMiddleware := fun _ => None.
Definition always (c : AuthContext) : Middleware.AuthMiddleware := fun _ => Some c.

(** A request that presents the token "s3cret" the Bearer way, under a
    capitalised header name. *)
Definition bearer_request : Middleware.Request :=
  Middleware.RequestObject
    (Some [("Authorization", Middleware.HString "Bearer s3cret")]) None.

Definition tokens : gmap string AuthContext := {[ "s3cret" := alice ]}.

End SampleAuth.

Module SampleStore.
Import Types.

(** An artifact that has no id yet. *)
Definition unnamed_artifact : EdmArtifact :=
  {| schema_version := Some "0.4.0";
     artifact_id := None;
     meta := Some (Sample.the_meta "private" (Some "user-1"));
     content := None;
     provenance := None;
     governance := Some (Sample.the_governance (Some "restricted") None);
     extraction := None |}.

(** Two artifacts, in insertion order. *)
Definition two : Memory.JsMap EdmArtifact :=
  [("art-own", SampleAccess.private_artifact); ("art-open", SampleAccess.open_artifact)].

Definition envelope_of (a : EdmArtifact) (signer : string) : DdnaEnvelope :=
  {| version := Some "1.0";
     artifact := Some a;
     signature :=
       Some {| algorithm := Some "Ed25519";
               signer_did := Some signer;
               value := Some "c2ln";
               public_key := None |};
     sealed_at := Some "2023-11-14T22:13:20.000Z" |}.

End SampleStore.

Module SampleEdm.
Import Types.

(** Public but restricted: anyone may see it, nobody may export it. *)
Definition showcase : EdmArtifact :=
  Sample.the_artifact "art-show" (Some (Sample.the_meta "public" (Some "user-1")))
                      (Some (Sample.the_governance (Some "restricted") None)).

(** A store that holds [showcase] and the exportable public artifact. *)
Definition storage_load (id : string) : Outcome Thrown EdmArtifact :=
  if String.eqb id "art-show" then Returns showcase
  else if String.eqb id "art-open" then Returns SampleAccess.open_artifact
  else Throws (ErrorObject "StorageError" (Some "NOT_FOUND")).

Definition JSON_stringify (a : EdmArtifact) : string := "{}".

(** What the store lists; nothing is stored under "ghost". *)
Definition ids : list string := ["art-show"; "ghost"; "art-open"].

Definition storage_list : Outcome Thrown (list string) := Returns ids.

(** How [showcase] appears in a listing. *)
Definition showcase_item : Edm.EdmResourceListItem :=
  {| Edm.item_uri := "edm://artifact/art-show";
     Edm.item_name := "art-show";
     Edm.item_description := None;
     Edm.item_mimeType := "application/json" |}.

Definition open_item : Edm.EdmResourceListItem :=
  {| Edm.item_uri := "edm://artifact/art-open";
     Edm.item_name := "art-open";
     Edm.item_description := None;
     Edm.item_mimeType := "application/json" |}.

(** An envelope store with the unsigned envelope of [SampleDdna]. *)
Definition envelope_ids : Outcome Thrown (list string) := Returns ["ddna_art-1_abc"].

(** How that envelope appears in a listing. *)
Definition unsigned_item : Ddna.DdnaResourceListItem :=
  {| Ddna.item_uri := "ddna://envelope/ddna_art-1_abc";
     Ddna.item_name := "ddna_art-1_abc";
     Ddna.item_description := None;
     Ddna.item_mimeType := "application/vnd.deepadata.ddna+json";
     Ddna.signer := Some "did:example:123";
     Ddna.sealedAt := Some "2023-01-01T00:00:00.000Z" |}.

End SampleEdm.

Module SampleExtract.
Import Types.

(** A [trim] that knows the space. *)
Fixpoint trim_start (s : string) : string :=
  match s with
  | String c rest => if Ascii.eqb c " " then trim_start rest else s
  | EmptyString => s
  end.

Fixpoint trim_end (s : string) : string :=
  match s with
  | String c rest =>
    let rest := trim_end rest in
    if Ascii.eqb c " " && String.eqb rest "" then "" else String c rest
  | EmptyString => s
  end.

Definition trim (s : string) : string := trim_end (trim_start s).

(** An extractor that claims the artifact for somebody else and sets
    nothing about governance. *)
Definition extractFn (request : Extract.ExtractionRequest)
  : Outcome Thrown (option EdmArtifact) :=
  Returns
    (Some
    {| schema_version := Some "0.4.0";
       artifact_id := None;
       meta := Some {| created_at := None;
                       updated_at := None;
                       visibility := None;
                       owner_user_id := Some "somebody-else";
                       owner_org_id := Some "another-org";
                       tags := None;
                       title := Some "Extracted Content";
                       description := None |};
       content :=
         Some (JObj [("type", JStr "extracted");
                     ("data",
                      JObj [("source_text",
                             JStr (Extract.content_text
                                     (Extract.request_content request)))])]);
       provenance := Some (JObj [("source", JStr "user-content")]);
       governance := None;
       extraction := None |}).

(** An extractor that resolves to [null]. *)
Definition emptyFn (request : Extract.ExtractionRequest)
  : Outcome Thrown (option EdmArtifact) := Returns None.

Definition args (text : string) (save : bool) : Extract.Args :=
  {| Extract.text := Some (JStr text);
     Extract.image := None;
     Extract.metadata := None;
     Extract.contentType := None;
     Extract.save := Some save |}.

Definition nowIso : string := "2023-01-01T00:00:00.000Z".

(** What the handler makes of the extractor's artifact for user-1, who is
    in no organization. *)
Definition owned : EdmArtifact :=
  {| schema_version := Some "0.4.0";
     artifact_id := None;
     meta := Some {| created_at := Some nowIso;
                     updated_at := None;
                     visibility := Some "private";
                     owner_user_id := Some "user-1";
                     owner_org_id := None;
                     tags := None;
                     title := Some "Extracted Content";
                     description := None |};
     content :=
       Some (JObj [("type", JStr "extracted");
                   ("data", JObj [("source_text", JStr "hello")])]);
     provenance := Some (JObj [("source", JStr "user-content")]);
     governance := Some {| exportability := Some "restricted";
                           retention := None;
                           classification := None;
                           compliance := None |};
     extraction := None |}.

Definition laterIso : string := "2023-01-01T00:00:01.000Z".

Definition request (text : string) : Extract.ExtractionRequest :=
  {| Extract.request_content := {| Extract.content_text := text;
                                   Extract.content_image := None |};
     Extract.request_metadata := None |}.

Definition returned (a : EdmArtifact) (savedId : option string)
  : Extract.ExtractionResult :=
  {| Extract.artifact := a;
     Extract.savedId := savedId;
     Extract.extraction_info :=
       {| Extract.model := None;
          Extract.confidence := None;
          Extract.extracted_at := JStr laterIso |} |}.

End SampleExtract.

(** What "semantic version" says, apart from the matcher: three numerals
    joined by dots. *)
Module SemverSpec.

Fixpoint all_digits (s : string) : bool :=
  match s with
  | String c rest => Validate.is_digit c && all_digits rest
  | EmptyString => true
  end.

Definition numeral (s : string) : Prop := s <> "" /\ all_digits s = true.

Definition semver (s : string) : Prop :=
  exists major minor patch,
    numeral major /\ numeral minor /\ numeral patch
    /\ s = major ++ "." ++ minor ++ "." ++ patch.

End SemverSpec.

Module SampleValidate.
Import Types.

(** A complete artifact: the exportable private one, with its extraction
    record. *)
Definition complete : EdmArtifact :=
  {| schema_version := Some "0.4.0";
     artifact_id := Some "art-own";
     meta := Some (Sample.the_meta "private" (Some "user-1"));
     content := Some (JObj [("type", JStr "test"); ("data", JObj [])]);
     provenance := Some (JObj [("source", JStr "test")]);
     governance := Some (Sample.the_governance (Some "allowed") None);
     extraction := Some (JObj [("extracted_at", JStr "2023-01-01T00:00:00.000Z")]) |}.

(** The same without a visibility: one warning, no error. *)
Definition unlabelled : EdmArtifact :=
  {| schema_version := Some "0.4.0";
     artifact_id := Some "art-own";
     meta := Some {| created_at := Some "2023-01-01T00:00:00.000Z";
                     updated_at := None;
                     visibility := None;
                     owner_user_id := Some "user-1";
                     owner_org_id := None;
                     tags := None;
                     title := None;
                     description := None |};
     content := Some (JObj [("type", JStr "test"); ("data", JObj [])]);
     provenance := Some (JObj [("source", JStr "test")]);
     governance := Some (Sample.the_governance (Some "allowed") None);
     extraction := None |}.

Definition strictly (a : EdmArtifact) : Validate.Args :=
  {| Validate.arg_artifact := Some a; Validate.strict := Some true |}.

End SampleValidate.
(* ================================================================== *)
(** * Governance engine *)
(* ================================================================== *)

Section GovernanceFacts.
Import Types Governance.

Variable Date_parse : string -> Js.Date.
Variable now : Z.

(** A declared exportability value is recognised by exactly one of the
    three predicates. *)
Lemma declared_exportability_cases (e : string) :
  declared_exportability e = true ->
  e = "allowed" \/ e = "restricted" \/ e = "prohibited".
Proof.
  unfold declared_exportability, Js.includes. simpl.
  destruct (String.eqb e "allowed") eqn:Ha.
  { left. now apply String.eqb_eq. }
  destruct (String.eqb e "restricted") eqn:Hr.
  { right. left. now apply String.eqb_eq. }
  destruct (String.eqb e "prohibited") eqn:Hp.
  { right. right. now apply String.eqb_eq. }
  discriminate.
Qed.

(** C1. An expired artifact is denied to every identity, an administrator
    included, and for every purpose (read, export, modify, delete); the one
    reason given is the expiration. *)
Theorem expired_artifact_denied_to_everyone
        (a : EdmArtifact) (context : option AuthContext) (purpose : Purpose) :
  isExpired Date_parse now a = Returns true ->
  canAccess Date_parse now a context purpose =
    Returns {| allowed := false; reasons := ["Artifact has expired"] |}.
Proof.
  intros Hexpired. unfold canAccess. rewrite Hexpired. reflexivity.
Qed.

End GovernanceFacts.

(** C1, at an artifact whose retention ended in 2020, asked for by an
    administrator who wants to delete it. *)
Lemma expired_artifact_denied_witness :
  Governance.canAccess Sample.Date_parse Sample.now Sample.expired_artifact
                       (Some Sample.admin) Governance.Delete =
    Returns {| Governance.allowed := false;
               Governance.reasons := ["Artifact has expired"] |}.
Proof.
  apply (expired_artifact_denied_to_everyone Sample.Date_parse Sample.now
           Sample.expired_artifact (Some Sample.admin) Governance.Delete).
  vm_compute. reflexivity.
Defined.

Section AccessFacts.
Import Types Governance.

Variable Date_parse : string -> Js.Date.
Variable now : Z.

(** With its [meta] aggregate in place, [checkVisibility] always answers. *)
Lemma checkVisibility_returns (a : EdmArtifact) (m : ArtifactMeta)
      (context : option AuthContext) :
  meta a = Some m -> exists v, checkVisibility a context = Returns v.
Proof.
  intros Hm. unfold checkVisibility, the_meta. rewrite Hm. simpl.
  repeat match goal with
         | |- context [if ?b then _ else _] => destruct b
         | |- context [match ?c with Some _ => _ | None => _ end] => destruct c
         end; eauto.
Qed.

Lemma exportability_predicates (a : EdmArtifact) (g : ArtifactGovernance) (e : string) :
  governance a = Some g -> exportability g = Some e ->
  canExport a = Returns (String.eqb e "allowed")
  /\ isProhibited a = Returns (String.eqb e "prohibited")
  /\ isRestricted a = Returns (String.eqb e "restricted").
Proof.
  intros Hg He. unfold canExport, isProhibited, isRestricted, the_governance.
  rewrite Hg. simpl. rewrite He. auto.
Qed.


(** The restricted state is reported with a message of its own. *)
Lemma restricted_export_reason
      (a : EdmArtifact) (g : ArtifactGovernance) (context : option AuthContext) :
  governance a = Some g ->
  exportability g = Some "restricted" ->
  isAdmin context = true ->
  isExpired Date_parse now a = Returns false ->
  canAccess Date_parse now a context Export =
    Returns {| allowed := false; reasons := ["Artifact export is restricted"] |}.
Proof.
  intros Hg He Hadmin Hexpired.
  destruct (exportability_predicates a g _ Hg He) as (Hce & Hp & Hr).
  unfold canAccess. rewrite Hexpired. simpl. rewrite Hadmin. simpl.
  rewrite Hce, Hp, Hr. reflexivity.
Qed.

(** With both aggregates in place, [canAccess] always returns a decision. *)
Lemma canAccess_returns (a : EdmArtifact) (g : ArtifactGovernance) (m : ArtifactMeta)
      (context : option AuthContext) (purpose : Purpose) :
  governance a = Some g -> meta a = Some m ->
  exists r, canAccess Date_parse now a context purpose = Returns r.
Proof.
  intros Hg Hm.
  destruct (checkVisibility_returns a m context Hm) as [v Hv].
  unfold canAccess, isExpired, canExport, isProhibited, isRestricted,
    the_governance, the_meta.
  rewrite Hg, Hm, Hv. simpl.
  repeat match goal with
         | |- context [if ?b then _ else _] => destruct b; simpl
         | |- context [match ?c with Some _ => _ | None => _ end] => destruct c; simpl
         | |- context [match ?p with Read => _ | _ => _ end] => destruct p; simpl
         end; eauto.
Qed.

(** Reads the decision off an equation [Returns _ = Returns r] and checks
    it. *)
Ltac read_decision H :=
  inversion H; subst; simpl; split; (discriminate || reflexivity).

(** Whatever [canAccess] returns for an artifact with a declared
    exportability has a reason exactly when it denies. *)
Lemma returned_decision_reasons
      (a : EdmArtifact) (g : ArtifactGovernance) (e : string)
      (context : option AuthContext) (purpose : Purpose) (r : AccessCheckResult) :
  governance a = Some g -> exportability g = Some e ->
  declared_exportability e = true ->
  canAccess Date_parse now a context purpose = Returns r ->
  (reasons r = [] <-> allowed r = true).
Proof.
  intros Hg He Hdecl Hreturn. unfold canAccess in Hreturn.
  destruct (isExpired Date_parse now a) as [[|]|[]] eqn:Hexpired;
    simpl in Hreturn; [read_decision Hreturn | | discriminate].
  destruct (exportability_predicates a g e Hg He) as (Hce & Hp & Hr).
  assert (Hexport :
            forall r0 : AccessCheckResult,
              (let? blocked := (let? ok := canExport a in Returns (negb ok)) in
               if blocked then
                 let? prohibited := isProhibited a in
                 if prohibited then
                   Returns (push {| allowed := false; reasons := [] |}
                                 "Artifact export is prohibited")
                 else
                   let? restricted := isRestricted a in
                   if restricted then
                     Returns (push {| allowed := false; reasons := [] |}
                                   "Artifact export is restricted")
                   else Returns {| allowed := false; reasons := [] |}
               else Returns (allow {| allowed := false; reasons := [] |}))
              = Returns r0 ->
              (reasons r0 = [] <-> allowed r0 = true)).
  { intros r0. rewrite Hce, Hp, Hr. simpl.
    destruct (declared_exportability_cases e Hdecl) as [-> | [-> | ->]]; simpl;
      intros H; read_decision H. }
  destruct purpose; simpl in Hreturn.
  - (* read *)
    destruct (isAdmin context); simpl in Hreturn.
    + read_decision Hreturn.
    + destruct (checkVisibility a context) as [[|]|[]]; simpl in Hreturn;
        read_decision Hreturn.
  - (* export *)
    destruct (isAdmin context); simpl in Hreturn.
    + now apply Hexport.
    + destruct (checkVisibility a context) as [[|]|[]]; simpl in Hreturn.
      * now apply Hexport.
      * read_decision Hreturn.
      * discriminate.
  - (* modify *)
    destruct context as [c|]; simpl in Hreturn.
    + destruct (the_meta a) as [m0|[]]; simpl in Hreturn; [|discriminate].
      match type of Hreturn with
      | (if ?b then _ else _) = _ => destruct b
      end; read_decision Hreturn.
    + read_decision Hreturn.
  - (* delete *)
    destruct context as [c|]; simpl in Hreturn.
    + destruct (the_meta a) as [m0|[]]; simpl in Hreturn; [|discriminate].
      match type of Hreturn with
      | (if ?b then _ else _) = _ => destruct b
      end; read_decision Hreturn.
    + read_decision Hreturn.
Qed.

(** An exportability that none of the three predicates recognises is not
    one of the declared values, and the other way round. *)
Lemma undeclared_exportability (o : option string) :
  declared_exportability (Js.render o) = false
  <-> Js.seq_str o "allowed" = false
      /\ Js.seq_str o "prohibited" = false
      /\ Js.seq_str o "restricted" = false.
Proof.
  destruct o as [e|]; [|split; [intros _; repeat split | reflexivity]].
  unfold declared_exportability, Js.includes. cbn [Js.render Js.seq_str existsb].
  destruct (String.eqb e "allowed"), (String.eqb e "restricted"),
    (String.eqb e "prohibited"); cbn [orb]; split;
    try discriminate; try reflexivity; try (intros (? & ? & ?); discriminate);
    intros _; repeat split.
Qed.

(** The one denial that has no reason to give: the export of an artifact
    that has passed expiry and visibility and whose exportability is none
    of the declared values. *)
Lemma undeclared_export_denied
      (a : EdmArtifact) (g : ArtifactGovernance) (context : option AuthContext) :
  isExpired Date_parse now a = Returns false ->
  isAdmin context = true \/ checkVisibility a context = Returns true ->
  governance a = Some g ->
  declared_exportability (Js.render (exportability g)) = false ->
  canAccess Date_parse now a context Export
  = Returns {| allowed := false; reasons := [] |}.
Proof.
  intros Hexpired Hseen Hg Hundeclared.
  apply undeclared_exportability in Hundeclared as (Ha & Hp & Hr).
  unfold canAccess, canExport, isProhibited, isRestricted, the_governance.
  rewrite Hexpired, Hg. simpl.
  destruct (isAdmin context); simpl.
  - now rewrite Ha, Hp, Hr.
  - destruct Hseen as [Hadmin | ->]; [discriminate|]. simpl.
    now rewrite Ha, Hp, Hr.
Qed.

(** Every decision [canAccess] returns allows without a reason, or denies
    with one reason, or is the denial above. *)
Lemma decision_cases
      (a : EdmArtifact) (context : option AuthContext) (purpose : Purpose)
      (r : AccessCheckResult) :
  canAccess Date_parse now a context purpose = Returns r ->
  r = {| allowed := true; reasons := [] |}
  \/ (exists reason, r = {| allowed := false; reasons := [reason] |})
  \/ (r = {| allowed := false; reasons := [] |}
      /\ purpose = Export
      /\ isExpired Date_parse now a = Returns false
      /\ (isAdmin context = true \/ checkVisibility a context = Returns true)
      /\ exists g, governance a = Some g
                   /\ declared_exportability (Js.render (exportability g)) = false).
Proof.
  intros H. unfold canAccess in H.
  destruct (isExpired Date_parse now a) as [[|]|[]] eqn:Hexpired; simpl in H;
    [inversion H; right; left; eauto | | discriminate].
  assert (Hexport :
            isAdmin context = true \/ checkVisibility a context = Returns true ->
            (let? blocked := (let? ok := canExport a in Returns (negb ok)) in
             if blocked then
               let? prohibited := isProhibited a in
               if prohibited then
                 Returns (push {| allowed := false; reasons := [] |}
                               "Artifact export is prohibited")
               else
                 let? restricted := isRestricted a in
                 if restricted then
                   Returns (push {| allowed := false; reasons := [] |}
                                 "Artifact export is restricted")
                 else Returns {| allowed := false; reasons := [] |}
             else Returns (allow {| allowed := false; reasons := [] |}))
            = Returns r ->
            r = {| allowed := true; reasons := [] |}
            \/ (exists reason, r = {| allowed := false; reasons := [reason] |})
            \/ (r = {| allowed := false; reasons := [] |}
                /\ Export = Export
                /\ Returns false = @Returns JsTypeError bool false
                /\ (isAdmin context = true \/ checkVisibility a context = Returns true)
                /\ exists g,
                    governance a = Some g
                    /\ declared_exportability (Js.render (exportability g)) = false)).
  { intros Hseen. unfold canExport, isProhibited, isRestricted, the_governance.
    destruct (governance a) as [g|] eqn:Hg; simpl; [|discriminate].
    destruct (Js.seq_str (exportability g) "allowed") eqn:Ha; simpl;
      [intros Hr; inversion Hr; now left|].
    destruct (Js.seq_str (exportability g) "prohibited") eqn:Hp; simpl;
      [intros Hr; inversion Hr; right; left; eauto|].
    destruct (Js.seq_str (exportability g) "restricted") eqn:Hr; simpl;
      [intros Hr'; inversion Hr'; right; left; eauto|].
    intros Hr'; inversion Hr'. right. right.
    repeat split; try assumption. exists g. split; [reflexivity|].
    now apply undeclared_exportability. }
  destruct purpose; simpl in H.
  - destruct (isAdmin context); simpl in H; [inversion H; now left|].
    destruct (checkVisibility a context) as [[|]|[]]; simpl in H;
      [inversion H; now left | inversion H; right; left; eauto | discriminate].
  - destruct (isAdmin context) eqn:Hadmin; simpl in H;
      [apply Hexport; [now left | exact H]|].
    destruct (checkVisibility a context) as [[|]|[]] eqn:Hvisible; simpl in H;
      [apply Hexport; [now right | exact H]
      | inversion H; right; left; eauto | discriminate].
  - destruct context as [c|]; simpl in H; [|inversion H; right; left; eauto].
    destruct (the_meta a) as [m|[]]; simpl in H; [|discriminate].
    match type of H with
    | (if ?b then _ else _) = _ => destruct b
    end; inversion H; [right; left; eauto | now left].
  - destruct context as [c|]; simpl in H; [|inversion H; right; left; eauto].
    destruct (the_meta a) as [m|[]]; simpl in H; [|discriminate].
    match type of H with
    | (if ?b then _ else _) = _ => destruct b
    end; inversion H; [right; left; eauto | now left].
Qed.

(** C7, as amended.  [canAccess] returns a decision for every artifact that
    has its [meta] and [governance] aggregates, whoever asks for whatever
    purpose.  A decision that allows never carries a reason.  A decision
    that denies carries a reason, with one exception: the export of an
    artifact that is not expired, is visible to the caller (or the caller
    is an administrator), and whose exportability is missing or none of
    allowed, restricted, prohibited, is denied with no reason at all.  So
    for an artifact whose exportability is one of the three values the
    list of reasons is empty exactly when access is allowed. *)
Theorem reasons_empty_iff_allowed
        (a : EdmArtifact) (context : option AuthContext) (purpose : Purpose) :
  (forall g m, governance a = Some g -> meta a = Some m ->
               exists r, canAccess Date_parse now a context purpose = Returns r)
  /\ forall r,
      canAccess Date_parse now a context purpose = Returns r ->
      (allowed r = true -> reasons r = [])
      /\ ((allowed r = false /\ reasons r = [])
          <-> (purpose = Export
               /\ isExpired Date_parse now a = Returns false
               /\ (isAdmin context = true
                   \/ checkVisibility a context = Returns true)
               /\ exists g,
                   governance a = Some g
                   /\ declared_exportability (Js.render (exportability g))
                      = false))
      /\ (forall g,
             governance a = Some g ->
             declared_exportability (Js.render (exportability g)) = true ->
             (reasons r = [] <-> allowed r = true)).
Proof.
  split; [intros g m Hg Hm; exact (canAccess_returns a g m context purpose Hg Hm)|].
  intros r Hreturn.
  destruct (decision_cases a context purpose r Hreturn)
    as [-> | [[reason ->] | (-> & Hpurpose & Hexpired & Hseen & g & Hg & Hundeclared)]].
  - split; [reflexivity|]. split; [split|].
    + intros [Hdenied _]. discriminate.
    + intros (-> & Hexpired & Hseen & g & Hg & Hundeclared).
      rewrite (undeclared_export_denied a g context Hexpired Hseen Hg Hundeclared)
        in Hreturn. discriminate.
    + intros g _ _. split; reflexivity.
  - split; [discriminate|]. split; [split|].
    + intros [_ Hnone]. discriminate.
    + intros (-> & Hexpired & Hseen & g & Hg & Hundeclared).
      rewrite (undeclared_export_denied a g context Hexpired Hseen Hg Hundeclared)
        in Hreturn. discriminate.
    + intros g _ _. split; discriminate.
  - split; [discriminate|]. split; [split|].
    + intros _. repeat split; try assumption. now exists g.
    + intros _. split; reflexivity.
    + intros g' Hg' Hdeclared. rewrite Hg in Hg'. inversion Hg'; subst g'.
      rewrite Hundeclared in Hdeclared. discriminate.
Qed.

End AccessFacts.


(** C7 as amended, at the owner exporting their restricted artifact: the
    decision denies, and gives its reason. *)
Lemma reasons_empty_iff_allowed_witness :
  exists r,
    Governance.canAccess Sample.Date_parse Sample.now Sample.restricted_artifact
                         (Some (Sample.user "user-1" None)) Governance.Export
    = Returns r
    /\ (Governance.reasons r = [] <-> Governance.allowed r = true).
Proof.
  destruct (reasons_empty_iff_allowed Sample.Date_parse Sample.now
              Sample.restricted_artifact
              (Some (Sample.user "user-1" None)) Governance.Export)
    as [Hreturns Hreasons].
  destruct (Hreturns (Sample.the_governance (Some "restricted") None)
                     (Sample.the_meta "private" (Some "user-1"))
                     eq_refl eq_refl) as [r Hr].
  exists r. split; [exact Hr|].
  exact (proj2 (proj2 (Hreasons r Hr))
               (Sample.the_governance (Some "restricted") None) eq_refl eq_refl).
Defined.

(** C7 as first stated does not hold: exporting a public artifact whose
    exportability reads "internal" is denied, and the decision carries no
    reason. *)
Lemma export_denied_without_reason :
  exists r,
    Governance.canAccess Sample.Date_parse Sample.now
      (Sample.the_artifact "art-x" (Some (Sample.the_meta "public" None))
                           (Some (Sample.the_governance (Some "internal") None)))
      None Governance.Export
    = Returns r
    /\ Governance.reasons r = []
    /\ Governance.allowed r = false
    /\ ~ (Governance.reasons r = [] <-> Governance.allowed r = true).
Proof.
  exists {| Governance.allowed := false; Governance.reasons := [] |}.
  split; [vm_compute; reflexivity|]. split; [reflexivity|]. split; [reflexivity|].
  intros [Hallowed _]. specialize (Hallowed eq_refl). discriminate.
Qed.

(** Outside the declared value set the export check has no message to
    give: the denial comes back without a reason. *)
Example export_denial_with_undeclared_exportability :
  Governance.canAccess Sample.Date_parse Sample.now
    (Sample.the_artifact "art-x" (Some (Sample.the_meta "public" None))
                         (Some (Sample.the_governance (Some "internal") None)))
    None Governance.Export
  = Returns {| Governance.allowed := false; Governance.reasons := [] |}.
Proof. vm_compute. reflexivity. Qed.

Section RetentionFacts.
Import Types Governance.

Variable Date_parse : string -> Js.Date.
Variable now : Z.

(** C6. How [isExpired] reads the retention policy.  A field is "set" when
    it is present and truthy (a non-empty string, a non-zero number), which
    is the test the code applies.
    - No retention policy: not expired.
    - [expires_at] set: expired exactly when [expires_at] parses to an
      instant before now, whatever [duration_days] and [created_at] hold.
    - Only [duration_days] set, with [created_at] set and parsing to [t],
      and [t] plus the duration a representable instant: expired exactly
      when [t + duration_days * 86400000 < now].
    - Only [duration_days] set, and [created_at] empty or absent, or not
      a date, or so far from the duration's end that no date results: not
      expired.
    - Neither field set: not expired. *)
Theorem isExpired_follows_retention (a : EdmArtifact) (g : ArtifactGovernance) :
  governance a = Some g ->
  (retention g = None -> isExpired Date_parse now a = Returns false)
  /\ (forall r e,
         retention g = Some r -> expires_at r = Some e -> e <> "" ->
         isExpired Date_parse now a =
           Returns match Date_parse e with
                   | Some t => t <? now
                   | None => false
                   end)
  /\ (forall r d m c t,
         retention g = Some r -> Js.truthy_str (expires_at r) = false ->
         duration_days r = Some d -> d <> 0 ->
         meta a = Some m -> created_at m = Some c -> c <> "" ->
         Date_parse c = Some t ->
         Z.abs (t + d * 86400000) <= Js.maxTime ->
         isExpired Date_parse now a = Returns (t + d * 86400000 <? now))
  /\ (forall r d m,
         retention g = Some r -> Js.truthy_str (expires_at r) = false ->
         duration_days r = Some d -> d <> 0 ->
         meta a = Some m ->
         Js.truthy_str (created_at m) = false
         \/ Date_parse (Js.render (created_at m)) = None
         \/ (exists t, Date_parse (Js.render (created_at m)) = Some t
                       /\ Js.maxTime < Z.abs (t + d * 86400000)) ->
         isExpired Date_parse now a = Returns false)
  /\ (forall r,
         retention g = Some r -> Js.truthy_str (expires_at r) = false ->
         Js.truthy_num (duration_days r) = false ->
         isExpired Date_parse now a = Returns false).
Proof.
  intros Hg. unfold isExpired, the_governance, the_meta. rewrite Hg. simpl.
  repeat split.
  - intros ->. reflexivity.
  - intros r e -> He Hne. simpl. unfold Js.truthy_str. rewrite He.
    apply String.eqb_neq in Hne. rewrite Hne. simpl.
    destruct (Date_parse e); reflexivity.
  - intros r d m c t -> Hexp Hd Hd0 Hm Hc Hc0 Ht Hrange. simpl.
    rewrite Hexp, Hd, Hm. simpl.
    apply Z.eqb_neq in Hd0. rewrite Hd0. simpl.
    rewrite Hc. simpl. apply String.eqb_neq in Hc0. rewrite Hc0. simpl.
    rewrite Ht. simpl.
    replace (t + d * 24 * 60 * 60 * 1000) with (t + d * 86400000) by lia.
    apply Z.leb_le in Hrange. rewrite Hrange. reflexivity.
  - intros r d m -> Hexp Hd Hd0 Hm Hc. simpl.
    rewrite Hexp, Hd, Hm. simpl.
    apply Z.eqb_neq in Hd0. rewrite Hd0. simpl.
    destruct Hc as [Hc | [Hc | (t & Hc & Hrange)]].
    + now rewrite Hc.
    + rewrite Hc. simpl. now destruct (Js.truthy_str (created_at m)).
    + rewrite Hc. simpl.
      replace (t + d * 24 * 60 * 60 * 1000) with (t + d * 86400000) by lia.
      apply Z.leb_gt in Hrange. rewrite Hrange.
      now destruct (Js.truthy_str (created_at m)).
  - intros r -> Hexp Hd. simpl. rewrite Hexp, Hd. reflexivity.
Qed.

End RetentionFacts.

(** C6, at an artifact created on 2023-01-01 that is to be kept 30 days:
    by 2023-11-14 the 30 days have elapsed. *)
Lemma isExpired_follows_retention_witness :
  Governance.isExpired Sample.Date_parse Sample.now
    (Sample.the_artifact "art-30" (Some (Sample.the_meta "private" None))
                         (Some (Sample.the_governance (Some "allowed")
                                                      (Some (Sample.lasts 30)))))
  = Returns true.
Proof.
  pose proof (isExpired_follows_retention Sample.Date_parse Sample.now
                (Sample.the_artifact "art-30" (Some (Sample.the_meta "private" None))
                   (Some (Sample.the_governance (Some "allowed")
                                                (Some (Sample.lasts 30)))))
                (Sample.the_governance (Some "allowed") (Some (Sample.lasts 30)))
                eq_refl) as (_ & _ & Hduration & _).
  rewrite (Hduration (Sample.lasts 30) 30 (Sample.the_meta "private" None)
                     "2023-01-01T00:00:00.000Z" 1672531200000);
    try reflexivity; try discriminate.
Defined.

Section DefaultFacts.
Import Types Governance.

(** C5. [applyDefaultGovernance] is idempotent, whatever the clock reads at
    the two calls, and explicit values win: an exportability, visibility or
    creation time the argument already carries is kept, and the defaults
    ("restricted", "private", the current time) appear only where the
    argument has none. *)
Theorem applyDefaultGovernance_idempotent_explicit_wins
        (now1 now2 : string) (x : EdmArtifact) :
  applyDefaultGovernance now2 (applyDefaultGovernance now1 x)
    = applyDefaultGovernance now1 x
  /\ (forall e, governance x ≫= exportability = Some e ->
                governance (applyDefaultGovernance now1 x) ≫= exportability = Some e)
  /\ (forall v, meta x ≫= visibility = Some v ->
                meta (applyDefaultGovernance now1 x) ≫= visibility = Some v)
  /\ (forall c, meta x ≫= created_at = Some c ->
                meta (applyDefaultGovernance now1 x) ≫= created_at = Some c)
  /\ (governance x ≫= exportability = None ->
      governance (applyDefaultGovernance now1 x) ≫= exportability = Some "restricted")
  /\ (meta x ≫= visibility = None ->
      meta (applyDefaultGovernance now1 x) ≫= visibility = Some "private")
  /\ (meta x ≫= created_at = None ->
      meta (applyDefaultGovernance now1 x) ≫= created_at = Some now1).
Proof.
  destruct x as [sv id [m|] c p [g|] ex]; simpl;
    repeat split;
    try (intros ? H; simpl in H; rewrite ?H; reflexivity);
    try (intros H; simpl in H; rewrite ?H; reflexivity);
    try discriminate.
Qed.

(** Everything else in the artifact passes through untouched. *)
Lemma applyDefaultGovernance_frame (nowIso : string) (x : EdmArtifact) :
  schema_version (applyDefaultGovernance nowIso x) = schema_version x
  /\ artifact_id (applyDefaultGovernance nowIso x) = artifact_id x
  /\ content (applyDefaultGovernance nowIso x) = content x
  /\ provenance (applyDefaultGovernance nowIso x) = provenance x
  /\ extraction (applyDefaultGovernance nowIso x) = extraction x
  /\ governance (applyDefaultGovernance nowIso x) ≫= retention
     = governance x ≫= retention
  /\ meta (applyDefaultGovernance nowIso x) ≫= owner_user_id
     = meta x ≫= owner_user_id.
Proof.
  destruct x as [sv id [m|] c p [g|] ex]; simpl; repeat split.
Qed.

End DefaultFacts.

(* ================================================================== *)
(** * Envelope reads *)
(* ================================================================== *)

Section DdnaFacts.
Import Types.

Variable Date_parse : string -> Js.Date.
Variable now : Z.
Variable storage_load : string -> Outcome Thrown DdnaEnvelope.
Variable authContext : option AuthContext.
Variable verifySignature : DdnaEnvelope -> Outcome Thrown Ddna.Verification.
Variable JSON_stringify : DdnaEnvelope -> string.

(** C3. Reading the address of a stored envelope that the verification
    capability reports invalid fails with INVALID_SIGNATURE.  The calls made
    are the load and the verification and nothing more: neither the
    caller's identity is fetched nor [canAccessEnvelope] consulted, so the
    failure is the same whatever the governance fields of the embedded
    artifact and whoever the caller is. *)
Theorem invalid_signature_fails_before_governance
        (uri id : string) (envelope : DdnaEnvelope) (v : Ddna.Verification) :
  Ddna.parseDdnaUri uri = Some id ->
  storage_load id = Returns envelope ->
  verifySignature envelope = Returns v ->
  Ddna.valid v = false ->
  Ddna.read Date_parse now storage_load authContext verifySignature JSON_stringify uri
  = ([Ddna.StorageLoad id; Ddna.VerifySignature envelope],
     Throws (Ddna.DdnaResourceError
               ("Invalid envelope signature: " ++ Js.render (Ddna.error v))
               Ddna.INVALID_SIGNATURE)).
Proof.
  intros Huri Hload Hverify Hinvalid. unfold Ddna.read.
  rewrite Huri, Hload, Hverify, Hinvalid. reflexivity.
Qed.

(** With a valid signature the governance check does run, for the export
    purpose. *)
Lemma valid_signature_reaches_governance
      (uri id : string) (envelope : DdnaEnvelope) (v : Ddna.Verification) :
  Ddna.parseDdnaUri uri = Some id ->
  storage_load id = Returns envelope ->
  verifySignature envelope = Returns v ->
  Ddna.valid v = true ->
  (Ddna.read Date_parse now storage_load authContext verifySignature
             JSON_stringify uri).1
  = [Ddna.StorageLoad id; Ddna.VerifySignature envelope; Ddna.GetAuthContext;
     Ddna.CanAccessEnvelope envelope authContext Governance.Export].
Proof.
  intros Huri Hload Hverify Hvalid. unfold Ddna.read.
  rewrite Huri, Hload, Hverify, Hvalid. simpl.
  destruct (Governance.canAccessEnvelope Date_parse now envelope authContext
                                         Governance.Export) as [r|[]];
    [destruct (Governance.allowed r)|]; reflexivity.
Qed.

End DdnaFacts.

(** C3, at an envelope with an empty signature value, a verifier that
    rejects it, and an administrator asking. *)
Lemma invalid_signature_fails_witness :
  Ddna.read Sample.Date_parse Sample.now SampleDdna.storage_load
            (Some Sample.admin) SampleDdna.strict_verifier SampleDdna.JSON_stringify
            "ddna://envelope/ddna_art-1_abc"
  = ([Ddna.StorageLoad "ddna_art-1_abc";
      Ddna.VerifySignature SampleDdna.unsigned_envelope],
     Throws (Ddna.DdnaResourceError "Invalid envelope signature: Empty signature"
                                    Ddna.INVALID_SIGNATURE)).
Proof.
  apply (invalid_signature_fails_before_governance
           Sample.Date_parse Sample.now SampleDdna.storage_load (Some Sample.admin)
           SampleDdna.strict_verifier SampleDdna.JSON_stringify
           "ddna://envelope/ddna_art-1_abc" "ddna_art-1_abc"
           SampleDdna.unsigned_envelope
           {| Ddna.valid := false; Ddna.error := Some "Empty signature" |});
    reflexivity.
Defined.

(* ================================================================== *)
(** * Sealing *)
(* ================================================================== *)

Section SealFacts.
Import Types.

Variable storage : option (DdnaEnvelope -> Outcome Thrown string).
Variable sealFn :
  EdmArtifact -> list Z -> string -> option string -> Outcome Thrown DdnaEnvelope.

(** Validation accepts exactly the artifacts that carry a governance
    aggregate with a declared exportability. *)
Lemma validateGovernance_valid (a : EdmArtifact) :
  Governance.valid (Governance.validateGovernance a) = true <->
  exists g e, governance a = Some g /\ exportability g = Some e
              /\ declared_exportability e = true.
Proof.
  unfold Governance.validateGovernance.
  destruct (governance a) as [g|] eqn:Hg; simpl;
    [| split; [discriminate | intros (g' & e' & H & _); discriminate] ].
  destruct (exportability g) as [e|] eqn:He; simpl.
  2: { split; [discriminate|]. intros (g' & e' & Hg' & He' & _).
       inversion Hg'; subst g'. congruence. }
  destruct (String.eqb e "") eqn:Hempty; simpl.
  { split; [discriminate|]. intros (g' & e' & Hg' & He' & Hd).
    inversion Hg'; subst g'. rewrite He in He'. inversion He'; subst e'.
    apply String.eqb_eq in Hempty. subst e. discriminate. }
  destruct (declared_exportability e) eqn:Hd; simpl.
  { split; [eauto 6 | reflexivity]. }
  split; [discriminate|]. intros (g' & e' & Hg' & He' & Hd').
  inversion Hg'; subst g'. rewrite He in He'. inversion He'; subst e'. congruence.
Qed.

(** C4, as amended.  For every artifact that has a non-empty [artifact_id]
    and whose exportability is anything but "allowed" (restricted,
    prohibited, or not acceptable to validation at all), sealing fails with
    GOVERNANCE_VIOLATION; the signing capability is not invoked and no save
    is attempted, whatever the [save] flag says. *)
Theorem seal_refuses_unexportable (args : Seal.Args) (a : EdmArtifact) :
  Seal.arg_artifact args = Some a ->
  Js.truthy_str (artifact_id a) = true ->
  (forall g, governance a = Some g -> exportability g <> Some "allowed") ->
  exists message,
    Seal.execute storage sealFn args
    = ([], Throws (Seal.Rejected {| Seal.message := message;
                                    Seal.code := Seal.GOVERNANCE_VIOLATION;
                                    Seal.cause := None |})).
Proof.
  intros Ha Hid Hnot. unfold Seal.execute. rewrite Ha, Hid. simpl.
  destruct (Governance.valid (Governance.validateGovernance a)) eqn:Hvalid; simpl.
  - apply validateGovernance_valid in Hvalid.
    destruct Hvalid as (g & e & Hg & He & Hd).
    unfold Governance.canExport, Governance.the_governance. rewrite Hg. simpl.
    rewrite He. simpl.
    destruct (String.eqb e "allowed") eqn:Hallowed.
    + apply String.eqb_eq in Hallowed. subst e. now destruct (Hnot g Hg).
    + unfold Seal.reject. eauto.
  - unfold Seal.reject. eauto.
Qed.

End SealFacts.

(** C4, at the restricted artifact "art-r" with the save flag set and a
    store at hand. *)
Lemma seal_refuses_unexportable_witness :
  exists message,
    Seal.execute (Some SampleSeal.storage_save) SampleSeal.sealFn
                 SampleSeal.restricted_args
    = ([], Throws (Seal.Rejected {| Seal.message := message;
                                    Seal.code := Seal.GOVERNANCE_VIOLATION;
                                    Seal.cause := None |})).
Proof.
  apply (seal_refuses_unexportable (Some SampleSeal.storage_save) SampleSeal.sealFn
           SampleSeal.restricted_args Sample.restricted_artifact).
  - reflexivity.
  - reflexivity.
  - intros g Hg. vm_compute in Hg. inversion Hg; subst. discriminate.
Defined.

(** C4 as first stated does not hold: a restricted artifact that passes
    [validateGovernance] but has an empty [artifact_id] is turned away with
    INVALID_INPUT, before governance is looked at. *)
Lemma seal_restricted_without_id_is_invalid_input :
  (Types.governance SampleSeal.anonymous_restricted_artifact
     ≫= Types.exportability) = Some "restricted"
  /\ Governance.valid
       (Governance.validateGovernance SampleSeal.anonymous_restricted_artifact) = true
  /\ Seal.execute (Some SampleSeal.storage_save) SampleSeal.sealFn
                  SampleSeal.anonymous_restricted_args
     = ([], Throws (Seal.Rejected {| Seal.message := "Artifact must have an artifact_id";
                                     Seal.code := Seal.INVALID_INPUT;
                                     Seal.cause := None |}))
  /\ ~ (exists message cause,
           Seal.execute (Some SampleSeal.storage_save) SampleSeal.sealFn
                        SampleSeal.anonymous_restricted_args
           = ([], Throws (Seal.Rejected {| Seal.message := message;
                                           Seal.code := Seal.GOVERNANCE_VIOLATION;
                                           Seal.cause := cause |}))).
Proof.
  repeat split; try reflexivity.
  intros (message & cause & H). vm_compute in H. discriminate.
Qed.

Section HexFacts.
Import HexSpec.

(** The decoder's digit test and digit value agree with the alphabet. *)
Lemma hex_digit_sound (c : ascii) :
  Seal.is_hex_digit c = true -> digit c (Seal.hex_value c).
Proof.
  destruct c as [b0 b1 b2 b3 b4 b5 b6 b7].
  destruct b0, b1, b2, b3, b4, b5, b6, b7; vm_compute; try discriminate;
    intros _; (split; [split; [discriminate | reflexivity] |]);
    first [left; reflexivity | right; reflexivity].
Qed.

Lemma hex_digit_complete (c : ascii) (v : Z) :
  digit c v -> Seal.is_hex_digit c = true /\ Seal.hex_value c = v.
Proof.
  intros [Hrange Hget].
  assert (Hv : v = 0 \/ v = 1 \/ v = 2 \/ v = 3 \/ v = 4 \/ v = 5 \/ v = 6 \/ v = 7
               \/ v = 8 \/ v = 9 \/ v = 10 \/ v = 11 \/ v = 12 \/ v = 13
               \/ v = 14 \/ v = 15) by lia.
  repeat (destruct Hv as [-> | Hv]); try subst v;
    (destruct Hget as [Hget | Hget]; vm_compute in Hget; inversion Hget; subst c;
     split; reflexivity).
Qed.

Lemma parse_pairs_denotes (n : nat) :
  forall s, String.length s = (2 * n)%nat -> Seal.all_hex s = true ->
            denotes s (Seal.parse_pairs s).
Proof.
  induction n as [|n IH]; intros s Hlen Hhex.
  - destruct s; [constructor | discriminate].
  - destruct s as [|hi [|lo rest]]; simpl in Hlen; try lia.
    simpl in Hhex. apply andb_true_iff in Hhex as [Hhi Hhex].
    apply andb_true_iff in Hhex as [Hlo Hhex].
    change (Seal.parse_pairs (String hi (String lo rest)))
      with ((16 * Seal.hex_value hi + Seal.hex_value lo) :: Seal.parse_pairs rest).
    constructor; auto using hex_digit_sound.
    apply IH; [lia | assumption].
Qed.

Lemma denotes_parse_pairs (s : string) (bytes : list Z) :
  denotes s bytes ->
  Seal.all_hex s = true /\ (String.length s mod 2 = 0)%nat
  /\ Seal.parse_pairs s = bytes.
Proof.
  induction 1 as [|hi lo rest h l bytes Hhi Hlo _ (IHhex & IHlen & IHparse)].
  - repeat split.
  - apply hex_digit_complete in Hhi as [Hhi Hh], Hlo as [Hlo Hl].
    repeat split.
    + simpl. now rewrite Hhi, Hlo, IHhex.
    + change (String.length (String hi (String lo rest)))
        with (2 + String.length rest)%nat.
      replace (2 + String.length rest)%nat with (String.length rest + 1 * 2)%nat by lia.
      now rewrite Nat.Div0.mod_add.
    + change (Seal.parse_pairs (String hi (String lo rest)))
        with ((16 * Seal.hex_value hi + Seal.hex_value lo) :: Seal.parse_pairs rest).
      now rewrite Hh, Hl, IHparse.
Qed.

Lemma even_length (s : string) :
  (String.length s mod 2 = 0)%nat -> exists n, String.length s = (2 * n)%nat.
Proof.
  intros H. exists (String.length s / 2)%nat.
  pose proof (Nat.div_mod_eq (String.length s) 2). lia.
Qed.

(** [hexToKey] decodes exactly the strings that, once the prefix is
    stripped, spell a byte sequence, and to that sequence. *)
Lemma hexToKey_denotes (hex : string) (bytes : list Z) :
  Seal.hexToKey hex = Returns bytes <-> denotes (Seal.cleanHex hex) bytes.
Proof.
  unfold Seal.hexToKey. cbv zeta. split.
  - destruct (Seal.all_hex (Seal.cleanHex hex)) eqn:Hhex; cbn [negb];
      [|discriminate].
    destruct (Nat.eqb (String.length (Seal.cleanHex hex) mod 2) 0) eqn:Heven;
      cbn [negb]; [|discriminate].
    intros H. inversion H; subst.
    apply Nat.eqb_eq in Heven. destruct (even_length _ Heven) as [n Hn].
    now apply (parse_pairs_denotes n).
  - intros H. apply denotes_parse_pairs in H as (Hhex & Heven & Hparse).
    rewrite Hhex. cbn [negb]. apply Nat.eqb_eq in Heven. rewrite Heven. cbn [negb].
    now rewrite Hparse.
Qed.

(** Every failure of [hexToKey] is an INVALID_KEY error without a cause,
    raised because a character is no hexadecimal digit or because the
    number of digits is odd. *)
Lemma hexToKey_failure (hex : string) (e : Seal.SealError) :
  Seal.hexToKey hex = Throws e ->
  Seal.code e = Seal.INVALID_KEY
  /\ (Seal.all_hex (Seal.cleanHex hex) = false
      \/ (String.length (Seal.cleanHex hex) mod 2 <> 0)%nat).
Proof.
  unfold Seal.hexToKey. cbv zeta.
  destruct (Seal.all_hex (Seal.cleanHex hex)) eqn:Hhex; cbn [negb].
  - destruct (Nat.eqb (String.length (Seal.cleanHex hex) mod 2) 0) eqn:Heven;
      cbn [negb]; [discriminate|].
    intros H. inversion H; subst. split; [reflexivity|].
    right. now apply Nat.eqb_neq.
  - intros H. inversion H; subst. split; [reflexivity | now left].
Qed.

Lemma hexToKey_rejects (hex : string) :
  Seal.all_hex (Seal.cleanHex hex) = false
  \/ (String.length (Seal.cleanHex hex) mod 2 <> 0)%nat ->
  exists message,
    Seal.hexToKey hex
    = Throws {| Seal.message := message; Seal.code := Seal.INVALID_KEY;
                Seal.cause := None |}.
Proof.
  unfold Seal.hexToKey. cbv zeta. intros [Hhex | Hodd].
  - rewrite Hhex. cbn [negb]. eauto.
  - destruct (Seal.all_hex (Seal.cleanHex hex)); cbn [negb]; [|eauto].
    apply Nat.eqb_neq in Hodd. rewrite Hodd. cbn [negb]. eauto.
Qed.

(** [all_hex] fails exactly when some character is no hexadecimal digit. *)
Lemma all_hex_false (s : string) :
  Seal.all_hex s = false <->
  exists c, In c (list_ascii_of_string s) /\ ~ (exists v, digit c v).
Proof.
  induction s as [|c rest IH]; simpl.
  - split; [discriminate | intros (c & [] & _)].
  - destruct (Seal.is_hex_digit c) eqn:Hc; simpl.
    + rewrite IH. split.
      * intros (c' & Hin & Hno). eauto.
      * intros (c' & [<- | Hin] & Hno); [|eauto].
        destruct Hno. eauto using hex_digit_sound.
    + split; [|reflexivity]. intros _. exists c. split; [now left|].
      intros (v & Hv). apply hex_digit_complete in Hv as [Hv _]. congruence.
Qed.

End HexFacts.

Section KeyFacts.
Import Types HexSpec.

Lemma substring_all (s : string) : String.substring 0 (String.length s) s = s.
Proof. induction s as [|c s IH]; simpl; [reflexivity | now rewrite IH]. Qed.

(** The prefix is stripped. *)
Lemma cleanHex_prefixed (s : string) : Seal.cleanHex ("0x" ++ s) = s.
Proof.
  unfold Seal.cleanHex, Js.startsWith, Js.slice_from.
  change ("0x" ++ s) with (String "0" (String "x" s)).
  cbn [String.prefix String.length String.substring Nat.sub].
  destruct (ascii_dec "0" "0"); [|congruence].
  destruct (ascii_dec "x" "x"); [|congruence].
  rewrite Nat.sub_0_r. destruct s; apply substring_all.
Qed.

(** A digit string has no prefix to strip. *)
Lemma cleanHex_digits (s : string) (bytes : list Z) :
  denotes s bytes -> Seal.cleanHex s = s.
Proof.
  intros H. unfold Seal.cleanHex, Js.startsWith.
  destruct H as [|hi lo rest h l bytes Hhi Hlo _]; [reflexivity|].
  cbn [String.prefix]. destruct (ascii_dec "0" hi); [|reflexivity].
  destruct (ascii_dec "x" lo) as [<-|]; [|reflexivity].
  apply hex_digit_complete in Hlo as [Hlo _]. discriminate.
Qed.

Variable storage : option (DdnaEnvelope -> Outcome Thrown string).
Variable sealFn :
  EdmArtifact -> list Z -> string -> option string -> Outcome Thrown DdnaEnvelope.

(** When the key does not decode, [execute] calls neither the signing
    capability nor the store, and fails with a [SealError]. *)
Lemma undecodable_key_never_signed (args : Seal.Args) (e : Seal.SealError) :
  Seal.hexToKey (Seal.privateKey args) = Throws e ->
  (Seal.execute storage sealFn args).1 = []
  /\ exists err, (Seal.execute storage sealFn args).2 = Throws (Seal.Rejected err).
Proof.
  intros Hkey. unfold Seal.execute, Seal.reject.
  destruct (Seal.arg_artifact args) as [a|]; [|simpl; eauto].
  destruct (negb (Js.truthy_str (artifact_id a))); [simpl; eauto|].
  destruct (Governance.valid (Governance.validateGovernance a)) eqn:Hvalid;
    cbn [negb]; [|simpl; eauto].
  apply validateGovernance_valid in Hvalid as (g & x & Hg & Hx & _).
  unfold Governance.canExport, Governance.the_governance. rewrite Hg. simpl.
  destruct (Js.seq_str (exportability g) "allowed"); [|simpl; eauto].
  destruct (negb (Js.truthy_str (Seal.did args))
            || negb (Js.startsWith (Js.render (Seal.did args)) "did:"));
    [simpl; eauto|].
  rewrite Hkey. simpl. eauto.
Qed.

(** Past the artifact, governance and signer checks, an undecodable key is
    reported as INVALID_KEY, with the decoder's error as the cause. *)
Lemma undecodable_key_is_invalid_key
      (args : Seal.Args) (a : EdmArtifact) (d : string) (e : Seal.SealError) :
  Seal.arg_artifact args = Some a ->
  Js.truthy_str (artifact_id a) = true ->
  Governance.valid (Governance.validateGovernance a) = true ->
  Governance.canExport a = Returns true ->
  Seal.did args = Some d -> Js.startsWith d "did:" = true ->
  Seal.hexToKey (Seal.privateKey args) = Throws e ->
  Seal.execute storage sealFn args
  = ([], Throws (Seal.Rejected {| Seal.message := "Invalid private key format";
                                  Seal.code := Seal.INVALID_KEY;
                                  Seal.cause := Some (Seal.as_thrown e) |})).
Proof.
  intros Ha Hid Hvalid Hexport Hdid Hprefix Hkey. unfold Seal.execute.
  rewrite Ha, Hid, Hvalid, Hexport, Hdid. cbn [negb Js.render Js.truthy_str].
  rewrite Hprefix, Hkey.
  destruct (String.eqb d "") eqn:Hempty.
  - apply String.eqb_eq in Hempty. subst d. discriminate.
  - reflexivity.
Qed.

(** C9. [hexToKey] decodes a hexadecimal key, with or without the "0x"
    prefix, into the byte sequence it denotes ("0102" gives [1; 2]), returns
    nothing else, and rejects with INVALID_KEY every string that, the prefix
    stripped, has a character that is no hexadecimal digit or an odd number
    of digits ("010" is one).  Within [execute] such a key means the signing
    capability is never invoked: no call is made at all, the operation fails
    with a [SealError], and past the earlier checks that error is
    INVALID_KEY. *)
Theorem hexToKey_decodes_before_signing :
  Seal.hexToKey "0102" = Returns [1; 2]
  /\ (exists message,
         Seal.hexToKey "010"
         = Throws {| Seal.message := message; Seal.code := Seal.INVALID_KEY;
                     Seal.cause := None |})
  /\ (forall s bytes,
         denotes s bytes ->
         Seal.hexToKey s = Returns bytes /\ Seal.hexToKey ("0x" ++ s) = Returns bytes)
  /\ (forall hex bytes,
         Seal.hexToKey hex = Returns bytes -> denotes (Seal.cleanHex hex) bytes)
  /\ (forall hex,
         (exists c, In c (list_ascii_of_string (Seal.cleanHex hex))
                    /\ ~ (exists v, digit c v))
         \/ (String.length (Seal.cleanHex hex) mod 2 <> 0)%nat ->
         exists message,
           Seal.hexToKey hex
           = Throws {| Seal.message := message; Seal.code := Seal.INVALID_KEY;
                       Seal.cause := None |})
  /\ (forall args e,
         Seal.hexToKey (Seal.privateKey args) = Throws e ->
         (Seal.execute storage sealFn args).1 = []
         /\ exists err,
             (Seal.execute storage sealFn args).2 = Throws (Seal.Rejected err))
  /\ (forall args a d e,
         Seal.arg_artifact args = Some a ->
         Js.truthy_str (artifact_id a) = true ->
         Governance.valid (Governance.validateGovernance a) = true ->
         Governance.canExport a = Returns true ->
         Seal.did args = Some d -> Js.startsWith d "did:" = true ->
         Seal.hexToKey (Seal.privateKey args) = Throws e ->
         Seal.execute storage sealFn args
         = ([], Throws (Seal.Rejected
                          {| Seal.message := "Invalid private key format";
                             Seal.code := Seal.INVALID_KEY;
                             Seal.cause := Some (Seal.as_thrown e) |}))).
Proof.
  split; [reflexivity|].
  split; [eexists; reflexivity|].
  split.
  { intros s bytes H. split; apply hexToKey_denotes.
    - now rewrite (cleanHex_digits s bytes H).
    - now rewrite cleanHex_prefixed. }
  split; [intros hex bytes; apply hexToKey_denotes|].
  split.
  { intros hex [Hchar | Hodd]; apply hexToKey_rejects.
    - left. now apply all_hex_false.
    - now right. }
  split; [apply undecodable_key_never_signed | apply undecodable_key_is_invalid_key].
Qed.

End KeyFacts.

(** The same key in upper case, with the prefix, and the odd-length key
    inside [execute]. *)
Example hexToKey_upper_case : Seal.hexToKey "0xDEADbeef" = Returns [222; 173; 190; 239].
Proof. reflexivity. Qed.

Example execute_odd_key :
  Seal.execute (Some SampleSeal.storage_save) SampleSeal.sealFn SampleSeal.odd_key_args
  = ([], Throws (Seal.Rejected
                   {| Seal.message := "Invalid private key format";
                      Seal.code := Seal.INVALID_KEY;
                      Seal.cause :=
                        Some (ErrorObject "SealError" (Some "INVALID_KEY")) |})).
Proof. reflexivity. Qed.

(* ================================================================== *)
(** * Identity enrichment *)
(* ================================================================== *)

Section HeaderLemmas.
Import Types Middleware.

Lemma lower_ascii_idempotent (c : ascii) : lower_ascii (lower_ascii c) = lower_ascii c.
Proof.
  destruct c as [b0 b1 b2 b3 b4 b5 b6 b7].
  destruct b0, b1, b2, b3, b4, b5, b6, b7; reflexivity.
Qed.

Lemma toLowerCase_idempotent (s : string) : toLowerCase (toLowerCase s) = toLowerCase s.
Proof.
  induction s as [|c s IH]; simpl; [reflexivity|].
  now rewrite lower_ascii_idempotent, IH.
Qed.

(** No lower-cased name equals a name that has a capital in it. *)
Lemma lowered_is_not_capitalised (s member : string) :
  toLowerCase member <> member -> toLowerCase s <> member.
Proof.
  intros Hmember Hs. apply Hmember. rewrite <- Hs. apply toLowerCase_idempotent.
Qed.

(** Of the members of [Object.prototype] only two are written in lower
    case, so only these two can be met under a lower-cased name. *)
Lemma lowered_prototype_names (s : string) :
  Js.includes (toLowerCase s) object_prototype = true
  <-> toLowerCase s = "constructor" \/ toLowerCase s = "__proto__".
Proof.
  split.
  - unfold Js.includes, object_prototype. cbn [existsb]. intros H.
    repeat match type of H with
           | (_ || _) = true => apply orb_true_iff in H as [H|H]
           end;
      try discriminate; apply String.eqb_eq in H;
      first [ now left
            | now right
            | exfalso; revert H; apply lowered_is_not_capitalised;
              vm_compute; discriminate ].
  - intros [-> | ->]; reflexivity.
Qed.

Lemma assign_eq (key value : string) (result : gmap string string) :
  key <> "__proto__" -> assign key value result !! key = Some value.
Proof.
  intros Hkey. unfold assign. apply String.eqb_neq in Hkey. rewrite Hkey.
  apply lookup_insert_eq.
Qed.

Lemma assign_ne (key value other : string) (result : gmap string string) :
  key <> other -> assign key value result !! other = result !! other.
Proof.
  intros Hne. unfold assign. destruct (String.eqb key "__proto__"); [reflexivity|].
  now apply lookup_insert_ne.
Qed.

Lemma assign_proto (key value : string) (result : gmap string string) :
  assign key value result !! "__proto__" = result !! "__proto__".
Proof.
  unfold assign. destruct (String.eqb key "__proto__") eqn:Hkey; [reflexivity|].
  apply String.eqb_neq in Hkey. now apply lookup_insert_ne.
Qed.

(** Every key a round of the loop writes is in lower case. *)
Lemma copy_header_lower (result : gmap string string) (entry : string * HeaderValue) :
  (forall k v, result !! k = Some v -> toLowerCase k = k) ->
  forall k v, copy_header result entry !! k = Some v -> toLowerCase k = k.
Proof.
  intros Hresult k v. unfold copy_header, assign.
  destruct entry as [name value]. simpl.
  destruct value as [s|[|x xs]|]; try apply Hresult;
    (destruct (String.eqb (toLowerCase name) "__proto__"); [apply Hresult|];
     destruct (decide (toLowerCase name = k)) as [<-|Hne];
     [intros _; apply toLowerCase_idempotent
     |rewrite lookup_insert_ne by assumption; apply Hresult]).
Qed.

Lemma copied_headers_lower (entries : list (string * HeaderValue)) :
  forall result : gmap string string,
    (forall k v, result !! k = Some v -> toLowerCase k = k) ->
    forall k v, foldl copy_header result entries !! k = Some v -> toLowerCase k = k.
Proof.
  induction entries as [|entry entries IH]; intros result Hresult; simpl.
  - assumption.
  - apply IH. now apply copy_header_lower.
Qed.

(** Later headers with other names leave a key alone. *)
Lemma copied_headers_keep (k : string) (entries : list (string * HeaderValue)) :
  forall result : gmap string string,
    Forall (fun entry => toLowerCase entry.1 <> k) entries ->
    foldl copy_header result entries !! k = result !! k.
Proof.
  induction entries as [|[name value] entries IH]; intros result Hother; simpl.
  - reflexivity.
  - inversion Hother as [|? ? Hne Hrest]; subst. simpl in Hne.
    rewrite (IH _ Hrest). unfold copy_header. simpl.
    destruct value as [s|[|x xs]|]; try reflexivity; now apply assign_ne.
Qed.

(** No header is ever stored under [__proto__]. *)
Lemma copied_headers_proto (entries : list (string * HeaderValue)) :
  forall result : gmap string string,
    foldl copy_header result entries !! "__proto__" = result !! "__proto__".
Proof.
  induction entries as [|[name value] entries IH]; intros result; simpl.
  - reflexivity.
  - rewrite IH. unfold copy_header. simpl.
    destruct value as [s|[|x xs]|]; try reflexivity; apply assign_proto.
Qed.

(** A header that yields a value is found under its lower-cased name. *)
Lemma header_found (before after : list (string * HeaderValue))
      (name v : string) (value : HeaderValue) (result : gmap string string) :
  value = HString v \/ (exists vs, value = HArray (v :: vs)) ->
  toLowerCase name <> "__proto__" ->
  Forall (fun entry => toLowerCase entry.1 <> toLowerCase name) after ->
  foldl copy_header result (before ++ (name, value) :: after)%list
    !! toLowerCase name = Some v.
Proof.
  intros Hvalue Hname Hafter. rewrite foldl_app. simpl.
  rewrite (copied_headers_keep _ after _ Hafter). unfold copy_header. simpl.
  destruct Hvalue as [-> | [vs ->]]; now apply assign_eq.
Qed.

End HeaderLemmas.

Section MiddlewareFacts.
Import Types.

Variable baseMiddleware : Middleware.AuthMiddleware.
Variable orgHeader : option string.
Variable request : Middleware.Request.

(** C8, as amended.  When the base middleware resolves no identity the
    wrapper answers none, having called the base middleware and nothing
    else (the headers are not read).  When it resolves a context, the
    wrapper reads the headers and returns that context with the same user
    id, roles and permissions.  The organization is decided by what the
    extracted headers hold under the lower-cased header name:
    - a non-empty value: it becomes the organization id, in place of
      whatever the base context carried;
    - an empty value, or none where the name is no member of
      [Object.prototype]: the context comes back unchanged;
    - none where the name is such a member, which for a lower-cased name
      means "constructor" or "__proto__": the organization id becomes that
      member, no string at all.
    The extracted headers hold the value of a header of the request's
    [headers] object under any spelling of the name (the last one sent,
    and never under "__proto__"); they hold what MCP-style
    [params._meta.headers] has under exactly the lower-cased name; and
    they hold nothing for a name no header of the [headers] object has. *)
Theorem withOrganizationHeader_sets_only_the_organization :
  let key := Middleware.toLowerCase (default "x-organization-id" orgHeader) in
  let sent := Middleware.extractHeaders request !! key in
  (baseMiddleware request = None ->
   Middleware.withOrganizationHeader baseMiddleware orgHeader request
   = ([Middleware.CallBaseMiddleware request], None))
  /\ (forall context,
         baseMiddleware request = Some context ->
         exists result,
           Middleware.withOrganizationHeader baseMiddleware orgHeader request
           = ([Middleware.CallBaseMiddleware request;
               Middleware.CallExtractHeaders request], Some result)
           /\ (exists kept,
                  (result = Middleware.Context kept
                   \/ exists member,
                      result = Middleware.ForeignOrganization kept member)
                  /\ userId kept = userId context
                  /\ roles kept = roles context
                  /\ permissions kept = permissions context)
           /\ (forall value,
                  sent = Some value -> value <> "" ->
                  result = Middleware.Context
                             {| userId := userId context;
                                roles := roles context;
                                organizationId := Some value;
                                permissions := permissions context |})
           /\ (sent = Some "" -> result = Middleware.Context context)
           /\ (sent = None -> key <> "constructor" -> key <> "__proto__" ->
               result = Middleware.Context context)
           /\ (sent = None -> key = "constructor" \/ key = "__proto__" ->
               result = Middleware.ForeignOrganization context key))
  /\ (forall before after name value v meta_headers,
         request = Middleware.RequestObject
                     (Some (before ++ (name, value) :: after)%list) meta_headers ->
         value = Middleware.HString v
         \/ (exists vs, value = Middleware.HArray (v :: vs)) ->
         Middleware.toLowerCase name = key ->
         key <> "__proto__" ->
         Forall (fun entry => Middleware.toLowerCase entry.1 <> key) after ->
         sent = Some v)
  /\ (forall entries meta_headers,
         request = Middleware.RequestObject (Some entries) meta_headers ->
         Forall (fun entry => Middleware.toLowerCase entry.1 <> key) entries
         \/ key = "__proto__" ->
         sent = None)
  /\ (forall headers,
         request = Middleware.RequestObject None (Some headers) ->
         sent = headers !! key).
Proof.
  cbv zeta. unfold Middleware.withOrganizationHeader. cbv zeta.
  split; [now intros ->|]. split; [|split; [|split]].
  - intros context ->. unfold Middleware.property.
    pose proof (lowered_prototype_names (default "x-organization-id" orgHeader))
      as Hmember.
    destruct (Middleware.extractHeaders request
                !! Middleware.toLowerCase (default "x-organization-id" orgHeader))
      as [value|] eqn:Hsent.
    + destruct (String.eqb value "") eqn:Hvalue; cbn [Js.truthy_str negb];
        rewrite Hvalue; cbn [negb].
      * apply String.eqb_eq in Hvalue. subst value.
        eexists. split; [reflexivity|].
        split; [exists context; split; [now left | now repeat split]|].
        split; [intros value Hv Hne; inversion Hv; congruence|].
        split; [reflexivity|]. split; discriminate.
      * apply String.eqb_neq in Hvalue.
        eexists. split; [reflexivity|].
        split; [eexists; split; [now left | now repeat split]|].
        split; [intros value' Hv _; now inversion Hv|].
        split; [intros Hv; inversion Hv; congruence|]. split; discriminate.
    + destruct (Js.includes
                  (Middleware.toLowerCase (default "x-organization-id" orgHeader))
                  Middleware.object_prototype) eqn:Hinherited.
      * eexists. split; [reflexivity|].
        split; [exists context; split; [right; eauto | now repeat split]|].
        split; [discriminate|]. split; [discriminate|].
        split; [|reflexivity].
        intros _ Hc Hp. destruct (proj1 Hmember eq_refl) as [H|H]; contradiction.
      * eexists. split; [reflexivity|].
        split; [exists context; split; [now left | now repeat split]|].
        split; [discriminate|]. split; [discriminate|].
        split; [reflexivity|].
        intros _ Hkey. apply (proj2 Hmember) in Hkey. discriminate.
  - intros before after name value v meta_headers -> Hvalue <- Hname Hafter.
    now apply header_found.
  - intros entries meta_headers -> [Hnone | Hproto]; cbn [Middleware.extractHeaders].
    + now rewrite (copied_headers_keep _ entries _ Hnone).
    + rewrite Hproto. now rewrite copied_headers_proto.
  - intros headers ->. reflexivity.
Qed.

End MiddlewareFacts.

(** C8 as first stated does not hold: a context that already carries
    organization "org-a" comes back with "org-b" when the request's
    organization header says so. *)
Lemma organization_header_overwrites_existing :
  SampleMiddleware.baseMiddleware SampleMiddleware.request
  = Some SampleMiddleware.member
  /\ Types.organizationId SampleMiddleware.member = Some "org-a"
  /\ (Middleware.withOrganizationHeader SampleMiddleware.baseMiddleware None
                                        SampleMiddleware.request).2
     = Some (Middleware.Context
               {| Types.userId := "user-1";
                  Types.roles := Some ["user"];
                  Types.organizationId := Some "org-b";
                  Types.permissions := Some ["artifact:read:art-1"] |})
  /\ (Middleware.withOrganizationHeader SampleMiddleware.baseMiddleware None
                                        SampleMiddleware.request).2
     <> Some (Middleware.Context SampleMiddleware.member).
Proof.
  repeat split; try reflexivity. vm_compute. discriminate.
Qed.

(** The same header sent the MCP way, under [params._meta.headers], is
    looked up as it was spelled: capitalised, it is not found and the
    organization stays; and a wrapper configured for the header name
    "constructor" finds the constructor of every plain object where no
    such header was sent. *)
Example organization_header_by_meta_and_by_prototype :
  (Middleware.withOrganizationHeader SampleMiddleware.baseMiddleware None
                                     SampleMiddleware.meta_request).2
  = Some (Middleware.Context SampleMiddleware.member)
  /\ (Middleware.withOrganizationHeader SampleMiddleware.baseMiddleware
                                        (Some "Constructor")
                                        SampleMiddleware.request).2
     = Some (Middleware.ForeignOrganization SampleMiddleware.member "constructor").
Proof. split; vm_compute; reflexivity. Qed.

(* ================================================================== *)
(** * Volatile storage: listing *)
(* ================================================================== *)

Section ListFacts.
Import Types FilterSpec.









End ListFacts.

Section PaginationFacts.
Import Types FilterSpec.

Variable artifacts : Memory.JsMap EdmArtifact.
Variable envelopes : Memory.JsMap DdnaEnvelope.
Variable filter : StorageFilter.


End PaginationFacts.

(** Five public artifacts and a private one: an offset without a limit
    changes nothing, and limit 2 from offset 1 gives the second and third
    public ids. *)
Example list_offset_without_limit :
  Memory.artifact_list SampleMemory.store
    (Some (SampleMemory.public_page None (Some 3)))
  = Returns ["art-1"; "art-2"; "art-3"; "art-4"; "art-5"].
Proof. reflexivity. Qed.

Example list_offset_with_zero_limit :
  Memory.artifact_list SampleMemory.store
    (Some (SampleMemory.public_page (Some 0) (Some 3)))
  = Returns ["art-1"; "art-2"; "art-3"; "art-4"; "art-5"].
Proof. reflexivity. Qed.

Example list_second_and_third :
  Memory.artifact_list SampleMemory.store
    (Some (SampleMemory.public_page (Some 2) (Some 1)))
  = Returns ["art-2"; "art-3"].
Proof. reflexivity. Qed.

(* ================================================================== *)
(** * Further properties of the governance engine *)
(* ================================================================== *)

Section AccessRules.
Import Types Governance Decisions.

Variable Date_parse : string -> Js.Date.
Variable now : Z.

Lemma seq_str_true (o : option string) (s : string) :
  Js.seq_str o s = true <-> o = Some s.
Proof.
  destruct o as [t|]; simpl.
  - rewrite String.eqb_eq. split; congruence.
  - split; discriminate.
Qed.

Lemma seq_str_refl (s : string) : Js.seq_str (Some s) s = true.
Proof. now apply seq_str_true. Qed.

(** X1. A caller without identity is allowed nothing but to read a public
    artifact and to export a public artifact whose exportability is
    "allowed"; modify and delete are never allowed to it. *)
Theorem anonymous_access_is_public_only
        (a : EdmArtifact) (purpose : Purpose) (r : AccessCheckResult) :
  canAccess Date_parse now a None purpose = Returns r ->
  allowed r = true ->
  exists g m,
    governance a = Some g /\ meta a = Some m
    /\ visibility m = Some "public"
    /\ (purpose = Read \/ (purpose = Export /\ exportability g = Some "allowed")).
Proof.
  intros Hreturn Hallowed. unfold canAccess in Hreturn.
  destruct (isExpired Date_parse now a) as [[|]|[]] eqn:Hexpired; simpl in Hreturn;
    [inversion Hreturn; subst; discriminate | | discriminate].
  assert (Hg : exists g, governance a = Some g).
  { unfold isExpired, the_governance in Hexpired.
    destruct (governance a); [eauto | discriminate]. }
  destruct Hg as [g Hg].
  destruct purpose; simpl in Hreturn;
    try (inversion Hreturn; subst; discriminate).
  - unfold checkVisibility, the_meta in Hreturn.
    destruct (meta a) as [m|] eqn:Hm; simpl in Hreturn; [|discriminate].
    destruct (Js.seq_str (visibility m) "public") eqn:Hpublic; simpl in Hreturn;
      [|inversion Hreturn; subst; discriminate].
    apply seq_str_true in Hpublic. exists g, m. auto.
  - unfold checkVisibility, the_meta in Hreturn.
    destruct (meta a) as [m|] eqn:Hm; simpl in Hreturn; [|discriminate].
    destruct (Js.seq_str (visibility m) "public") eqn:Hpublic; simpl in Hreturn;
      [|inversion Hreturn; subst; discriminate].
    apply seq_str_true in Hpublic.
    unfold canExport, isProhibited, isRestricted, the_governance in Hreturn.
    rewrite Hg in Hreturn. simpl in Hreturn.
    destruct (Js.seq_str (exportability g) "allowed") eqn:Hallowed'; simpl in Hreturn.
    + apply seq_str_true in Hallowed'. exists g, m. auto 6.
    + destruct (Js.seq_str (exportability g) "prohibited"); simpl in Hreturn;
        [inversion Hreturn; subst; discriminate|].
      destruct (Js.seq_str (exportability g) "restricted"); simpl in Hreturn;
        inversion Hreturn; subst; discriminate.
Qed.

(** X2. The owner of a non-expired artifact whose visibility is one of
    public, private, shared may read, modify and delete it, whatever its
    exportability, and the decision carries no reason. *)
Theorem owner_reads_modifies_deletes
        (a : EdmArtifact) (m : ArtifactMeta) (c : AuthContext) (v : string)
        (purpose : Purpose) :
  meta a = Some m ->
  owner_user_id m = Some (userId c) ->
  visibility m = Some v -> declared_visibility v = true ->
  isExpired Date_parse now a = Returns false ->
  purpose <> Export ->
  canAccess Date_parse now a (Some c) purpose = Returns granted.
Proof.
  intros Hm Howner Hv Hdecl Hexpired Hpurpose.
  unfold canAccess, checkVisibility, the_meta. rewrite Hexpired, Hm. simpl.
  rewrite Howner, Hv, seq_str_refl. simpl.
  destruct purpose; try congruence; simpl; try reflexivity.
  destruct (match roles c with Some rs => Js.includes "admin" rs | None => false end);
    simpl; [reflexivity|].
  unfold declared_visibility, Js.includes in Hdecl. simpl in Hdecl.
  destruct (String.eqb v "public"); simpl; [reflexivity|].
  destruct (String.eqb v "private"); simpl; [reflexivity|].
  destruct (String.eqb v "shared"); simpl; [reflexivity | discriminate].
Qed.

(** Whoever is neither the owner nor an administrator can neither
    modify nor delete a non-expired artifact, public or not: the decision
    is the denial "Only owner or admin can modify/delete". *)
Theorem stranger_cannot_modify_or_delete
        (a : EdmArtifact) (m : ArtifactMeta) (c : AuthContext) :
  meta a = Some m ->
  Js.seq_str (owner_user_id m) (userId c) = false ->
  isAdmin (Some c) = false ->
  isExpired Date_parse now a = Returns false ->
  canAccess Date_parse now a (Some c) Modify
  = Returns (denied "Only owner or admin can modify/delete")
  /\ canAccess Date_parse now a (Some c) Delete
     = Returns (denied "Only owner or admin can modify/delete").
Proof.
  intros Hm Howner Hadmin Hexpired.
  unfold canAccess, the_meta. rewrite Hexpired, Hm. simpl.
  unfold isAdmin in Hadmin. rewrite Howner, Hadmin. split; reflexivity.
Qed.

(** X3. Whoever may export an artifact may read it: an allowing export
    decision implies the allowing read decision, for the same artifact,
    identity and time. *)
Theorem export_allowed_implies_read_allowed
        (a : EdmArtifact) (context : option AuthContext) (r : AccessCheckResult) :
  canAccess Date_parse now a context Export = Returns r ->
  allowed r = true ->
  canAccess Date_parse now a context Read = Returns granted.
Proof.
  intros Hreturn Hallowed. unfold canAccess in *.
  destruct (isExpired Date_parse now a) as [[|]|[]]; simpl in *;
    [inversion Hreturn; subst; discriminate | | discriminate].
  destruct (isAdmin context); simpl in *; [reflexivity|].
  destruct (checkVisibility a context) as [[|]|[]]; simpl in *;
    [reflexivity | inversion Hreturn; subst; discriminate | discriminate].
Qed.

(** X4. An administrator reads every non-expired artifact, and modifies
    and deletes every one that has its [meta] aggregate, but does not get
    past exportability: the export decision allows exactly when the
    exportability is "allowed". *)
Theorem admin_bypasses_visibility_not_exportability
        (a : EdmArtifact) (g : ArtifactGovernance) (context : option AuthContext) :
  isAdmin context = true ->
  governance a = Some g ->
  isExpired Date_parse now a = Returns false ->
  canAccess Date_parse now a context Read = Returns granted
  /\ (meta a <> None ->
      canAccess Date_parse now a context Modify = Returns granted
      /\ canAccess Date_parse now a context Delete = Returns granted)
  /\ exists r,
      canAccess Date_parse now a context Export = Returns r
      /\ allowed r = Js.seq_str (exportability g) "allowed".
Proof.
  intros Hadmin Hg Hexpired.
  destruct context as [c|]; [|discriminate].
  unfold canAccess, canExport, isProhibited, isRestricted, the_governance, the_meta.
  rewrite Hexpired, Hadmin, Hg. simpl.
  split; [reflexivity|]. split.
  - intros Hmeta. destruct (meta a) as [m|]; [|congruence]. simpl.
    rewrite andb_false_r. split; reflexivity.
  - destruct (Js.seq_str (exportability g) "allowed"); simpl; [eauto|].
    destruct (Js.seq_str (exportability g) "prohibited"); simpl; [eauto|].
    destruct (Js.seq_str (exportability g) "restricted"); simpl; eauto.
Qed.

(** X5. An artifact whose visibility is missing or none of public,
    private, shared can be read and exported by administrators only: every
    other caller, its owner included, fails the visibility check. *)
Theorem undeclared_visibility_hides_from_owner
        (a : EdmArtifact) (m : ArtifactMeta) (context : option AuthContext) :
  meta a = Some m ->
  declared_visibility (Js.render (visibility m)) = false ->
  isAdmin context = false ->
  isExpired Date_parse now a = Returns false ->
  canAccess Date_parse now a context Read = Returns (denied "Visibility check failed")
  /\ canAccess Date_parse now a context Export
     = Returns (denied "Visibility check failed").
Proof.
  intros Hm Hdecl Hadmin Hexpired.
  assert (Hhidden : checkVisibility a context = Returns false).
  { unfold checkVisibility, the_meta. rewrite Hm. simpl.
    unfold declared_visibility, Js.includes in Hdecl.
    destruct (visibility m) as [v|]; simpl in *.
    - destruct (String.eqb v "public"); [discriminate|].
      destruct (String.eqb v "private"); [discriminate|].
      destruct (String.eqb v "shared"); [discriminate|].
      now destruct context.
    - now destruct context. }
  unfold canAccess. rewrite Hexpired. simpl. rewrite Hadmin, Hhidden. simpl.
  split; reflexivity.
Qed.

End AccessRules.

(** X1, at an anonymous read of a public artifact. *)
Lemma anonymous_access_witness :
  exists g m,
    Types.governance SampleAccess.open_artifact = Some g
    /\ Types.meta SampleAccess.open_artifact = Some m
    /\ Types.visibility m = Some "public"
    /\ (Governance.Read = Governance.Read
        \/ (Governance.Read = Governance.Export
            /\ Types.exportability g = Some "allowed")).
Proof.
  apply (anonymous_access_is_public_only Sample.Date_parse Sample.now
           SampleAccess.open_artifact Governance.Read Decisions.granted);
    reflexivity.
Defined.

(** X2, at user-1 deleting their private artifact. *)
Lemma owner_reads_modifies_deletes_witness :
  Governance.canAccess Sample.Date_parse Sample.now SampleAccess.private_artifact
                       (Some (Sample.user "user-1" None)) Governance.Delete
  = Returns Decisions.granted.
Proof.
  apply (owner_reads_modifies_deletes Sample.Date_parse Sample.now
           SampleAccess.private_artifact (Sample.the_meta "private" (Some "user-1"))
           (Sample.user "user-1" None) "private" Governance.Delete);
    try reflexivity.
  discriminate.
Defined.

(** At user-2 and the public artifact of user-1. *)
Lemma stranger_cannot_modify_or_delete_witness :
  Governance.canAccess Sample.Date_parse Sample.now SampleAccess.open_artifact
                       (Some (Sample.user "user-2" None)) Governance.Modify
  = Returns (Decisions.denied "Only owner or admin can modify/delete")
  /\ Governance.canAccess Sample.Date_parse Sample.now SampleAccess.open_artifact
                          (Some (Sample.user "user-2" None)) Governance.Delete
     = Returns (Decisions.denied "Only owner or admin can modify/delete").
Proof.
  apply (stranger_cannot_modify_or_delete Sample.Date_parse Sample.now
           SampleAccess.open_artifact (Sample.the_meta "public" (Some "user-1"))
           (Sample.user "user-2" None)); reflexivity.
Defined.

(** X3, at user-1 exporting, hence reading, their private artifact. *)
Lemma export_allowed_implies_read_allowed_witness :
  Governance.canAccess Sample.Date_parse Sample.now SampleAccess.private_artifact
                       (Some (Sample.user "user-1" None)) Governance.Read
  = Returns Decisions.granted.
Proof.
  apply (export_allowed_implies_read_allowed Sample.Date_parse Sample.now
           SampleAccess.private_artifact (Some (Sample.user "user-1" None))
           Decisions.granted); reflexivity.
Defined.

(** X4, at an administrator and the restricted private artifact of
    user-1. *)
Lemma admin_bypasses_visibility_witness :
  Governance.canAccess Sample.Date_parse Sample.now Sample.restricted_artifact
                       (Some Sample.admin) Governance.Read
  = Returns Decisions.granted
  /\ (Types.meta Sample.restricted_artifact <> None ->
      Governance.canAccess Sample.Date_parse Sample.now Sample.restricted_artifact
                           (Some Sample.admin) Governance.Modify
      = Returns Decisions.granted
      /\ Governance.canAccess Sample.Date_parse Sample.now Sample.restricted_artifact
                              (Some Sample.admin) Governance.Delete
         = Returns Decisions.granted)
  /\ exists r,
      Governance.canAccess Sample.Date_parse Sample.now Sample.restricted_artifact
                           (Some Sample.admin) Governance.Export
      = Returns r
      /\ Governance.allowed r = Js.seq_str (Some "restricted") "allowed".
Proof.
  apply (admin_bypasses_visibility_not_exportability Sample.Date_parse Sample.now
           Sample.restricted_artifact
           (Sample.the_governance (Some "restricted") None) (Some Sample.admin));
    reflexivity.
Defined.

(** X5, at the owner of an artifact whose visibility reads "internal". *)
Lemma undeclared_visibility_witness :
  Governance.canAccess Sample.Date_parse Sample.now
                       SampleAccess.odd_visibility_artifact
                       (Some (Sample.user "user-1" None)) Governance.Read
  = Returns (Decisions.denied "Visibility check failed")
  /\ Governance.canAccess Sample.Date_parse Sample.now
                          SampleAccess.odd_visibility_artifact
                          (Some (Sample.user "user-1" None)) Governance.Export
     = Returns (Decisions.denied "Visibility check failed").
Proof.
  apply (undeclared_visibility_hides_from_owner Sample.Date_parse Sample.now
           SampleAccess.odd_visibility_artifact
           (Sample.the_meta "internal" (Some "user-1"))
           (Some (Sample.user "user-1" None))); reflexivity.
Defined.

Section SharingRules.
Import Types Governance Decisions.

Variable Date_parse : string -> Js.Date.
Variable now : Z.

(** X6. A member of the organization that owns a shared, non-expired
    artifact may read it without being its owner, and still may not modify
    it. *)
Theorem organization_member_reads_shared
        (a : EdmArtifact) (m : ArtifactMeta) (c : AuthContext) (org : string) :
  meta a = Some m ->
  visibility m = Some "shared" ->
  owner_org_id m = Some org -> org <> "" ->
  organizationId c = Some org ->
  Js.seq_str (owner_user_id m) (userId c) = false ->
  isAdmin (Some c) = false ->
  isExpired Date_parse now a = Returns false ->
  canAccess Date_parse now a (Some c) Read = Returns granted
  /\ canAccess Date_parse now a (Some c) Modify
     = Returns (denied "Only owner or admin can modify/delete").
Proof.
  intros Hm Hv Horg Hne Hc Howner Hadmin Hexpired.
  unfold canAccess, checkVisibility, the_meta. rewrite Hexpired, Hm. simpl.
  unfold isAdmin in Hadmin. rewrite Hadmin, Hv, Howner, Horg, Hc. simpl.
  apply String.eqb_neq in Hne. rewrite Hne, String.eqb_refl. simpl.
  split; reflexivity.
Qed.

(** X7. The permission "artifact:read:<id>" opens a shared artifact to a
    caller who is neither owner, nor member, nor administrator; on a
    private artifact the same permission counts for nothing. *)
Theorem read_permission_counts_for_shared_only
        (a : EdmArtifact) (m : ArtifactMeta) (c : AuthContext) (id : string)
        (ps : list string) :
  meta a = Some m ->
  artifact_id a = Some id ->
  permissions c = Some ps -> In ("artifact:read:" ++ id) ps ->
  Js.seq_str (owner_user_id m) (userId c) = false ->
  isAdmin (Some c) = false ->
  isExpired Date_parse now a = Returns false ->
  (visibility m = Some "shared" ->
   canAccess Date_parse now a (Some c) Read = Returns granted)
  /\ (visibility m = Some "private" ->
      canAccess Date_parse now a (Some c) Read
      = Returns (denied "Visibility check failed")).
Proof.
  intros Hm Hid Hps Hin Howner Hadmin Hexpired.
  assert (Hincl : Js.includes ("artifact:read:" ++ id) ps = true).
  { unfold Js.includes. apply existsb_exists.
    exists ("artifact:read:" ++ id). split; [assumption | apply String.eqb_refl]. }
  unfold canAccess, checkVisibility, the_meta, has_permission.
  rewrite Hexpired, Hm. simpl.
  unfold isAdmin in Hadmin. rewrite Hadmin, Howner, Hid, Hps. simpl.
  split; intros ->; simpl.
  - rewrite Hincl.
    now destruct (Js.truthy_str (owner_org_id m)
                  && Js.seq_opt (organizationId c) (owner_org_id m)).
  - reflexivity.
Qed.

End SharingRules.

(** X6, at a colleague from org-1 and the shared artifact "art-s". *)
Lemma organization_member_reads_shared_witness :
  Governance.canAccess Sample.Date_parse Sample.now SampleShared.shared_artifact
                       (Some (Sample.user "user-2" (Some "org-1"))) Governance.Read
  = Returns Decisions.granted
  /\ Governance.canAccess Sample.Date_parse Sample.now SampleShared.shared_artifact
                          (Some (Sample.user "user-2" (Some "org-1"))) Governance.Modify
     = Returns (Decisions.denied "Only owner or admin can modify/delete").
Proof.
  apply (organization_member_reads_shared Sample.Date_parse Sample.now
           SampleShared.shared_artifact SampleShared.shared_meta
           (Sample.user "user-2" (Some "org-1")) "org-1"); try reflexivity.
  discriminate.
Defined.

(** X7, at the guest who holds "artifact:read:art-s". *)
Lemma read_permission_witness :
  (Types.visibility SampleShared.shared_meta = Some "shared" ->
   Governance.canAccess Sample.Date_parse Sample.now SampleShared.shared_artifact
                        (Some SampleShared.guest) Governance.Read
   = Returns Decisions.granted)
  /\ (Types.visibility SampleShared.shared_meta = Some "private" ->
      Governance.canAccess Sample.Date_parse Sample.now SampleShared.shared_artifact
                           (Some SampleShared.guest) Governance.Read
      = Returns (Decisions.denied "Visibility check failed")).
Proof.
  apply (read_permission_counts_for_shared_only Sample.Date_parse Sample.now
           SampleShared.shared_artifact SampleShared.shared_meta SampleShared.guest
           "art-s" ["artifact:read:art-s"]); try reflexivity.
  now left.
Defined.

Section ValidationRules.
Import Types Governance.

(** X8. [validateGovernance] reports at most one error, and which one is
    decided by the governance aggregate alone: none when the exportability
    is a declared value, otherwise the missing aggregate, the missing
    exportability, or the invalid value.  Warnings never make an artifact
    invalid, and without a governance aggregate no warning is given. *)
Theorem validateGovernance_reports_one_error (a : EdmArtifact) :
  let report := validateGovernance a in
  (valid report = true <-> errors report = [])
  /\ (errors report = []
      <-> exists g e, governance a = Some g /\ exportability g = Some e
                      /\ declared_exportability e = true)
  /\ (governance a = None ->
      errors report = ["Missing governance field"] /\ warnings report = [])
  /\ (forall g, governance a = Some g -> Js.truthy_str (exportability g) = false ->
                errors report = ["Missing exportability setting"])
  /\ (forall g e, governance a = Some g -> exportability g = Some e -> e <> "" ->
                  declared_exportability e = false ->
                  errors report = ["Invalid exportability value"]).
Proof.
  cbv zeta. unfold validateGovernance.
  destruct (governance a) as [g|] eqn:Hg; simpl;
    [destruct (exportability g) as [e|] eqn:He; simpl;
     [destruct (String.eqb e "") eqn:Hempty; simpl;
      [apply String.eqb_eq in Hempty
      |destruct (declared_exportability e) eqn:Hd; simpl] |] |];
    repeat match goal with
           | |- _ /\ _ => split
           | |- _ <-> _ => split
           | |- _ -> _ => intro
           | H : exists _, _ |- _ => destruct H
           | H : _ /\ _ |- _ => destruct H
           | H : Some _ = Some _ |- _ => inversion H; subst; clear H
           end;
    try match goal with
        | H : exportability ?g = Some _, H' : context [exportability ?g] |- _ =>
          rewrite H in H'; simpl in H'
        end;
    try match goal with
        | H : String.eqb ?e "" = _, H' : context [String.eqb ?e ""] |- _ =>
          rewrite H in H'; simpl in H'
        end;
    repeat match goal with
           | H : Some _ = Some _ |- _ => inversion H; subst; clear H
           end;
    try match goal with
        | H : declared_exportability "" = true |- _ => vm_compute in H
        end;
    try reflexivity; try discriminate; try congruence; eauto 6.
Qed.



End ValidationRules.

(** A governance object that names its exportability and gives it no
    value defeats the default: the artifact comes out invalid, where the
    same object without the key comes out restricted and valid. *)
Example undefined_exportability_defeats_the_default :
  Governance.validateGovernance
    (Governance.applyDefaultGovernance_partial
       "2023-11-14T22:13:20.000Z"
       {| Governance.given := Sample.restricted_artifact;
          Governance.governance_exportability := Governance.Nullish;
          Governance.meta_visibility := Governance.Value "private";
          Governance.meta_created_at := Governance.Value "2023-01-01T00:00:00.000Z" |})
  = {| Governance.valid := false;
       Governance.errors := ["Missing exportability setting"];
       Governance.warnings := [] |}
  /\ Governance.valid
       (Governance.validateGovernance
          (Governance.applyDefaultGovernance_partial
             "2023-11-14T22:13:20.000Z"
             {| Governance.given := Sample.restricted_artifact;
                Governance.governance_exportability := Governance.Absent;
                Governance.meta_visibility := Governance.Value "private";
                Governance.meta_created_at :=
                  Governance.Value "2023-01-01T00:00:00.000Z" |}))
     = true.
Proof. split; vm_compute; reflexivity. Qed.

(* ================================================================== *)
(** * Further properties of sealing *)
(* ================================================================== *)

Section SealRules.
Import Types.

Variable storage : option (DdnaEnvelope -> Outcome Thrown string).
Variable sealFn :
  EdmArtifact -> list Z -> string -> option string -> Outcome Thrown DdnaEnvelope.

(** X10. When [execute] succeeds, the artifact had a non-empty id, passed
    [validateGovernance] and was exportable, the signer started with
    "did:", the key decoded, and the envelope returned is the one the
    signing capability produced for exactly these arguments.  An id is
    reported as saved only if the save flag was set and the store's [save]
    returned it for that envelope. *)
Theorem seal_success_is_earned (args : Seal.Args) (trace : list Seal.Effect)
        (r : Seal.SealResult) :
  Seal.execute storage sealFn args = (trace, Returns r) ->
  exists a d bytes,
    Seal.arg_artifact args = Some a
    /\ Js.truthy_str (artifact_id a) = true
    /\ Governance.valid (Governance.validateGovernance a) = true
    /\ Governance.canExport a = Returns true
    /\ Seal.did args = Some d /\ Js.startsWith d "did:" = true
    /\ Seal.hexToKey (Seal.privateKey args) = Returns bytes
    /\ sealFn a bytes d (Seal.arg_algorithm args) = Returns (Seal.envelope r)
    /\ (forall id, Seal.savedId r = Some id ->
                   Seal.save args = Some true
                   /\ exists save, storage = Some save
                                   /\ save (Seal.envelope r) = Returns id).
Proof.
  unfold Seal.execute, Seal.reject. intros H.
  destruct (Seal.arg_artifact args) as [a|]; [|discriminate].
  destruct (Js.truthy_str (artifact_id a)) eqn:Hid; [|discriminate].
  destruct (Governance.valid (Governance.validateGovernance a)) eqn:Hvalid;
    [|discriminate].
  cbn [negb] in H.
  destruct (Governance.canExport a) as [[|]|[]] eqn:Hexport; try discriminate.
  destruct (Seal.did args) as [d|] eqn:Hdid; [|discriminate].
  cbn [Js.truthy_str Js.render] in H.
  destruct (String.eqb d "") eqn:Hempty; [discriminate|].
  destruct (Js.startsWith d "did:") eqn:Hprefix; [|discriminate].
  cbn [negb orb] in H.
  destruct (Seal.hexToKey (Seal.privateKey args)) as [bytes|] eqn:Hkey;
    [|discriminate].
  destruct (sealFn a bytes d (Seal.arg_algorithm args)) as [env|] eqn:Hseal;
    [|discriminate].
  exists a, d, bytes. repeat (split; [assumption || reflexivity|]).
  destruct (Seal.save args) as [[|]|] eqn:Hsave; simpl in H.
  - destruct storage as [save|] eqn:Hstorage.
    + destruct (save env) as [id|] eqn:Hsaved; [|discriminate].
      inversion H; subst. simpl. split; [assumption|].
      intros id' Hid'. inversion Hid'; subst. eauto.
    + inversion H; subst. simpl. split; [assumption | discriminate].
  - inversion H; subst. simpl. split; [assumption | discriminate].
  - inversion H; subst. simpl. split; [assumption | discriminate].
Qed.

(** X11. Whatever the arguments and the outcome, [execute] hands an
    envelope to the store only when the save flag is set and only after the
    signing capability returned that very envelope; in particular a
    signing failure saves nothing. *)
Theorem seal_saves_only_what_was_signed
        (args : Seal.Args) (env : DdnaEnvelope) :
  In (Seal.StorageSave env) (Seal.execute storage sealFn args).1 ->
  Seal.save args = Some true
  /\ exists a bytes d,
      (Seal.execute storage sealFn args).1
      = [Seal.SealFn a bytes d (Seal.arg_algorithm args); Seal.StorageSave env]
      /\ sealFn a bytes d (Seal.arg_algorithm args) = Returns env.
Proof.
  unfold Seal.execute, Seal.reject.
  destruct (Seal.arg_artifact args) as [a|]; [|intros []].
  destruct (negb (Js.truthy_str (artifact_id a))); [intros []|].
  destruct (negb (Governance.valid (Governance.validateGovernance a)));
    [intros []|].
  destruct (Governance.canExport a) as [[|]|[]]; try (intros []).
  destruct (negb (Js.truthy_str (Seal.did args))
            || negb (Js.startsWith (Js.render (Seal.did args)) "did:"));
    [intros []|].
  destruct (Seal.hexToKey (Seal.privateKey args)) as [bytes|]; [|intros []].
  destruct (sealFn a bytes (Js.render (Seal.did args)) (Seal.arg_algorithm args))
    as [sealed|] eqn:Hseal; simpl.
  - destruct (Seal.save args) as [[|]|]; simpl.
    + destruct storage as [save|]; simpl.
      * destruct (save sealed); simpl;
          (intros [H|[H|[]]]; [discriminate|]; inversion H; subst; eauto 6).
      * intros [H|[]]. discriminate.
    + intros [H|[]]. discriminate.
    + intros [H|[]]. discriminate.
  - intros [H|[]]. discriminate.
Qed.

(** The key [hexToKey] returns has one byte for every two digits of
    the string (prefix not counted), and every byte lies between 0 and
    255. *)
Theorem hexToKey_yields_bytes (hex : string) (bytes : list Z) :
  Seal.hexToKey hex = Returns bytes ->
  (2 * length bytes = String.length (Seal.cleanHex hex))%nat
  /\ Forall (fun b => 0 <= b <= 255) bytes.
Proof.
  intros H. apply hexToKey_denotes in H.
  induction H as [|hi lo rest h l bytes [Hh _] [Hl _] _ [IHlen IHrange]].
  - split; [reflexivity | constructor].
  - split.
    + simpl. lia.
    + constructor; [lia | assumption].
Qed.

End SealRules.

(** X10, at an exportable artifact sealed and saved. *)
Lemma seal_success_witness :
  exists a d bytes,
    Seal.arg_artifact SampleSealOk.args = Some a
    /\ Js.truthy_str (Types.artifact_id a) = true
    /\ Governance.valid (Governance.validateGovernance a) = true
    /\ Governance.canExport a = Returns true
    /\ Seal.did SampleSealOk.args = Some d /\ Js.startsWith d "did:" = true
    /\ Seal.hexToKey (Seal.privateKey SampleSealOk.args) = Returns bytes
    /\ SampleSeal.sealFn a bytes d (Seal.arg_algorithm SampleSealOk.args)
       = Returns SampleSealOk.sealed
    /\ (forall id, Some "ddna_saved" = Some id ->
                   Seal.save SampleSealOk.args = Some true
                   /\ exists save, Some SampleSeal.storage_save = Some save
                                   /\ save SampleSealOk.sealed = Returns id).
Proof.
  apply (seal_success_is_earned (Some SampleSeal.storage_save) SampleSeal.sealFn
           SampleSealOk.args
           [Seal.SealFn SampleAccess.private_artifact [1; 2] "did:example:123" None;
            Seal.StorageSave SampleSealOk.sealed]
           {| Seal.envelope := SampleSealOk.sealed;
              Seal.savedId := Some "ddna_saved";
              Seal.warnings := None |}).
  reflexivity.
Defined.

(** X11, at the same call. *)
Lemma seal_saves_only_what_was_signed_witness :
  Seal.save SampleSealOk.args = Some true
  /\ exists a bytes d,
      (Seal.execute (Some SampleSeal.storage_save) SampleSeal.sealFn
                    SampleSealOk.args).1
      = [Seal.SealFn a bytes d (Seal.arg_algorithm SampleSealOk.args);
         Seal.StorageSave SampleSealOk.sealed]
      /\ SampleSeal.sealFn a bytes d (Seal.arg_algorithm SampleSealOk.args)
         = Returns SampleSealOk.sealed.
Proof.
  apply (seal_saves_only_what_was_signed (Some SampleSeal.storage_save)
           SampleSeal.sealFn SampleSealOk.args SampleSealOk.sealed).
  right. left. reflexivity.
Defined.

(** At the key "0xDEADbeef". *)
Lemma hexToKey_yields_bytes_witness :
  (2 * length [222; 173; 190; 239] = String.length (Seal.cleanHex "0xDEADbeef"))%nat
  /\ Forall (fun b => 0 <= b <= 255) [222; 173; 190; 239].
Proof.
  apply (hexToKey_yields_bytes "0xDEADbeef" [222; 173; 190; 239]). reflexivity.
Defined.

(* ================================================================== *)
(** * Identity resolution *)
(* ================================================================== *)

Section ResolverFacts.
Import Types Middleware.

Lemma compose_from_first (request : Request) (before : list AuthMiddleware) :
  forall position middleware after context,
    Forall (fun m => m request = None) before ->
    middleware request = Some context ->
    compose_from position (before ++ middleware :: after) request
    = (seq position (S (length before)), Some context).
Proof.
  induction before as [|m before IH]; intros position middleware after context Hnone Hsome.
  - simpl. now rewrite Hsome.
  - inversion Hnone as [|? ? Hm Hrest]; subst. simpl. rewrite Hm.
    now rewrite (IH (S position) middleware after context Hrest Hsome).
Qed.

Lemma compose_from_none (request : Request) (middlewares : list AuthMiddleware) :
  forall position,
    Forall (fun m => m request = None) middlewares ->
    compose_from position middlewares request
    = (seq position (length middlewares), None).
Proof.
  induction middlewares as [|m rest IH]; intros position Hnone; [reflexivity|].
  inversion Hnone as [|? ? Hm Hrest]; subst. simpl. rewrite Hm.
  now rewrite (IH (S position) Hrest).
Qed.

(** X12. [composeAuthMiddleware] answers with the first identity any of
    its middlewares resolves, having invoked that middleware and those
    before it, in order, and none after it; when none resolves an identity
    it has invoked them all and answers none. *)
Theorem compose_stops_at_first_identity
        (request : Request) (before after : list AuthMiddleware)
        (middleware : AuthMiddleware) (context : AuthContext) :
  Forall (fun m => m request = None) before ->
  middleware request = Some context ->
  composeAuthMiddleware (before ++ middleware :: after) request
  = (seq 0 (S (length before)), Some context)
  /\ (Forall (fun m => m request = None) after ->
      composeAuthMiddleware (before ++ after) request
      = (seq 0 (length (before ++ after)), None)).
Proof.
  intros Hbefore Hsome. unfold composeAuthMiddleware. split.
  - now apply compose_from_first.
  - intros Hafter. apply compose_from_none.
    apply Forall_app. now split.
Qed.

End ResolverFacts.

(** X12, at three middlewares of which the second and the third know the
    caller. *)
Lemma compose_stops_at_first_identity_witness :
  Middleware.composeAuthMiddleware
    ([SampleAuth.nobody] ++ SampleAuth.always SampleAuth.alice
                         :: [SampleAuth.always SampleAuth.bob])
    Middleware.NotAnObject
  = (seq 0 (S (length [SampleAuth.nobody])), Some SampleAuth.alice)
  /\ (Forall (fun m => m Middleware.NotAnObject = None)
             [SampleAuth.always SampleAuth.bob] ->
      Middleware.composeAuthMiddleware
        ([SampleAuth.nobody] ++ [SampleAuth.always SampleAuth.bob])
        Middleware.NotAnObject
      = (seq 0 (length ([SampleAuth.nobody] ++ [SampleAuth.always SampleAuth.bob])),
         None)).
Proof.
  apply (compose_stops_at_first_identity Middleware.NotAnObject
           [SampleAuth.nobody] [SampleAuth.always SampleAuth.bob]
           (SampleAuth.always SampleAuth.alice) SampleAuth.alice).
  - repeat constructor.
  - reflexivity.
Defined.

Section HeaderFacts.
Import Types Middleware.

(** X13. What [extractHeaders] makes of a request.  From a [headers]
    object it builds an object whose keys are all in lower case and never
    "__proto__"; a header that is a string, or an array with a first
    element, is found under its lower-cased name however it was spelled,
    provided the name is not "__proto__" and no later header has the same
    lower-cased name.  Without a [headers] object, MCP-style
    [params._meta.headers] is returned as it was sent, names not
    lower-cased.  Any other request has no headers. *)
Theorem extractHeaders_lowers_http_names_only :
  (forall before after name value v meta_headers,
      value = HString v \/ (exists vs, value = HArray (v :: vs)) ->
      toLowerCase name <> "__proto__" ->
      Forall (fun entry => toLowerCase entry.1 <> toLowerCase name) after ->
      extractHeaders (RequestObject (Some (before ++ (name, value) :: after)%list)
                                    meta_headers)
        !! toLowerCase name = Some v)
  /\ (forall entries meta_headers k x,
         extractHeaders (RequestObject (Some entries) meta_headers) !! k = Some x ->
         toLowerCase k = k /\ k <> "__proto__")
  /\ (forall headers, extractHeaders (RequestObject None (Some headers)) = headers)
  /\ extractHeaders (RequestObject None None) = ∅
  /\ extractHeaders NotAnObject = ∅.
Proof.
  split; [|split; [|repeat split]].
  - intros before after name value v meta_headers Hvalue Hname Hafter.
    now apply header_found.
  - intros entries meta_headers k x. cbn [extractHeaders]. intros Hfound. split.
    + revert Hfound. apply copied_headers_lower.
      intros k' x'. rewrite lookup_empty. discriminate.
    + intros ->. rewrite copied_headers_proto, lookup_empty in Hfound.
      discriminate.
Qed.

End HeaderFacts.

(** A header sent capitalised is found in lower case on a [headers] object
    and not at all under [params._meta.headers], and one named "__proto__"
    is not kept. *)
Example extractHeaders_by_branch :
  Middleware.extractHeaders SampleMiddleware.request !! "x-organization-id"
  = Some "org-b"
  /\ Middleware.extractHeaders SampleMiddleware.meta_request !! "x-organization-id"
     = None
  /\ Middleware.extractHeaders SampleMiddleware.meta_request !! "X-Organization-Id"
     = Some "org-b"
  /\ Middleware.extractHeaders
       (Middleware.RequestObject (Some [("__PROTO__", Middleware.HString "x")]) None)
     = ∅.
Proof. repeat split; vm_compute; reflexivity. Qed.

Section TokenFacts.
Import Types Middleware.

Lemma prefix_app (p t : string) : String.prefix p (p ++ t) = true.
Proof.
  induction p as [|c p IH]; simpl; [now destruct t|].
  destruct (ascii_dec c c); [assumption | congruence].
Qed.

Lemma slice_from_app (p t : string) : Js.slice_from (String.length p) (p ++ t) = t.
Proof.
  unfold Js.slice_from. induction p as [|c p IH]; simpl.
  - rewrite Nat.sub_0_r. destruct t; apply substring_all.
  - assumption.
Qed.

(** The Bearer prefix is taken off. *)
Lemma bearer_token_strips (t : string) : bearer_token ("Bearer " ++ t) = t.
Proof.
  unfold bearer_token, Js.startsWith. rewrite prefix_app.
  exact (slice_from_app "Bearer " t).
Qed.

(** The two header names the token middlewares read are found only as
    properties the headers object has of its own. *)
Lemma token_headers_not_inherited (headers : gmap string string) :
  property headers "authorization"
  = match headers !! "authorization" with Some v => Own v | None => Undefined end
  /\ property headers "x-auth-token"
     = match headers !! "x-auth-token" with Some v => Own v | None => Undefined end.
Proof.
  unfold property.
  destruct (headers !! "authorization"), (headers !! "x-auth-token"); split; reflexivity.
Qed.

Variable validTokens : gmap string AuthContext.
Variable request : Request.

(** X14. Which token the token middleware looks up.  A non-empty
    authorization header is the one presented, whatever x-auth-token says;
    with the authorization header absent or empty, a non-empty
    x-auth-token is; with neither, the request resolves to none.  The
    header presented stands for the token that follows "Bearer ", or for
    itself when it does not start so, and the identity resolved is the
    entry of the token map under exactly that token, none where the map
    has no such entry: the middleware never makes up an identity. *)
Theorem token_middleware_looks_tokens_up :
  let authorization := extractHeaders request !! "authorization" in
  let other := extractHeaders request !! "x-auth-token" in
  (forall h, authorization = Some h -> h <> "" ->
             createTokenAuthMiddleware validTokens request
             = validTokens !! bearer_token h)
  /\ (forall h, authorization = None \/ authorization = Some "" ->
                other = Some h -> h <> "" ->
                createTokenAuthMiddleware validTokens request
                = validTokens !! bearer_token h)
  /\ (authorization = None \/ authorization = Some "" ->
      other = None \/ other = Some "" ->
      createTokenAuthMiddleware validTokens request = None)
  /\ (forall t, bearer_token ("Bearer " ++ t) = t)
  /\ (forall h, Js.startsWith h "Bearer " = false -> bearer_token h = h)
  /\ (forall c,
         createTokenAuthMiddleware validTokens request = Some c ->
         exists h,
           (authorization = Some h
            \/ ((authorization = None \/ authorization = Some "")
                /\ other = Some h))
           /\ h <> ""
           /\ validTokens !! bearer_token h = Some c).
Proof.
  cbv zeta. unfold createTokenAuthMiddleware, authHeader. cbv zeta.
  split; [|split; [|split; [|split; [|split]]]].
  - intros h Hh Hne. rewrite Hh. simpl.
    apply String.eqb_neq in Hne. rewrite Hne. simpl. now rewrite Hne.
  - intros h Hauthorization Hother Hne.
    apply String.eqb_neq in Hne.
    destruct Hauthorization as [-> | ->]; simpl; rewrite Hother; simpl;
      now rewrite Hne.
  - intros Hauthorization Hother.
    destruct Hauthorization as [-> | ->], Hother as [-> | ->]; reflexivity.
  - exact bearer_token_strips.
  - intros h Hplain. unfold bearer_token. now rewrite Hplain.
  - intros c.
    destruct (extractHeaders request !! "authorization") as [a|] eqn:Ha.
    + destruct (String.eqb a "") eqn:Hempty; simpl; rewrite Hempty; simpl.
      * apply String.eqb_eq in Hempty. subst a.
        destruct (extractHeaders request !! "x-auth-token") as [x|]; simpl;
          [|discriminate].
        destruct (String.eqb x "") eqn:Hx; simpl; [discriminate|].
        apply String.eqb_neq in Hx. intros Hc. exists x.
        split; [right; split; [now right | reflexivity]|]. now split.
      * rewrite Hempty. simpl. apply String.eqb_neq in Hempty.
        intros Hc. exists a. split; [now left|]. now split.
    + simpl.
      destruct (extractHeaders request !! "x-auth-token") as [x|]; simpl;
        [|discriminate].
      destruct (String.eqb x "") eqn:Hx; simpl; [discriminate|].
      apply String.eqb_neq in Hx. intros Hc. exists x.
      split; [right; split; [now left | reflexivity]|]. now split.
Qed.

Variable env : gmap string string.


End TokenFacts.

(** The capitalised Bearer header of the sample request resolves alice,
    and the roles of the environment are split at commas. *)
Example token_middleware_bearer :
  Middleware.createTokenAuthMiddleware SampleAuth.tokens SampleAuth.bearer_request
  = Some SampleAuth.alice.
Proof. vm_compute. reflexivity. Qed.

Example env_roles_split :
  Types.roles <$>
    Middleware.createEnvTokenMiddleware
      (Some "s3cret") {[ "EDM_USER_ROLES" := "admin,user" ]} SampleAuth.bearer_request
  = Some (Some ["admin"; "user"]).
Proof. vm_compute. reflexivity. Qed.

(* ================================================================== *)
(** * Volatile storage: saving, loading, deleting *)
(* ================================================================== *)

Section StoreFacts.
Import Types.

Lemma get_set_eq {V} (store : Memory.JsMap V) (id : string) (v : V) :
  Memory.get (Memory.set store id v) id = Some v.
Proof.
  induction store as [|[k w] rest IH]; simpl.
  - now rewrite String.eqb_refl.
  - destruct (String.eqb k id) eqn:Hk; simpl.
    + now rewrite String.eqb_refl.
    + now rewrite Hk.
Qed.

Lemma get_set_ne {V} (store : Memory.JsMap V) (id other : string) (v : V) :
  other <> id ->
  Memory.get (Memory.set store id v) other = Memory.get store other.
Proof.
  intros Hne. induction store as [|[k w] rest IH]; simpl.
  - destruct (String.eqb_spec id other); [congruence | reflexivity].
  - destruct (String.eqb_spec k id) as [->|Hk]; simpl.
    + destruct (String.eqb_spec id other); [congruence | reflexivity].
    + destruct (String.eqb k other); [reflexivity | assumption].
Qed.

Lemma get_None_keys {V} (store : Memory.JsMap V) (id : string) :
  Memory.get store id = None <-> ~ In id (Memory.keys store).
Proof.
  induction store as [|[k w] rest IH]; simpl; [tauto|].
  destruct (String.eqb_spec k id) as [->|Hk].
  - split; [discriminate | intros H; destruct H; now left].
  - rewrite IH. tauto.
Qed.

Lemma keys_set {V} (store : Memory.JsMap V) (id : string) (v : V) :
  Memory.keys (Memory.set store id v)
  = if Memory.has store id then Memory.keys store else (Memory.keys store ++ [id])%list.
Proof.
  unfold Memory.has. induction store as [|[k w] rest IH]; simpl; [reflexivity|].
  destruct (String.eqb_spec k id) as [->|Hk]; simpl; [reflexivity|].
  rewrite IH. now destruct (Memory.get rest id).
Qed.

Lemma keys_remove {V} (store : Memory.JsMap V) (id : string) :
  List.NoDup (Memory.keys store) ->
  Memory.keys (Memory.remove store id)
  = List.filter (fun k => negb (String.eqb k id)) (Memory.keys store).
Proof.
  induction store as [|[k w] rest IH]; simpl; intros Hnodup; [reflexivity|].
  apply List.NoDup_cons_iff in Hnodup as [Hfresh Hnodup].
  destruct (String.eqb_spec k id) as [->|Hk]; simpl.
  - clear IH. symmetry.
    induction rest as [|[k' w'] rest IH]; simpl in *; [reflexivity|].
    destruct (String.eqb_spec k' id) as [->|Hk']; simpl.
    + destruct Hfresh. now left.
    + f_equal. apply IH; [tauto | now apply List.NoDup_cons_iff in Hnodup].
  - f_equal. now apply IH.
Qed.

Lemma get_remove {V} (store : Memory.JsMap V) (id other : string) :
  List.NoDup (Memory.keys store) ->
  Memory.get (Memory.remove store id) other
  = if String.eqb other id then None else Memory.get store other.
Proof.
  induction store as [|[k w] rest IH]; simpl; intros Hnodup.
  - now destruct (String.eqb other id).
  - apply List.NoDup_cons_iff in Hnodup as [Hfresh Hnodup].
    destruct (String.eqb k id) eqn:Hk; simpl.
    + apply String.eqb_eq in Hk. subst k.
      destruct (String.eqb other id) eqn:Hother.
      * apply String.eqb_eq in Hother. subst other. now apply get_None_keys.
      * rewrite String.eqb_sym, Hother. reflexivity.
    + rewrite (IH Hnodup).
      destruct (String.eqb k other) eqn:Hko; [|reflexivity].
      apply String.eqb_eq in Hko. subst other. now rewrite Hk.
Qed.

(** A generated id is never empty. *)
Lemma generateId_truthy (nowMs : Z) (random : string) :
  Js.truthy_str (Some (Storage.generateId nowMs random)) = true.
Proof. reflexivity. Qed.

Variable store : Memory.JsMap EdmArtifact.
Variable nowMs : Z.
Variable random : string.

(** X16. [MemoryArtifactStorage.save] accepts exactly the artifacts that
    have a schema version and a governance aggregate: a missing id is never
    a reason to refuse, since one is generated first.  Every refusal is an
    INVALID_DATA error. *)
Theorem save_accepts_versioned_governed_artifacts (a : EdmArtifact) :
  ((exists id store', Memory.save store nowMs random a = Returns (id, store'))
   <-> Js.truthy_str (schema_version a) = true /\ governance a <> None)
  /\ (forall e, Memory.save store nowMs random a = Throws e ->
                Storage.code e = Storage.INVALID_DATA).
Proof.
  unfold Memory.save, Storage.validateArtifact, Memory.ensure_id, Storage.refuse.
  cbv zeta.
  destruct (Js.truthy_str (artifact_id a)) eqn:Hid; cbn [negb];
    rewrite ?Hid, ?generateId_truthy; cbn [negb];
    cbn [schema_version governance artifact_id];
    (destruct (Js.truthy_str (schema_version a)); cbn [negb];
     [destruct (governance a); simpl|simpl]);
    (split;
     [split;
      [intros (id & store' & H); try discriminate; split; congruence
      |intros [H1 H2]; try discriminate; try congruence; eauto]
     |intros e H; try discriminate; inversion H; reflexivity]).
Qed.

(** X17. What [save] stored can be loaded under the id it returned: the
    artifact that was saved, with that id as its [artifact_id] (the given
    one, or the generated one), and every other id loads as before. *)
Theorem save_then_load (a : EdmArtifact) (id : string)
        (store' : Memory.JsMap EdmArtifact) :
  Memory.save store nowMs random a = Returns (id, store') ->
  Memory.load store' id = Returns (Memory.ensure_id nowMs random a)
  /\ artifact_id (Memory.ensure_id nowMs random a) = Some id
  /\ Memory.exists_ store' id = true
  /\ forall other, other <> id -> Memory.load store' other = Memory.load store other.
Proof.
  unfold Memory.save. cbv zeta.
  destruct (Storage.validateArtifact (Memory.ensure_id nowMs random a)) as [[]|e] eqn:Hvalid;
    simpl; [|discriminate].
  intros H. inversion H; subst. clear H.
  unfold Memory.load, Memory.exists_, Memory.has.
  rewrite get_set_eq. repeat split.
  - unfold Storage.validateArtifact in Hvalid.
    destruct (artifact_id (Memory.ensure_id nowMs random a)) as [i|]; simpl in *;
      [reflexivity | discriminate].
  - intros other Hother. now rewrite get_set_ne.
Qed.

(** X18. [save] keeps the keys of the store distinct and in insertion
    order: saving under an id the store already has replaces the value in
    place (same keys, same count), and saving under a new id appends it at
    the end, so that an unfiltered [list] returns it last. *)
Theorem save_keeps_insertion_order (a : EdmArtifact) (id : string)
        (store' : Memory.JsMap EdmArtifact) :
  List.NoDup (Memory.keys store) ->
  Memory.save store nowMs random a = Returns (id, store') ->
  List.NoDup (Memory.keys store')
  /\ (Memory.exists_ store id = true ->
      Memory.artifact_list store' None = Memory.artifact_list store None
      /\ Memory.count store' = Memory.count store)
  /\ (Memory.exists_ store id = false ->
      Memory.artifact_list store' None = Returns (Memory.keys store ++ [id])%list
      /\ Memory.count store' = S (Memory.count store)).
Proof.
  intros Hnodup. unfold Memory.save. cbv zeta.
  destruct (Storage.validateArtifact (Memory.ensure_id nowMs random a)) as [[]|e];
    simpl; [|discriminate].
  intros H. inversion H; subst. clear H.
  set (id := Js.render (artifact_id (Memory.ensure_id nowMs random a))).
  set (v := Memory.ensure_id nowMs random a).
  unfold Memory.exists_, Memory.artifact_list, Memory.count.
  assert (Hlen : length (Memory.set store id v) = length (Memory.keys (Memory.set store id v))).
  { unfold Memory.keys. now rewrite length_map. }
  assert (Hlen0 : length store = length (Memory.keys store)).
  { unfold Memory.keys. now rewrite length_map. }
  rewrite Hlen, Hlen0, keys_set.
  destruct (Memory.has store id) eqn:Hhas; repeat split; try discriminate; auto.
  - apply List.NoDup_app; [assumption | repeat constructor; intros [] |].
    intros k Hk [Heq|[]]. subst k. unfold Memory.has in Hhas.
    destruct (Memory.get store id) eqn:Hget; [discriminate|].
    now apply get_None_keys in Hget.
  - rewrite length_app. simpl. lia.
Qed.

(** X19. [delete] fails with NOT_FOUND exactly when the id is not in the
    store.  When it succeeds the id is gone, every other id loads as
    before, and the remaining keys keep their order. *)
Theorem delete_removes_one_entry (id : string) :
  List.NoDup (Memory.keys store) ->
  (Memory.exists_ store id = false ->
   exists e, Memory.delete store id = Throws e
             /\ Storage.code e = Storage.NOT_FOUND)
  /\ (Memory.exists_ store id = true ->
      exists store',
        Memory.delete store id = Returns store'
        /\ Memory.exists_ store' id = false
        /\ (forall other, other <> id ->
                          Memory.load store' other = Memory.load store other)
        /\ Memory.keys store'
           = List.filter (fun k => negb (String.eqb k id)) (Memory.keys store)).
Proof.
  intros Hnodup. unfold Memory.delete, Memory.delete_from, Memory.exists_. split.
  - intros ->. simpl. unfold Storage.refuse. eauto.
  - intros ->. simpl. eexists. split; [reflexivity|]. repeat split.
    + unfold Memory.has. rewrite get_remove by assumption.
      now rewrite String.eqb_refl.
    + intros other Hother. unfold Memory.load. rewrite get_remove by assumption.
      apply String.eqb_neq in Hother. now rewrite Hother.
    + now apply keys_remove.
Qed.

End StoreFacts.

(** X17, at an artifact without id saved at time 0 with random part
    "abcdefgh". *)
Lemma save_then_load_witness :
  Memory.load (SampleStore.two ++ [("edm_0_abcdefgh",
                                    Memory.ensure_id 0 "abcdefgh"
                                                     SampleStore.unnamed_artifact)])%list
              "edm_0_abcdefgh"
  = Returns (Memory.ensure_id 0 "abcdefgh" SampleStore.unnamed_artifact)
  /\ Types.artifact_id (Memory.ensure_id 0 "abcdefgh" SampleStore.unnamed_artifact)
     = Some "edm_0_abcdefgh"
  /\ Memory.exists_ (SampleStore.two ++ [("edm_0_abcdefgh",
                                          Memory.ensure_id 0 "abcdefgh"
                                                           SampleStore.unnamed_artifact)])%list
                    "edm_0_abcdefgh" = true
  /\ forall other, other <> "edm_0_abcdefgh" ->
                   Memory.load (SampleStore.two ++ [("edm_0_abcdefgh",
                                                     Memory.ensure_id 0 "abcdefgh"
                                                       SampleStore.unnamed_artifact)])%list
                               other
                   = Memory.load SampleStore.two other.
Proof.
  apply (save_then_load SampleStore.two 0 "abcdefgh" SampleStore.unnamed_artifact).
  reflexivity.
Defined.

(** X18, at the same save: the new id comes last. *)
Lemma save_keeps_insertion_order_witness :
  List.NoDup (Memory.keys (SampleStore.two
                             ++ [("edm_0_abcdefgh",
                                  Memory.ensure_id 0 "abcdefgh"
                                                   SampleStore.unnamed_artifact)])%list)
  /\ (Memory.exists_ SampleStore.two "edm_0_abcdefgh" = true ->
      Memory.artifact_list
        (SampleStore.two ++ [("edm_0_abcdefgh",
                              Memory.ensure_id 0 "abcdefgh"
                                               SampleStore.unnamed_artifact)])%list None
      = Memory.artifact_list SampleStore.two None
      /\ Memory.count (SampleStore.two
                         ++ [("edm_0_abcdefgh",
                              Memory.ensure_id 0 "abcdefgh"
                                               SampleStore.unnamed_artifact)])%list
         = Memory.count SampleStore.two)
  /\ (Memory.exists_ SampleStore.two "edm_0_abcdefgh" = false ->
      Memory.artifact_list
        (SampleStore.two ++ [("edm_0_abcdefgh",
                              Memory.ensure_id 0 "abcdefgh"
                                               SampleStore.unnamed_artifact)])%list None
      = Returns (Memory.keys SampleStore.two ++ ["edm_0_abcdefgh"])%list
      /\ Memory.count (SampleStore.two
                         ++ [("edm_0_abcdefgh",
                              Memory.ensure_id 0 "abcdefgh"
                                               SampleStore.unnamed_artifact)])%list
         = S (Memory.count SampleStore.two)).
Proof.
  apply (save_keeps_insertion_order SampleStore.two 0 "abcdefgh"
           SampleStore.unnamed_artifact).
  - repeat constructor; simpl; intuition discriminate.
  - reflexivity.
Defined.

(** X19, at the store of two artifacts and the id "art-own". *)
Lemma delete_removes_one_entry_witness :
  (Memory.exists_ SampleStore.two "art-own" = false ->
   exists e, Memory.delete SampleStore.two "art-own" = Throws e
             /\ Storage.code e = Storage.NOT_FOUND)
  /\ (Memory.exists_ SampleStore.two "art-own" = true ->
      exists store',
        Memory.delete SampleStore.two "art-own" = Returns store'
        /\ Memory.exists_ store' "art-own" = false
        /\ (forall other, other <> "art-own" ->
                          Memory.load store' other = Memory.load SampleStore.two other)
        /\ Memory.keys store'
           = List.filter (fun k => negb (String.eqb k "art-own"))
                         (Memory.keys SampleStore.two)).
Proof.
  apply (delete_removes_one_entry SampleStore.two "art-own").
  repeat constructor; simpl; intuition discriminate.
Defined.

Section EnvelopeStoreFacts.
Import Types.

Variable store : Memory.JsMap DdnaEnvelope.
Variable nowMs : Z.

Lemma count_set_existing {V} (s : Memory.JsMap V) (id : string) (v : V) :
  Memory.has s id = true -> Memory.count (Memory.set s id v) = Memory.count s.
Proof.
  intros Hhas. unfold Memory.count.
  assert (H : length (Memory.keys (Memory.set s id v)) = length (Memory.keys s)).
  { now rewrite keys_set, Hhas. }
  unfold Memory.keys in H. now rewrite !length_map in H.
Qed.

(** X20. [MemoryEnvelopeStorage.save] names an envelope after its
    artifact and the clock, "ddna_<artifact_id>_<time in base 36>", and what
    it stored loads under that name.  The name has no random part: a second
    envelope of an artifact with the same id, saved at the same clock
    reading, gets the same name and takes the place of the first, the count
    staying as it was.  A refusal is always an INVALID_DATA error. *)
Theorem envelope_save_names_by_artifact_and_time
        (e1 : DdnaEnvelope) (id : string) (store1 : Memory.JsMap DdnaEnvelope) :
  Memory.envelope_save store nowMs e1 = Returns (id, store1) ->
  (exists a, artifact e1 = Some a
             /\ id = "ddna_" ++ Js.render (artifact_id a) ++ "_"
                       ++ Storage.toString36 nowMs)
  /\ Memory.envelope_load store1 id = Returns e1
  /\ (forall e2,
         Storage.validateEnvelope e2 = Returns tt ->
         artifact e2 ≫= artifact_id = artifact e1 ≫= artifact_id ->
         exists store2,
           Memory.envelope_save store1 nowMs e2 = Returns (id, store2)
           /\ Memory.envelope_load store2 id = Returns e2
           /\ Memory.count store2 = Memory.count store1)
  /\ (forall e failure,
         Memory.envelope_save store nowMs e = Throws failure ->
         exists err, failure = Memory.Refused err
                     /\ Storage.code err = Storage.INVALID_DATA).
Proof.
  unfold Memory.envelope_save, Storage.generateEnvelopeId.
  destruct (Storage.validateEnvelope e1) as [[]|err] eqn:Hvalid; [|discriminate].
  destruct (artifact e1) as [a1|] eqn:Ha1; [|discriminate].
  intros H. inversion H; subst. clear H.
  split; [eauto|]. split.
  { unfold Memory.envelope_load. now rewrite get_set_eq. }
  split.
  - intros e2 Hvalid2 Hsame. rewrite Hvalid2.
    unfold Storage.validateEnvelope in Hvalid2.
    destruct (artifact e2) as [a2|]; [|discriminate].
    simpl in Hsame. rewrite Hsame.
    eexists. split; [reflexivity|]. split.
    + unfold Memory.envelope_load. now rewrite get_set_eq.
    + apply count_set_existing. unfold Memory.has. now rewrite get_set_eq.
  - intros e failure.
    unfold Storage.validateEnvelope, Storage.refuse.
    destruct (artifact e) as [a|]; simpl.
    + destruct (signature e) as [sg|]; simpl.
      * destruct (Js.truthy_str (signer_did sg)); simpl; [discriminate|].
        intros H. inversion H; subst. eauto.
      * intros H. inversion H; subst. eauto.
    + intros H. inversion H; subst. eauto.
Qed.

End EnvelopeStoreFacts.

(** X20, at two envelopes of "art-own" by different signers, both saved at
    clock reading 36. *)
Lemma envelope_save_witness :
  (exists a, Types.artifact (SampleStore.envelope_of SampleAccess.private_artifact
                                                     "did:example:1") = Some a
             /\ "ddna_art-own_10"
                = "ddna_" ++ Js.render (Types.artifact_id a) ++ "_"
                    ++ Storage.toString36 36)
  /\ Memory.envelope_load
       [("ddna_art-own_10",
         SampleStore.envelope_of SampleAccess.private_artifact "did:example:1")]
       "ddna_art-own_10"
     = Returns (SampleStore.envelope_of SampleAccess.private_artifact "did:example:1")
  /\ (forall e2,
         Storage.validateEnvelope e2 = Returns tt ->
         Types.artifact e2 ≫= Types.artifact_id
         = Types.artifact (SampleStore.envelope_of SampleAccess.private_artifact
                                                   "did:example:1")
             ≫= Types.artifact_id ->
         exists store2,
           Memory.envelope_save
             [("ddna_art-own_10",
               SampleStore.envelope_of SampleAccess.private_artifact "did:example:1")]
             36 e2
           = Returns ("ddna_art-own_10", store2)
           /\ Memory.envelope_load store2 "ddna_art-own_10" = Returns e2
           /\ Memory.count store2
              = Memory.count
                  [("ddna_art-own_10",
                    SampleStore.envelope_of SampleAccess.private_artifact
                                            "did:example:1")])
  /\ (forall e failure,
         Memory.envelope_save [] 36 e = Throws failure ->
         exists err, failure = Memory.Refused err
                     /\ Storage.code err = Storage.INVALID_DATA).
Proof.
  apply (envelope_save_names_by_artifact_and_time [] 36
           (SampleStore.envelope_of SampleAccess.private_artifact "did:example:1")).
  reflexivity.
Defined.

(* ================================================================== *)
(** * Resource addresses and the artifact provider *)
(* ================================================================== *)

Section UriFacts.

Lemma prefix_split (p s : string) :
  String.prefix p s = true -> exists t, s = p ++ t.
Proof.
  revert s. induction p as [|c p IH]; intros s; simpl.
  - intros _. now exists s.
  - destruct s as [|d s]; simpl; [discriminate|].
    destruct (ascii_dec c d) as [<-|]; [|discriminate].
    intros H. destruct (IH s H) as [t ->]. now exists t.
Qed.

Lemma parse_build (p id : string) :
  id <> "" ->
  (if negb (Js.startsWith (p ++ id) p) then None
   else if String.eqb (Js.slice_from (String.length p) (p ++ id)) ""
        then None else Some (Js.slice_from (String.length p) (p ++ id)))
  = Some id.
Proof.
  intros Hne. unfold Js.startsWith. rewrite prefix_app, slice_from_app. simpl.
  apply String.eqb_neq in Hne. now rewrite Hne.
Qed.

Lemma parse_inverts (p uri id : string) :
  (if negb (Js.startsWith uri p) then None
   else if String.eqb (Js.slice_from (String.length p) uri) ""
        then None else Some (Js.slice_from (String.length p) uri))
  = Some id ->
  uri = p ++ id /\ id <> "".
Proof.
  unfold Js.startsWith.
  destruct (String.prefix p uri) eqn:Hprefix; simpl; [|discriminate].
  destruct (prefix_split p uri Hprefix) as [t ->].
  rewrite slice_from_app.
  destruct (String.eqb t "") eqn:Ht; [discriminate|].
  intros H. inversion H; subst. split; [reflexivity|].
  now apply String.eqb_neq.
Qed.

(** X21. Addresses and ids convert both ways, for artifacts and for
    envelopes: the address built from a non-empty id parses back to that
    id, and whatever parses is the prefix followed by a non-empty id.  The
    address of the empty id does not parse, and neither parser accepts an
    address of the other kind. *)
Theorem addresses_round_trip :
  (forall id, id <> "" ->
              Edm.parseEdmUri (Edm.buildEdmUri id) = Some id
              /\ Ddna.parseDdnaUri (Ddna.buildDdnaUri id) = Some id)
  /\ (forall uri id, Edm.parseEdmUri uri = Some id ->
                     uri = Edm.buildEdmUri id /\ id <> "")
  /\ (forall uri id, Ddna.parseDdnaUri uri = Some id ->
                     uri = Ddna.buildDdnaUri id /\ id <> "")
  /\ Edm.parseEdmUri (Edm.buildEdmUri "") = None
  /\ Ddna.parseDdnaUri (Ddna.buildDdnaUri "") = None
  /\ (forall id, Edm.parseEdmUri (Ddna.buildDdnaUri id) = None
                 /\ Ddna.parseDdnaUri (Edm.buildEdmUri id) = None).
Proof.
  repeat split; try reflexivity.
  - now apply (parse_build Edm.EDM_URI_PREFIX).
  - now apply (parse_build Ddna.DDNA_URI_PREFIX).
  - now apply (parse_inverts Edm.EDM_URI_PREFIX uri id).
  - now apply (parse_inverts Edm.EDM_URI_PREFIX uri id).
  - now apply (parse_inverts Ddna.DDNA_URI_PREFIX uri id).
  - now apply (parse_inverts Ddna.DDNA_URI_PREFIX uri id).
Qed.

End UriFacts.

Section EdmFacts.
Import Types.

Variable Date_parse : string -> Js.Date.
Variable now : Z.
Variable storage_load : string -> Outcome Thrown EdmArtifact.
Variable storage_list : Outcome Thrown (list string).
Variable authContext : option AuthContext.
Variable JSON_stringify : EdmArtifact -> string.

(** A decision that allows carries no reason. *)
Lemma allowing_decision_shape (a : EdmArtifact) (context : option AuthContext)
      (purpose : Governance.Purpose) (r : Governance.AccessCheckResult) :
  Governance.canAccess Date_parse now a context purpose = Returns r ->
  Governance.allowed r = true ->
  r = {| Governance.allowed := true; Governance.reasons := [] |}.
Proof.
  unfold Governance.canAccess. intros H Hallowed.
  destruct (Governance.isExpired Date_parse now a) as [[|]|[]]; simpl in H;
    [inversion H; subst; discriminate | | discriminate].
  destruct purpose; simpl in H.
  - destruct (Governance.isAdmin context); simpl in H.
    + inversion H; subst; reflexivity.
    + destruct (Governance.checkVisibility a context) as [[|]|[]]; simpl in H;
        try discriminate; inversion H; subst; first [reflexivity | discriminate].
  - assert (Hexport :
              forall o : Outcome JsTypeError Governance.AccessCheckResult,
                o = (let? blocked :=
                       (let? ok := Governance.canExport a in Returns (negb ok)) in
                     if blocked then
                       let? prohibited := Governance.isProhibited a in
                       if prohibited then
                         Returns (Governance.push
                                    {| Governance.allowed := false;
                                       Governance.reasons := [] |}
                                    "Artifact export is prohibited")
                       else
                         let? restricted := Governance.isRestricted a in
                         if restricted then
                           Returns (Governance.push
                                      {| Governance.allowed := false;
                                         Governance.reasons := [] |}
                                      "Artifact export is restricted")
                         else Returns {| Governance.allowed := false;
                                         Governance.reasons := [] |}
                     else Returns (Governance.allow
                                     {| Governance.allowed := false;
                                        Governance.reasons := [] |})) ->
                o = Returns r ->
                r = {| Governance.allowed := true; Governance.reasons := [] |}).
    { intros o -> Ho.
      destruct (Governance.canExport a) as [[|]|[]]; simpl in Ho;
        [inversion Ho; subst; reflexivity | | discriminate].
      destruct (Governance.isProhibited a) as [[|]|[]]; simpl in Ho;
        [inversion Ho; subst; discriminate | | discriminate].
      destruct (Governance.isRestricted a) as [[|]|[]]; simpl in Ho;
        try discriminate; inversion Ho; subst; discriminate. }
    destruct (Governance.isAdmin context); simpl in H.
    + now apply (Hexport _ eq_refl).
    + destruct (Governance.checkVisibility a context) as [[|]|[]]; simpl in H;
        [now apply (Hexport _ eq_refl) | inversion H; subst; discriminate
        | discriminate].
  - destruct context as [c|]; simpl in H; [|inversion H; subst; discriminate].
    destruct (Governance.the_meta a) as [m|[]]; simpl in H; [|discriminate].
    match type of H with
    | (if ?b then _ else _) = _ => destruct b
    end; inversion H; subst; first [reflexivity | discriminate].
  - destruct context as [c|]; simpl in H; [|inversion H; subst; discriminate].
    destruct (Governance.the_meta a) as [m|[]]; simpl in H; [|discriminate].
    match type of H with
    | (if ?b then _ else _) = _ => destruct b
    end; inversion H; subst; first [reflexivity | discriminate].
Qed.

(** An allowing export decision needs the exportability "allowed". *)
Lemma export_allowed_means_exportable (a : EdmArtifact) (r : Governance.AccessCheckResult) :
  Governance.canAccess Date_parse now a authContext Governance.Export = Returns r ->
  Governance.allowed r = true ->
  Governance.canExport a = Returns true.
Proof.
  unfold Governance.canAccess. intros H Hallowed.
  destruct (Governance.isExpired Date_parse now a) as [[|]|[]]; simpl in H;
    [inversion H; subst; discriminate | | discriminate].
  destruct (if negb (Governance.isAdmin authContext)
            then let? visible := Governance.checkVisibility a authContext in
                 Returns (negb visible)
            else Returns false) as [[|]|[]]; simpl in H;
    [inversion H; subst; discriminate | | discriminate].
  destruct (Governance.canExport a) as [[|]|[]]; simpl in H;
    [reflexivity | | discriminate].
  destruct (Governance.isProhibited a) as [[|]|[]]; simpl in H;
    [inversion H; subst; discriminate | | discriminate].
  destruct (Governance.isRestricted a) as [[|]|[]]; simpl in H;
    [inversion H; subst; discriminate | inversion H; subst; discriminate | discriminate].
Qed.

(** X22. [EdmResourceProvider.read] releases an artifact only after the
    store returned it for the id in the address and [canAccess] allowed the
    export purpose to the caller; the artifact released is exportable
    ("allowed"), so a restricted or prohibited artifact is never released,
    to owner or administrator either.  What is released is the
    serialisation of that artifact, under the address asked for and the
    JSON content type. *)
Theorem read_releases_only_exportable_artifacts
        (uri : string) (trace : list Edm.Effect) (r : Edm.EdmResourceResult) :
  Edm.read Date_parse now storage_load authContext JSON_stringify uri
  = (trace, Returns r) ->
  exists id a,
    Edm.parseEdmUri uri = Some id
    /\ storage_load id = Returns a
    /\ Governance.canAccess Date_parse now a authContext Governance.Export
       = Returns {| Governance.allowed := true; Governance.reasons := [] |}
    /\ Governance.canExport a = Returns true
    /\ r = {| Edm.uri := uri; Edm.mimeType := "application/json";
              Edm.text := JSON_stringify a |}.
Proof.
  unfold Edm.read. intros H.
  destruct (Edm.parseEdmUri uri) as [id|]; [|discriminate].
  destruct (storage_load id) as [a|e] eqn:Hload;
    [|destruct (Ddna.is_not_found e); discriminate].
  destruct (Governance.canAccess Date_parse now a authContext Governance.Export)
    as [check|[]] eqn:Hcheck; [|discriminate].
  destruct (Governance.allowed check) eqn:Hallowed; simpl in H; [|discriminate].
  inversion H; subst. exists id, a. repeat split; try assumption.
  - now rewrite <- (allowing_decision_shape a authContext Governance.Export check).
  - now apply (export_allowed_means_exportable a check).
Qed.

(** What one round of the listing loop appends. *)
Lemma list_entry_shows (id : string) (a : EdmArtifact) (item : Edm.EdmResourceListItem) :
  Edm.list_entry Date_parse now authContext id a = Returns (Some item)
  <-> exists m,
      meta a = Some m
      /\ Governance.canAccess Date_parse now a authContext Governance.Read
         = Returns {| Governance.allowed := true; Governance.reasons := [] |}
      /\ item = {| Edm.item_uri := Edm.buildEdmUri id;
                   Edm.item_name := if Js.truthy_str (title m)
                                    then Js.render (title m) else id;
                   Edm.item_description := description m;
                   Edm.item_mimeType := "application/json" |}.
Proof.
  unfold Edm.list_entry, Governance.the_meta. split.
  - intros H.
    destruct (Governance.canAccess Date_parse now a authContext Governance.Read)
      as [check|[]] eqn:Hcheck; simpl in H; [|discriminate].
    destruct (Governance.allowed check) eqn:Hallowed; simpl in H; [|discriminate].
    destruct (meta a) as [m|]; simpl in H; [|discriminate].
    exists m. repeat split.
    + now rewrite <- (allowing_decision_shape a authContext Governance.Read check).
    + now inversion H.
  - intros (m & Hm & Hcheck & ->). rewrite Hcheck, Hm. reflexivity.
Qed.

Lemma list_entries_shows (ids : list string) (item : Edm.EdmResourceListItem) :
  In item (Edm.list_entries Date_parse now storage_load authContext ids)
  <-> exists id a,
      In id ids /\ storage_load id = Returns a
      /\ Edm.list_entry Date_parse now authContext id a = Returns (Some item).
Proof.
  induction ids as [|id ids IH]; simpl.
  - split; [intros [] | intros (? & ? & [] & _)].
  - assert (Hskip :
              (forall a, storage_load id = Returns a ->
                         Edm.list_entry Date_parse now authContext id a
                         <> Returns (Some item)) ->
              In item (Edm.list_entries Date_parse now storage_load authContext ids)
              <-> exists id' a,
                  (id = id' \/ In id' ids) /\ storage_load id' = Returns a
                  /\ Edm.list_entry Date_parse now authContext id' a
                     = Returns (Some item)).
    { intros Hnot. rewrite IH. split.
      - intros (id' & a' & Hin & Hload' & H). exists id', a'.
        split; [now right | now split].
      - intros (id' & a' & [<-|Hin] & Hload' & H).
        + now destruct (Hnot a' Hload').
        + exists id', a'. now repeat split. }
    destruct (storage_load id) as [a|e] eqn:Hload;
      [|apply Hskip; intros a' Ha'; discriminate].
    destruct (Edm.list_entry Date_parse now authContext id a)
      as [[shown|]|[]] eqn:Hentry;
      try (apply Hskip; intros a' Ha'; inversion Ha'; subst a'; congruence).
    simpl. rewrite IH. split.
    + intros [<-|(id' & a' & Hin & Hload' & H)].
      * exists id, a. split; [now left | now split].
      * exists id', a'. split; [now right | now split].
    + intros (id' & a' & [<-|Hin] & Hload' & H).
      * left. congruence.
      * right. exists id', a'. now repeat split.
Qed.

Lemma list_entry_uri (id : string) (a : EdmArtifact) (item : Edm.EdmResourceListItem) :
  Edm.list_entry Date_parse now authContext id a = Returns (Some item) ->
  Edm.item_uri item = Edm.buildEdmUri id.
Proof.
  intros H. apply list_entry_shows in H as (m & _ & _ & ->). reflexivity.
Qed.

Lemma list_entries_in_order (ids : list string) :
  map Edm.item_uri
      (Edm.list_entries Date_parse now storage_load authContext ids)
  = map Edm.buildEdmUri
        (List.filter
           (fun id =>
              match storage_load id with
              | Returns a =>
                match Governance.canAccess Date_parse now a authContext
                                           Governance.Read with
                | Returns decision =>
                  Governance.allowed decision
                  && match meta a with Some _ => true | None => false end
                | Throws _ => false
                end
              | Throws _ => false
              end)
           ids).
Proof.
  induction ids as [|id ids IH]; [reflexivity|].
  cbn [Edm.list_entries List.filter]. unfold Edm.list_entry, Governance.the_meta.
  destruct (storage_load id) as [a|e]; [|exact IH].
  destruct (Governance.canAccess Date_parse now a authContext Governance.Read)
    as [decision|[]]; cbn [bind]; [|exact IH].
  destruct (Governance.allowed decision); cbn [negb andb]; [|exact IH].
  destruct (meta a) as [m|]; cbn [bind]; [|exact IH].
  cbn [map Edm.item_uri]. now rewrite IH.
Qed.

(** An allowing read decision fixes the export decision: it allows exactly
    when the exportability is "allowed". *)
Lemma read_allowed_export_decision (a : EdmArtifact) :
  Governance.canAccess Date_parse now a authContext Governance.Read
  = Returns {| Governance.allowed := true; Governance.reasons := [] |} ->
  exists (exportable : bool) (decision : Governance.AccessCheckResult),
    Governance.canExport a = Returns exportable
    /\ Governance.canAccess Date_parse now a authContext Governance.Export
       = Returns decision
    /\ Governance.allowed decision = exportable.
Proof.
  unfold Governance.canAccess. intros H.
  destruct (Governance.isExpired Date_parse now a) as [[|]|[]] eqn:Hexpired;
    simpl in H; [discriminate | | discriminate].
  assert (Hg : exists g, governance a = Some g).
  { unfold Governance.isExpired, Governance.the_governance in Hexpired.
    destruct (governance a) as [g|]; [now exists g | discriminate]. }
  destruct Hg as [g Hg].
  unfold Governance.canExport, Governance.isProhibited,
    Governance.isRestricted, Governance.the_governance.
  rewrite Hg. simpl.
  destruct (if negb (Governance.isAdmin authContext)
            then let? visible := Governance.checkVisibility a authContext in
                 Returns (negb visible)
            else Returns false) as [[|]|[]]; simpl in H; try discriminate.
  simpl.
  destruct (Js.seq_str (exportability g) "allowed"); simpl.
  - eexists _, _. repeat split.
  - destruct (Js.seq_str (exportability g) "prohibited"); simpl;
      [eexists _, _; repeat split|].
    destruct (Js.seq_str (exportability g) "restricted"); simpl;
      eexists _, _; repeat split.
Qed.

(** X23. [EdmResourceProvider.list] shows, in the order of the store's
    listing, one item for every id whose artifact loads, has a [meta] and
    may be read by the caller; ids that fail to load or that the caller may
    not read are skipped, never reported as an error.  Each item carries
    the address built from its id and the title, or the id where there is
    no title. *)
Theorem listing_shows_what_the_caller_may_read (ids : list string) :
  storage_list = Returns ids ->
  exists items,
    Edm.list Date_parse now storage_load storage_list authContext = Returns items
    /\ map Edm.item_uri items
       = map Edm.buildEdmUri
             (List.filter
                (fun id =>
                   match storage_load id with
                   | Returns a =>
                     match Governance.canAccess Date_parse now a authContext
                                                Governance.Read with
                     | Returns decision =>
                       Governance.allowed decision
                       && match meta a with Some _ => true | None => false end
                     | Throws _ => false
                     end
                   | Throws _ => false
                   end)
                ids)
    /\ forall item,
        In item items
        <-> exists id a m,
            In id ids
            /\ storage_load id = Returns a
            /\ meta a = Some m
            /\ Governance.canAccess Date_parse now a authContext Governance.Read
               = Returns {| Governance.allowed := true; Governance.reasons := [] |}
            /\ item = {| Edm.item_uri := Edm.buildEdmUri id;
                         Edm.item_name := if Js.truthy_str (title m)
                                          then Js.render (title m) else id;
                         Edm.item_description := description m;
                         Edm.item_mimeType := "application/json" |}.
Proof.
  intros Hlist. unfold Edm.list. rewrite Hlist. simpl.
  eexists. split; [reflexivity|]. split; [apply list_entries_in_order|].
  intros item. rewrite list_entries_shows. split.
  - intros (id & a & Hin & Hload & Hentry).
    apply list_entry_shows in Hentry as (m & Hm & Hcheck & ->).
    now exists id, a, m.
  - intros (id & a & m & Hin & Hload & Hm & Hcheck & ->).
    exists id, a. repeat split; try assumption.
    apply list_entry_shows. now exists m.
Qed.

(** X24. Being listed is no promise of being readable: the address of a
    listed item is found in the store and passes the visibility rules, but
    [read] releases the artifact exactly when its exportability is
    "allowed", and fails with ACCESS_DENIED otherwise.  An item listed
    under the empty id has an address [read] rejects as INVALID_URI. *)
Theorem listed_is_read_only_if_exportable
        (ids : list string) (items : list Edm.EdmResourceListItem)
        (item : Edm.EdmResourceListItem) :
  Edm.list Date_parse now storage_load storage_list authContext = Returns items ->
  storage_list = Returns ids ->
  In item items ->
  exists id a exportable decision,
    In id ids
    /\ Edm.item_uri item = Edm.buildEdmUri id
    /\ storage_load id = Returns a
    /\ Governance.canExport a = Returns exportable
    /\ Governance.canAccess Date_parse now a authContext Governance.Export
       = Returns decision
    /\ snd (Edm.read Date_parse now storage_load authContext JSON_stringify
                     (Edm.item_uri item))
       = if String.eqb id "" then
           Throws (Edm.EdmResourceError ("Invalid EDM URI: " ++ Edm.item_uri item)
                                        Edm.INVALID_URI)
         else if exportable then
           Returns {| Edm.uri := Edm.item_uri item;
                      Edm.mimeType := "application/json";
                      Edm.text := JSON_stringify a |}
         else
           Throws (Edm.EdmResourceError
                     ("Access denied: "
                        ++ Js.join ", " (Governance.reasons decision))
                     Edm.ACCESS_DENIED).
Proof.
  unfold Edm.list. intros Hitems Hlist Hin. rewrite Hlist in Hitems.
  simpl in Hitems. inversion Hitems; subst items; clear Hitems.
  apply list_entries_shows in Hin as (id & a & Hin & Hload & Hentry).
  pose proof (list_entry_uri id a item Hentry) as Huri.
  apply list_entry_shows in Hentry as (m & Hm & Hcheck & _).
  destruct (read_allowed_export_decision a Hcheck)
    as (exportable & decision & Hexport & Hdecision & Hallowed).
  exists id, a, exportable, decision. repeat split; try assumption.
  rewrite Huri. unfold Edm.read.
  destruct (String.eqb id "") eqn:Hid.
  - apply String.eqb_eq in Hid. subst id. reflexivity.
  - apply String.eqb_neq in Hid.
    assert (Hparse : Edm.parseEdmUri (Edm.buildEdmUri id) = Some id)
      by exact (parse_build Edm.EDM_URI_PREFIX id Hid).
    rewrite Hparse, Hload, Hdecision, Hallowed. now destruct exportable.
Qed.

End EdmFacts.

(** X22, at an anonymous read of the public, exportable "art-open". *)
Lemma read_releases_witness :
  exists id a,
    Edm.parseEdmUri "edm://artifact/art-open" = Some id
    /\ SampleEdm.storage_load id = Returns a
    /\ Governance.canAccess Sample.Date_parse Sample.now a None Governance.Export
       = Returns {| Governance.allowed := true; Governance.reasons := [] |}
    /\ Governance.canExport a = Returns true
    /\ {| Edm.uri := "edm://artifact/art-open";
          Edm.mimeType := "application/json";
          Edm.text := "{}" |}
       = {| Edm.uri := "edm://artifact/art-open";
            Edm.mimeType := "application/json";
            Edm.text := SampleEdm.JSON_stringify a |}.
Proof.
  apply (read_releases_only_exportable_artifacts
           Sample.Date_parse Sample.now SampleEdm.storage_load None
           SampleEdm.JSON_stringify "edm://artifact/art-open"
           [Edm.StorageLoad "art-open"; Edm.GetAuthContext;
            Edm.CanAccess SampleAccess.open_artifact None Governance.Export]).
  reflexivity.
Defined.

(** X23, at an anonymous listing of a store that names two public
    artifacts and an id it cannot load. *)
Lemma listing_witness :
  exists items,
    Edm.list Sample.Date_parse Sample.now SampleEdm.storage_load
             SampleEdm.storage_list None
    = Returns items
    /\ map Edm.item_uri items
       = map Edm.buildEdmUri
             (List.filter
                (fun id =>
                   match SampleEdm.storage_load id with
                   | Returns a =>
                     match Governance.canAccess Sample.Date_parse Sample.now a None
                                                Governance.Read with
                     | Returns decision =>
                       Governance.allowed decision
                       && match Types.meta a with Some _ => true | None => false end
                     | Throws _ => false
                     end
                   | Throws _ => false
                   end)
                SampleEdm.ids)
    /\ forall item,
        In item items
        <-> exists id a m,
            In id SampleEdm.ids
            /\ SampleEdm.storage_load id = Returns a
            /\ Types.meta a = Some m
            /\ Governance.canAccess Sample.Date_parse Sample.now a None
                                    Governance.Read
               = Returns {| Governance.allowed := true; Governance.reasons := [] |}
            /\ item = {| Edm.item_uri := Edm.buildEdmUri id;
                         Edm.item_name := if Js.truthy_str (Types.title m)
                                          then Js.render (Types.title m) else id;
                         Edm.item_description := Types.description m;
                         Edm.item_mimeType := "application/json" |}.
Proof.
  apply (listing_shows_what_the_caller_may_read
           Sample.Date_parse Sample.now SampleEdm.storage_load
           SampleEdm.storage_list None SampleEdm.ids).
  reflexivity.
Defined.

(** X24, at the public but restricted "art-show": listed, yet denied on
    read. *)
Lemma listed_but_denied_witness :
  exists id a exportable decision,
    In id SampleEdm.ids
    /\ Edm.item_uri SampleEdm.showcase_item = Edm.buildEdmUri id
    /\ SampleEdm.storage_load id = Returns a
    /\ Governance.canExport a = Returns exportable
    /\ Governance.canAccess Sample.Date_parse Sample.now a None Governance.Export
       = Returns decision
    /\ snd (Edm.read Sample.Date_parse Sample.now SampleEdm.storage_load None
                     SampleEdm.JSON_stringify
                     (Edm.item_uri SampleEdm.showcase_item))
       = if String.eqb id "" then
           Throws (Edm.EdmResourceError
                     ("Invalid EDM URI: " ++ Edm.item_uri SampleEdm.showcase_item)
                     Edm.INVALID_URI)
         else if exportable then
           Returns {| Edm.uri := Edm.item_uri SampleEdm.showcase_item;
                      Edm.mimeType := "application/json";
                      Edm.text := SampleEdm.JSON_stringify a |}
         else
           Throws (Edm.EdmResourceError
                     ("Access denied: "
                        ++ Js.join ", " (Governance.reasons decision))
                     Edm.ACCESS_DENIED).
Proof.
  apply (listed_is_read_only_if_exportable
           Sample.Date_parse Sample.now SampleEdm.storage_load
           SampleEdm.storage_list None SampleEdm.JSON_stringify SampleEdm.ids
           [SampleEdm.showcase_item; SampleEdm.open_item]
           SampleEdm.showcase_item).
  - reflexivity.
  - reflexivity.
  - left. reflexivity.
Defined.

(** The denial of the listed "art-show", computed. *)
Example listed_showcase_is_denied :
  snd (Edm.read Sample.Date_parse Sample.now SampleEdm.storage_load None
                SampleEdm.JSON_stringify "edm://artifact/art-show")
  = Throws (Edm.EdmResourceError "Access denied: Artifact export is restricted"
                                 Edm.ACCESS_DENIED).
Proof. reflexivity. Qed.

Section DdnaFacts.
Import Types.

Variable Date_parse : string -> Js.Date.
Variable now : Z.
Variable storage_load : string -> Outcome Thrown DdnaEnvelope.
Variable storage_list : Outcome Thrown (list string).
Variable authContext : option AuthContext.
Variable verifySignature : DdnaEnvelope -> Outcome Thrown Ddna.Verification.
Variable JSON_stringify : DdnaEnvelope -> string.

(** What one round of the envelope listing loop appends. *)
Lemma envelope_entry_shows (id : string) (e : DdnaEnvelope)
      (item : Ddna.DdnaResourceListItem) :
  Ddna.list_entry Date_parse now authContext id e = Returns (Some item) ->
  exists a m s,
    artifact e = Some a /\ meta a = Some m /\ signature e = Some s
    /\ Governance.canAccess Date_parse now a authContext Governance.Read
       = Returns {| Governance.allowed := true; Governance.reasons := [] |}
    /\ item = {| Ddna.item_uri := Ddna.buildDdnaUri id;
                 Ddna.item_name := if Js.truthy_str (title m)
                                   then Js.render (title m) else id;
                 Ddna.item_description := description m;
                 Ddna.item_mimeType := "application/vnd.deepadata.ddna+json";
                 Ddna.signer := signer_did s;
                 Ddna.sealedAt := sealed_at e |}.
Proof.
  unfold Ddna.list_entry, Governance.canAccessEnvelope, Governance.the_meta.
  intros H. destruct (artifact e) as [a|]; simpl in H; [|discriminate].
  destruct (Governance.canAccess Date_parse now a authContext Governance.Read)
    as [check|[]] eqn:Hcheck; simpl in H; [|discriminate].
  destruct (Governance.allowed check) eqn:Hallowed; simpl in H; [|discriminate].
  destruct (meta a) as [m|] eqn:Hm; simpl in H; [|discriminate].
  destruct (signature e) as [s|]; [|discriminate].
  exists a, m, s. repeat split.
  - assumption.
  - now rewrite <- (allowing_decision_shape Date_parse now a authContext
                                            Governance.Read check).
  - now inversion H.
Qed.

Lemma envelope_entries_show (ids : list string) (item : Ddna.DdnaResourceListItem) :
  In item (Ddna.list_entries Date_parse now storage_load authContext ids) ->
  exists id e,
    In id ids /\ storage_load id = Returns e
    /\ Ddna.list_entry Date_parse now authContext id e = Returns (Some item).
Proof.
  induction ids as [|id ids IH]; simpl; [intros []|].
  assert (Hrest :
            In item (Ddna.list_entries Date_parse now storage_load authContext ids) ->
            exists id' e,
              (id = id' \/ In id' ids) /\ storage_load id' = Returns e
              /\ Ddna.list_entry Date_parse now authContext id' e
                 = Returns (Some item)).
  { intros Hin. destruct (IH Hin) as (id' & e' & Hin' & Hload' & H).
    exists id', e'. split; [now right | now split]. }
  destruct (storage_load id) as [e|x] eqn:Hload; [|exact Hrest].
  destruct (Ddna.list_entry Date_parse now authContext id e)
    as [[shown|]|[]] eqn:Hentry; try exact Hrest.
  intros [<-|Hin]; [|now apply Hrest].
  exists id, e. split; [now left | now split].
Qed.

(** X25. [DdnaResourceProvider.list] shows envelopes without verifying
    them: an item carries the signer the envelope claims, whatever the
    verifier would say.  [read] of a listed address then depends on the
    verifier first: its exception escapes, its rejection is
    INVALID_SIGNATURE, and only an accepted envelope reaches the export
    rule, which releases it exactly when the embedded artifact's
    exportability is "allowed". *)
Theorem listing_shows_unverified_envelopes
        (ids : list string) (items : list Ddna.DdnaResourceListItem)
        (item : Ddna.DdnaResourceListItem) :
  Ddna.list Date_parse now storage_load storage_list authContext = Returns items ->
  storage_list = Returns ids ->
  In item items ->
  exists id e a s exportable decision,
    In id ids
    /\ storage_load id = Returns e
    /\ artifact e = Some a
    /\ signature e = Some s
    /\ Ddna.item_uri item = Ddna.buildDdnaUri id
    /\ Ddna.signer item = signer_did s
    /\ Governance.canExport a = Returns exportable
    /\ Governance.canAccess Date_parse now a authContext Governance.Export
       = Returns decision
    /\ snd (Ddna.read Date_parse now storage_load authContext verifySignature
                      JSON_stringify (Ddna.item_uri item))
       = if String.eqb id "" then
           Throws (Ddna.DdnaResourceError
                     ("Invalid DDNA URI: " ++ Ddna.item_uri item) Ddna.INVALID_URI)
         else
           match verifySignature e with
           | Throws x => Throws (Ddna.Uncaught x)
           | Returns verification =>
             if negb (Ddna.valid verification) then
               Throws (Ddna.DdnaResourceError
                         ("Invalid envelope signature: "
                            ++ Js.render (Ddna.error verification))
                         Ddna.INVALID_SIGNATURE)
             else if exportable then
               Returns {| Ddna.uri := Ddna.item_uri item;
                          Ddna.mimeType := "application/vnd.deepadata.ddna+json";
                          Ddna.text := JSON_stringify e |}
             else
               Throws (Ddna.DdnaResourceError
                         ("Access denied: "
                            ++ Js.join ", " (Governance.reasons decision))
                         Ddna.ACCESS_DENIED)
           end.
Proof.
  unfold Ddna.list. intros Hitems Hlist Hin. rewrite Hlist in Hitems.
  simpl in Hitems. inversion Hitems; subst items; clear Hitems.
  apply envelope_entries_show in Hin as (id & e & Hin & Hload & Hentry).
  apply envelope_entry_shows in Hentry as (a & m & s & Ha & Hm & Hs & Hcheck & ->).
  destruct (read_allowed_export_decision Date_parse now authContext a Hcheck)
    as (exportable & decision & Hexport & Hdecision & Hallowed).
  exists id, e, a, s, exportable, decision.
  repeat split; try assumption.
  cbn [Ddna.item_uri]. unfold Ddna.read.
  destruct (String.eqb id "") eqn:Hid.
  - apply String.eqb_eq in Hid. subst id. reflexivity.
  - apply String.eqb_neq in Hid.
    assert (Hparse : Ddna.parseDdnaUri (Ddna.buildDdnaUri id) = Some id)
      by exact (parse_build Ddna.DDNA_URI_PREFIX id Hid).
    rewrite Hparse, Hload.
    destruct (verifySignature e) as [v|x]; [|reflexivity].
    destruct (Ddna.valid v); simpl; [|reflexivity].
    unfold Governance.canAccessEnvelope. rewrite Ha, Hdecision, Hallowed.
    now destruct exportable.
Qed.

End DdnaFacts.

(** X25, at the envelope with the empty signature value: listed with its
    claimed signer, refused on read by a verifier that wants a value. *)
Lemma listed_unverified_witness :
  exists id e a s exportable decision,
    In id ["ddna_art-1_abc"]
    /\ SampleDdna.storage_load id = Returns e
    /\ Types.artifact e = Some a
    /\ Types.signature e = Some s
    /\ Ddna.item_uri SampleEdm.unsigned_item = Ddna.buildDdnaUri id
    /\ Ddna.signer SampleEdm.unsigned_item = Types.signer_did s
    /\ Governance.canExport a = Returns exportable
    /\ Governance.canAccess Sample.Date_parse Sample.now a None Governance.Export
       = Returns decision
    /\ snd (Ddna.read Sample.Date_parse Sample.now SampleDdna.storage_load None
                      SampleDdna.strict_verifier SampleDdna.JSON_stringify
                      (Ddna.item_uri SampleEdm.unsigned_item))
       = if String.eqb id "" then
           Throws (Ddna.DdnaResourceError
                     ("Invalid DDNA URI: " ++ Ddna.item_uri SampleEdm.unsigned_item)
                     Ddna.INVALID_URI)
         else
           match SampleDdna.strict_verifier e with
           | Throws x => Throws (Ddna.Uncaught x)
           | Returns verification =>
             if negb (Ddna.valid verification) then
               Throws (Ddna.DdnaResourceError
                         ("Invalid envelope signature: "
                            ++ Js.render (Ddna.error verification))
                         Ddna.INVALID_SIGNATURE)
             else if exportable then
               Returns {| Ddna.uri := Ddna.item_uri SampleEdm.unsigned_item;
                          Ddna.mimeType := "application/vnd.deepadata.ddna+json";
                          Ddna.text := SampleDdna.JSON_stringify e |}
             else
               Throws (Ddna.DdnaResourceError
                         ("Access denied: "
                            ++ Js.join ", " (Governance.reasons decision))
                         Ddna.ACCESS_DENIED)
           end.
Proof.
  apply (listing_shows_unverified_envelopes
           Sample.Date_parse Sample.now SampleDdna.storage_load
           SampleEdm.envelope_ids None SampleDdna.strict_verifier
           SampleDdna.JSON_stringify ["ddna_art-1_abc"]
           [SampleEdm.unsigned_item] SampleEdm.unsigned_item).
  - reflexivity.
  - reflexivity.
  - left. reflexivity.
Defined.

(** The refusal of that listed envelope, computed. *)
Example listed_envelope_is_refused :
  Ddna.list Sample.Date_parse Sample.now SampleDdna.storage_load
            SampleEdm.envelope_ids None
  = Returns [SampleEdm.unsigned_item]
  /\ snd (Ddna.read Sample.Date_parse Sample.now SampleDdna.storage_load None
                    SampleDdna.strict_verifier SampleDdna.JSON_stringify
                    "ddna://envelope/ddna_art-1_abc")
     = Throws (Ddna.DdnaResourceError "Invalid envelope signature: Empty signature"
                                      Ddna.INVALID_SIGNATURE).
Proof. split; reflexivity. Qed.

Section ExtractFacts.
Import Types.

Variable trim : string -> string.
Variable nowIso : string.
Variable laterIso : string.
Variable storage : option (EdmArtifact -> Outcome Thrown (string * EdmArtifact)).
Variable authContext : option AuthContext.
Variable extractFn :
  Extract.ExtractionRequest -> Outcome Thrown (option EdmArtifact).

(** After the defaults an artifact has its [meta], so writing the owner
    into it cannot fail. *)
Lemma set_owner_after_defaults (c : AuthContext) (a : EdmArtifact) :
  exists stamped,
    Extract.set_owner c (Governance.applyDefaultGovernance nowIso a)
    = Returns stamped.
Proof. unfold Extract.set_owner. simpl. eexists. reflexivity. Qed.

Lemma length_zero (t : string) : (String.length t =? 0)%nat = true <-> t = "".
Proof. destruct t; simpl; split; congruence. Qed.

(** The three ways the input check can go. *)
Lemma text_turned_away (args : Extract.Args) :
  Extract.text args = None
  \/ (exists j, Extract.text args = Some j /\ JsonValue.truthy_value j = false)
  \/ (exists s, Extract.text args = Some (JStr s) /\ trim s = "") ->
  Extract.check_text trim args = Extract.Blank.
Proof.
  unfold Extract.check_text.
  intros [-> | [(j & -> & Hfalsy) | (s & -> & Hblank)]].
  - reflexivity.
  - destruct j; now rewrite Hfalsy.
  - rewrite Hblank. cbn [String.length Nat.eqb]. now rewrite orb_true_r.
Qed.

Lemma text_not_a_string (args : Extract.Args) (j : Json) :
  Extract.text args = Some j ->
  JsonValue.truthy_value j = true ->
  (forall s, j <> JStr s) ->
  Extract.check_text trim args = Extract.NotAString.
Proof.
  unfold Extract.check_text. intros -> Htruthy Hnot.
  destruct j; try now rewrite Htruthy.
  now destruct (Hnot s).
Qed.

Lemma text_goes_on (args : Extract.Args) (s : string) :
  Extract.text args = Some (JStr s) -> s <> "" -> trim s <> "" ->
  Extract.check_text trim args = Extract.Text s.
Proof.
  unfold Extract.check_text. intros -> Hne Htrim.
  cbn [JsonValue.truthy_value]. apply String.eqb_neq in Hne. rewrite Hne.
  cbn [negb orb].
  destruct (String.length (trim s) =? 0)%nat eqn:Hlength; [|reflexivity].
  apply length_zero in Hlength. contradiction.
Qed.

Lemma text_was_not_a_string (args : Extract.Args) :
  Extract.check_text trim args = Extract.NotAString ->
  exists j, Extract.text args = Some j
            /\ JsonValue.truthy_value j = true
            /\ forall s, j <> JStr s.
Proof.
  unfold Extract.check_text.
  destruct (Extract.text args) as [j|]; [|discriminate].
  destruct j as [|b|n|s|xs|kvs];
    try (destruct (JsonValue.truthy_value _) eqn:Htruthy; [|discriminate];
         intros _; eexists; split; [reflexivity|]; split;
         [exact Htruthy | discriminate]).
  destruct (negb (JsonValue.truthy_value (JStr s))
            || (String.length (trim s) =? 0)%nat); discriminate.
Qed.

Lemma text_went_on (args : Extract.Args) (s : string) :
  Extract.check_text trim args = Extract.Text s ->
  Extract.text args = Some (JStr s) /\ s <> "" /\ trim s <> "".
Proof.
  unfold Extract.check_text.
  destruct (Extract.text args) as [j|]; [|discriminate].
  destruct j as [|b|n|s'|xs|kvs];
    try (destruct (JsonValue.truthy_value _); discriminate).
  cbn [JsonValue.truthy_value].
  destruct (String.eqb s' "") eqn:Hempty; cbn [negb orb]; [discriminate|].
  destruct (String.length (trim s') =? 0)%nat eqn:Hlength; [discriminate|].
  intros H. inversion H; subst s'. apply String.eqb_neq in Hempty.
  repeat split; [assumption|].
  intros Hblank. apply length_zero in Hblank. congruence.
Qed.

(** X26. How [ExtractToolHandler.execute], called with an arguments
    object, treats the text and the extractor.  Text that is absent, falsy
    or, being a string, blank is turned away with INVALID_INPUT before any
    collaborator is invoked.  A string that is not blank reaches the
    extractor first, and untrimmed; an extractor that throws ends the call
    with EXTRACTION_FAILED, the identity and the storage left alone.  The
    input check and the application of the defaults are not guarded: a
    truthy text that is no string, and an extractor that resolves to
    [null] or [undefined], end the call with a [TypeError], and these are
    the only two ways for anything but an [ExtractionError] to leave
    [execute].  The handler of the tool passes its argument on as it is:
    a value that is no object has no text and is turned away, and a call
    without arguments ends with a [TypeError] too. *)
Theorem extract_turns_blank_text_away (args : Extract.Args) :
  let run :=
    Extract.execute trim nowIso laterIso storage authContext extractFn args in
  let request text :=
    {| Extract.request_content :=
         {| Extract.content_text := text;
            Extract.content_image := Extract.image args |};
       Extract.request_metadata := Extract.metadata args |} in
  (Extract.text args = None
   \/ (exists j, Extract.text args = Some j /\ JsonValue.truthy_value j = false)
   \/ (exists s, Extract.text args = Some (JStr s) /\ trim s = "") ->
   run = ([], Extract.reject "Text content is required" Extract.INVALID_INPUT None))
  /\ (forall j,
         Extract.text args = Some j ->
         JsonValue.truthy_value j = true ->
         (forall s, j <> JStr s) ->
         run = ([], Throws (Extract.Uncaught thrown_TypeError)))
  /\ (forall s,
         Extract.text args = Some (JStr s) -> s <> "" -> trim s <> "" ->
         (exists rest, fst run = Extract.ExtractFn (request s) :: rest)
         /\ (forall error,
                extractFn (request s) = Throws error ->
                run = ([Extract.ExtractFn (request s)],
                       Extract.reject "Extraction failed" Extract.EXTRACTION_FAILED
                                      (Some error)))
         /\ (extractFn (request s) = Returns None ->
             run = ([Extract.ExtractFn (request s)],
                    Throws (Extract.Uncaught thrown_TypeError))))
  /\ (forall e,
         snd run = Throws (Extract.Uncaught e) ->
         e = thrown_TypeError
         /\ ((exists j, Extract.text args = Some j
                        /\ JsonValue.truthy_value j = true
                        /\ forall s, j <> JStr s)
             \/ (exists s, Extract.text args = Some (JStr s)
                           /\ s <> "" /\ trim s <> ""
                           /\ extractFn (request s) = Returns None)))
  /\ Extract.handler trim nowIso laterIso storage authContext extractFn
                     (Extract.ArgumentsObject args)
     = run
  /\ Extract.handler trim nowIso laterIso storage authContext extractFn
                     Extract.NotAnObject
     = ([], Extract.reject "Text content is required" Extract.INVALID_INPUT None)
  /\ Extract.handler trim nowIso laterIso storage authContext extractFn
                     Extract.NoArguments
     = ([], Throws (Extract.Uncaught thrown_TypeError)).
Proof.
  cbv zeta. unfold Extract.execute.
  split; [|split; [|split; [|split; [|repeat split]]]].
  - intros Hcase. now rewrite (text_turned_away args Hcase).
  - intros j Hj Htruthy Hnot.
    now rewrite (text_not_a_string args j Hj Htruthy Hnot).
  - intros s Hs Hne Htrim. rewrite (text_goes_on args s Hs Hne Htrim). cbv zeta.
    destruct (extractFn _) as [[extracted|]|error] eqn:Hextract.
    + split; [|split; discriminate].
      destruct authContext as [c|].
      * destruct (set_owner_after_defaults c extracted) as [stamped ->].
        destruct (default false (Extract.save args)), storage as [storage_save|];
          try destruct (storage_save stamped) as [[id saved]|error];
          eexists; reflexivity.
      * destruct (default false (Extract.save args)), storage as [storage_save|];
          try destruct (storage_save _) as [[id saved]|error];
          eexists; reflexivity.
    + split; [now exists []|]. split; [discriminate | reflexivity].
    + split; [now exists []|]. split; [|discriminate].
      intros error' Herror. now inversion Herror.
  - intros e.
    destruct (Extract.check_text trim args) as [|s|] eqn:Hcase.
    + discriminate.
    + apply text_went_on in Hcase as (Hs & Hne & Htrim). cbv zeta.
      destruct (extractFn _) as [[extracted|]|error] eqn:Hextract.
      * destruct authContext as [c|].
        -- destruct (set_owner_after_defaults c extracted) as [stamped ->].
           destruct (default false (Extract.save args)), storage as [storage_save|];
             try destruct (storage_save stamped) as [[id saved]|error];
             discriminate.
        -- destruct (default false (Extract.save args)), storage as [storage_save|];
             try destruct (storage_save _) as [[id saved]|error]; discriminate.
      * intros He. inversion He. split; [reflexivity|]. right. now exists s.
      * discriminate.
    + apply text_was_not_a_string in Hcase. intros He. inversion He.
      split; [reflexivity|]. now left.
Qed.

(** How a successful [execute] went: the extractor answered, the defaults
    and the owner were written, and the artifact was saved or returned. *)
Lemma execute_returns (args : Extract.Args) (trace : list Extract.Effect)
      (r : Extract.ExtractionResult) :
  Extract.execute trim nowIso laterIso storage authContext extractFn args
  = (trace, Returns r) ->
  exists request extracted handed,
    extractFn request = Returns (Some extracted)
    /\ match authContext with
       | Some c =>
         Extract.set_owner c (Governance.applyDefaultGovernance nowIso extracted)
       | None => Returns (Governance.applyDefaultGovernance nowIso extracted)
       end = Returns handed
    /\ match default false (Extract.save args), storage with
       | true, Some storage_save =>
         exists id,
           storage_save handed = Returns (id, Extract.artifact r)
           /\ Extract.savedId r = Some id
           /\ trace = [Extract.ExtractFn request; Extract.GetAuthContext;
                       Extract.StorageSave handed]
       | _, _ =>
         Extract.artifact r = handed
         /\ Extract.savedId r = None
         /\ trace = [Extract.ExtractFn request; Extract.GetAuthContext]
       end.
Proof.
  unfold Extract.execute. intros H.
  destruct (Extract.check_text trim args) as [|text|]; try discriminate.
  cbv zeta in H.
  match type of H with
  | context [extractFn ?q] =>
    exists q; destruct (extractFn q) as [[extracted|]|error]
  end; try discriminate.
  exists extracted.
  destruct (match authContext with
            | Some c =>
              Extract.set_owner c (Governance.applyDefaultGovernance nowIso extracted)
            | None => Returns (Governance.applyDefaultGovernance nowIso extracted)
            end) as [handed|[]]; [|discriminate].
  exists handed. split; [reflexivity|]. split; [reflexivity|].
  destruct (default false (Extract.save args)), storage as [storage_save|];
    try (unfold Extract.result in H; inversion H; now repeat split).
  destruct (storage_save handed) as [[id saved]|error]; [|discriminate].
  exists id. unfold Extract.result in H. inversion H. now repeat split.
Qed.

(** X27. What [execute] extracts for an identified caller belongs to that
    caller: the artifact it hands to the store, or returns when it does
    not save, is the extractor's by id and content, and names the caller as
    owner and the caller's organization, or none, as owning organization,
    whatever the extractor had put there; unless it has expired the caller
    may modify and delete it.  Without identity the extractor's owner
    fields stand. *)
Theorem extracted_artifact_belongs_to_caller
        (args : Extract.Args) (trace : list Extract.Effect)
        (r : Extract.ExtractionResult) :
  Extract.execute trim nowIso laterIso storage authContext extractFn args
  = (trace, Returns r) ->
  exists request extracted handed m,
    extractFn request = Returns (Some extracted)
    /\ artifact_id handed = artifact_id extracted
    /\ content handed = content extracted
    /\ meta handed = Some m
    /\ match authContext with
       | Some c =>
         owner_user_id m = Some (userId c)
         /\ owner_org_id m = organizationId c
         /\ forall Date_parse now,
             Governance.isExpired Date_parse now handed = Returns false ->
             Governance.canAccess Date_parse now handed (Some c) Governance.Modify
             = Returns {| Governance.allowed := true; Governance.reasons := [] |}
             /\ Governance.canAccess Date_parse now handed (Some c)
                                     Governance.Delete
                = Returns {| Governance.allowed := true; Governance.reasons := [] |}
       | None =>
         owner_user_id m = meta extracted ≫= owner_user_id
         /\ owner_org_id m = meta extracted ≫= owner_org_id
       end
    /\ match default false (Extract.save args), storage with
       | true, Some storage_save =>
         exists id,
           storage_save handed = Returns (id, Extract.artifact r)
           /\ Extract.savedId r = Some id
           /\ trace = [Extract.ExtractFn request; Extract.GetAuthContext;
                       Extract.StorageSave handed]
       | _, _ =>
         Extract.artifact r = handed
         /\ Extract.savedId r = None
         /\ trace = [Extract.ExtractFn request; Extract.GetAuthContext]
       end.
Proof.
  intros H.
  destruct (execute_returns args trace r H)
    as (request & extracted & handed & Hextract & Hhanded & Hdelivery).
  exists request, extracted, handed.
  destruct authContext as [c|].
  - unfold Extract.set_owner in Hhanded. simpl in Hhanded.
    inversion Hhanded; subst handed; clear Hhanded.
    eexists. split; [exact Hextract|]. do 3 (split; [reflexivity|]).
    split; [|exact Hdelivery].
    do 2 (split; [reflexivity|]).
    intros Date_parse now Hexpired. unfold Governance.canAccess.
    rewrite Hexpired. simpl. rewrite String.eqb_refl. split; reflexivity.
  - inversion Hhanded; subst handed; clear Hhanded.
    eexists. split; [exact Hextract|]. do 3 (split; [reflexivity|]).
    split; [|exact Hdelivery].
    split; simpl; now destruct (meta extracted).
Qed.

End ExtractFacts.

Section ExtractIntoMemory.
Import Types.

Variable trim : string -> string.
Variable nowIso : string.
Variable laterIso : string.
Variable authContext : option AuthContext.
Variable extractFn :
  Extract.ExtractionRequest -> Outcome Thrown (option EdmArtifact).
Variable store : Memory.JsMap EdmArtifact.
Variable nowMs : Z.
Variable random : string.

(** X28. Extract-and-save into a [MemoryArtifactStorage]: the artifact
    returned carries the id under which it was saved, the one the extractor
    chose or the one the store generated, and loading that id from the
    store gives the artifact back as it was returned, owner, visibility and
    exportability included. *)
Theorem extracted_and_saved_loads_back
        (args : Extract.Args) (trace : list Extract.Effect)
        (r : Extract.ExtractionResult) :
  Extract.execute trim nowIso laterIso
                  (Some (Extract.memory_save store nowMs random))
                  authContext extractFn args
  = (trace, Returns r) ->
  Extract.save args = Some true ->
  exists handed id store',
    In (Extract.StorageSave handed) trace
    /\ Memory.save store nowMs random handed = Returns (id, store')
    /\ Extract.savedId r = Some id
    /\ artifact_id (Extract.artifact r) = Some id
    /\ Memory.load store' id = Returns (Extract.artifact r)
    /\ meta (Extract.artifact r) = meta handed
    /\ governance (Extract.artifact r) = governance handed
    /\ content (Extract.artifact r) = content handed.
Proof.
  intros H Hsave.
  destruct (execute_returns trim nowIso laterIso _ authContext extractFn
                            args trace r H)
    as (request & extracted & handed & _ & _ & Hdelivery).
  rewrite Hsave in Hdelivery. simpl in Hdelivery.
  destruct Hdelivery as (id & Hsaved & Hid & ->).
  unfold Extract.memory_save in Hsaved.
  destruct (Memory.save store nowMs random handed) as [[id' store']|e] eqn:Hmem;
    [|discriminate].
  inversion Hsaved as [[Hid' Hartifact]]; subst id'.
  exists handed, id, store'.
  split; [simpl; right; right; left; reflexivity|].
  split; [exact Hmem|]. split; [exact Hid|].
  unfold Memory.save in Hmem. cbv zeta in Hmem.
  destruct (Storage.validateArtifact (Memory.ensure_id nowMs random handed))
    as [[]|e] eqn:Hvalid; simpl in Hmem; [|discriminate].
  inversion Hmem; subst; clear Hmem.
  assert (Hsome : artifact_id (Memory.ensure_id nowMs random handed)
                  = Some (Js.render (artifact_id (Memory.ensure_id nowMs random handed)))).
  { unfold Storage.validateArtifact in Hvalid.
    destruct (artifact_id (Memory.ensure_id nowMs random handed)) as [i|];
      simpl in *; [reflexivity | discriminate]. }
  split; [exact Hsome|].
  split; [unfold Memory.load; now rewrite get_set_eq|].
  unfold Memory.ensure_id.
  destruct (negb (Js.truthy_str (artifact_id handed))); repeat split.
Qed.

End ExtractIntoMemory.

(** X27, at user-1 extracting from "hello" without saving, with an
    extractor that names somebody else as owner. *)
Lemma extracted_artifact_witness :
  exists request extracted handed m,
    SampleExtract.extractFn request = Returns (Some extracted)
    /\ Types.artifact_id handed = Types.artifact_id extracted
    /\ Types.content handed = Types.content extracted
    /\ Types.meta handed = Some m
    /\ (Types.owner_user_id m = Some "user-1"
        /\ Types.owner_org_id m = None
        /\ forall Date_parse now,
            Governance.isExpired Date_parse now handed = Returns false ->
            Governance.canAccess Date_parse now handed
                                 (Some (Sample.user "user-1" None)) Governance.Modify
            = Returns {| Governance.allowed := true; Governance.reasons := [] |}
            /\ Governance.canAccess Date_parse now handed
                                    (Some (Sample.user "user-1" None))
                                    Governance.Delete
               = Returns {| Governance.allowed := true; Governance.reasons := [] |})
    /\ (SampleExtract.owned = handed
        /\ None = @None string
        /\ [Extract.ExtractFn (SampleExtract.request "hello"); Extract.GetAuthContext]
           = [Extract.ExtractFn request; Extract.GetAuthContext]).
Proof.
  apply (extracted_artifact_belongs_to_caller
           SampleExtract.trim SampleExtract.nowIso SampleExtract.laterIso None
           (Some (Sample.user "user-1" None)) SampleExtract.extractFn
           (SampleExtract.args "hello" false)
           [Extract.ExtractFn (SampleExtract.request "hello"); Extract.GetAuthContext]
           (SampleExtract.returned SampleExtract.owned None)).
  reflexivity.
Defined.

(** X28, at user-1 and the store of two artifacts, the clock
    at 0 and the random part "abcdefgh". *)
Lemma extracted_and_saved_witness :
  exists handed id store',
    In (Extract.StorageSave handed)
       [Extract.ExtractFn (SampleExtract.request "hello"); Extract.GetAuthContext;
        Extract.StorageSave SampleExtract.owned]
    /\ Memory.save SampleStore.two 0 "abcdefgh" handed = Returns (id, store')
    /\ Some "edm_0_abcdefgh" = Some id
    /\ Types.artifact_id (Memory.ensure_id 0 "abcdefgh" SampleExtract.owned) = Some id
    /\ Memory.load store' id
       = Returns (Memory.ensure_id 0 "abcdefgh" SampleExtract.owned)
    /\ Types.meta (Memory.ensure_id 0 "abcdefgh" SampleExtract.owned)
       = Types.meta handed
    /\ Types.governance (Memory.ensure_id 0 "abcdefgh" SampleExtract.owned)
       = Types.governance handed
    /\ Types.content (Memory.ensure_id 0 "abcdefgh" SampleExtract.owned)
       = Types.content handed.
Proof.
  apply (extracted_and_saved_loads_back
           SampleExtract.trim SampleExtract.nowIso SampleExtract.laterIso
           (Some (Sample.user "user-1" None)) SampleExtract.extractFn
           SampleStore.two 0 "abcdefgh"
           (SampleExtract.args "hello" true)
           [Extract.ExtractFn (SampleExtract.request "hello"); Extract.GetAuthContext;
            Extract.StorageSave SampleExtract.owned]
           (SampleExtract.returned
              (Memory.ensure_id 0 "abcdefgh" SampleExtract.owned)
              (Some "edm_0_abcdefgh"))).
  - reflexivity.
  - reflexivity.
Defined.

(** Blank text never reaches the extractor; a number for text, and an
    extractor that resolves to [null], end the call with a [TypeError]. *)
Example blank_text_is_turned_away :
  Extract.execute SampleExtract.trim SampleExtract.nowIso SampleExtract.laterIso
                  None None SampleExtract.extractFn (SampleExtract.args "   " true)
  = ([], Extract.reject "Text content is required" Extract.INVALID_INPUT None)
  /\ Extract.execute SampleExtract.trim SampleExtract.nowIso SampleExtract.laterIso
                     None None SampleExtract.extractFn
                     {| Extract.text := Some (Types.JNum 42);
                        Extract.image := None;
                        Extract.metadata := None;
                        Extract.contentType := None;
                        Extract.save := None |}
     = ([], Throws (Extract.Uncaught thrown_TypeError))
  /\ Extract.execute SampleExtract.trim SampleExtract.nowIso SampleExtract.laterIso
                     None None SampleExtract.emptyFn (SampleExtract.args "hello" true)
     = ([Extract.ExtractFn (SampleExtract.request "hello")],
        Throws (Extract.Uncaught thrown_TypeError)).
Proof. repeat split. Qed.

Section SemverFacts.

Lemma append_cons (c : ascii) (s t : string) : String c s ++ t = String c (s ++ t).
Proof. reflexivity. Qed.

Lemma append_empty (s : string) : s ++ "" = s.
Proof.
  induction s as [|c s IH]; [reflexivity|]. now rewrite append_cons, IH.
Qed.

Lemma skip_digits_splits (s : string) :
  exists run,
    SemverSpec.all_digits run = true
    /\ s = run ++ Validate.skip_digits s
    /\ Validate.digits (Validate.skip_digits s) = None.
Proof.
  induction s as [|c s (run & Hrun & Hs & Hstop)].
  - now exists "".
  - cbn [Validate.skip_digits]. destruct (Validate.is_digit c) eqn:Hc.
    + exists (String c run). cbn [SemverSpec.all_digits].
      rewrite Hc, Hrun, append_cons, <- Hs. now repeat split.
    + exists "". repeat split. cbn [Validate.digits]. now rewrite Hc.
Qed.

Lemma digits_splits (s rest : string) :
  Validate.digits s = Some rest ->
  exists run,
    SemverSpec.numeral run /\ s = run ++ rest /\ Validate.digits rest = None.
Proof.
  destruct s as [|c s]; cbn [Validate.digits]; [discriminate|].
  destruct (Validate.is_digit c) eqn:Hc; [|discriminate].
  intros H. inversion H; subst rest.
  destruct (skip_digits_splits s) as (run & Hrun & Hs & Hstop).
  exists (String c run). unfold SemverSpec.numeral. cbn [SemverSpec.all_digits].
  rewrite Hc, Hrun, append_cons, <- Hs. repeat split; [discriminate | assumption].
Qed.

Lemma skip_digits_run (run rest : string) :
  SemverSpec.all_digits run = true ->
  Validate.digits rest = None ->
  Validate.skip_digits (run ++ rest) = rest.
Proof.
  intros Hrun Hrest. induction run as [|c run IH].
  - change ("" ++ rest) with rest.
    destruct rest as [|d rest]; [reflexivity|].
    cbn [Validate.digits Validate.skip_digits] in *.
    now destruct (Validate.is_digit d).
  - cbn [SemverSpec.all_digits] in Hrun.
    apply andb_true_iff in Hrun as [Hc Hrun].
    rewrite append_cons. cbn [Validate.skip_digits]. rewrite Hc. now apply IH.
Qed.

Lemma digits_run (run rest : string) :
  SemverSpec.numeral run ->
  Validate.digits rest = None ->
  Validate.digits (run ++ rest) = Some rest.
Proof.
  intros [Hne Hrun] Hrest. destruct run as [|c run]; [congruence|].
  cbn [SemverSpec.all_digits] in Hrun.
  apply andb_true_iff in Hrun as [Hc Hrun].
  rewrite append_cons. cbn [Validate.digits]. rewrite Hc.
  now rewrite skip_digits_run.
Qed.

Lemma dot_splits (s rest : string) :
  Validate.dot s = Some rest <-> s = "." ++ rest.
Proof.
  change ("." ++ rest) with (String "." rest).
  destruct s as [|c s]; cbn [Validate.dot]; [split; discriminate|].
  destruct (Ascii.eqb c ".") eqn:Hc.
  - apply Ascii.eqb_eq in Hc. subst c.
    split; intros H; inversion H; reflexivity.
  - apply Ascii.eqb_neq in Hc.
    split; intros H; [discriminate | inversion H; congruence].
Qed.

Lemma digits_stop_at_dot (rest : string) : Validate.digits ("." ++ rest) = None.
Proof. reflexivity. Qed.

Lemma dot_takes_dot (rest : string) : Validate.dot ("." ++ rest) = Some rest.
Proof. reflexivity. Qed.

(** The matcher of [defaultValidator] accepts exactly the semantic
    versions: three non-empty runs of decimal digits joined by two dots,
    nothing before, between or after. *)
Theorem matches_semver_is_semver (s : string) :
  Validate.matches_semver s = true <-> SemverSpec.semver s.
Proof.
  unfold Validate.matches_semver, SemverSpec.semver. split.
  - destruct (Validate.digits s) as [r1|] eqn:H1; cbn [mbind option_bind];
      [|discriminate].
    destruct (Validate.dot r1) as [r2|] eqn:H2; cbn [mbind option_bind];
      [|discriminate].
    destruct (Validate.digits r2) as [r3|] eqn:H3; cbn [mbind option_bind];
      [|discriminate].
    destruct (Validate.dot r3) as [r4|] eqn:H4; cbn [mbind option_bind];
      [|discriminate].
    destruct (Validate.digits r4) as [r5|] eqn:H5; [|discriminate].
    intros Hend. apply String.eqb_eq in Hend. subst r5.
    apply digits_splits in H1 as (major & Hmajor & -> & _).
    apply digits_splits in H3 as (minor & Hminor & -> & _).
    apply digits_splits in H5 as (patch & Hpatch & -> & _).
    apply dot_splits in H2 as ->. apply dot_splits in H4 as ->.
    exists major, minor, patch. rewrite append_empty.
    split; [exact Hmajor|]. split; [exact Hminor|]. split; [exact Hpatch|].
    reflexivity.
  - intros (major & minor & patch & Hmajor & Hminor & Hpatch & ->).
    rewrite (digits_run major _ Hmajor (digits_stop_at_dot _)).
    cbn [mbind option_bind]. rewrite dot_takes_dot. cbn [mbind option_bind].
    rewrite (digits_run minor _ Hminor (digits_stop_at_dot _)).
    cbn [mbind option_bind]. rewrite dot_takes_dot. cbn [mbind option_bind].
    rewrite <- (append_empty patch) at 1.
    rewrite (digits_run patch "" Hpatch eq_refl). reflexivity.
Qed.

End SemverFacts.

Section ValidateFacts.
Import Types.

Variable Date_parse : string -> Js.Date.

(** What [defaultValidator] requires of an artifact it finds valid. *)
Lemma valid_requirements (a : EdmArtifact) :
  Validate.valid (Validate.defaultValidator Date_parse (Some a)) = true ->
  Js.truthy_str (schema_version a) = true
  /\ Validate.matches_semver (Js.render (schema_version a)) = true
  /\ Js.truthy_str (artifact_id a) = true
  /\ (exists m, meta a = Some m /\ fst (Validate.check_meta Date_parse m) = [])
  /\ (exists g, governance a = Some g)
  /\ Governance.errors (Governance.validateGovernance a) = [].
Proof.
  unfold Validate.defaultValidator. cbv zeta. cbn [Validate.valid].
  match goal with
  | |- match ?e with [] => true | _ :: _ => false end = true -> _ =>
    destruct e eqn:He
  end; [intros _ | discriminate].
  apply List.app_eq_nil in He as [Hversion He].
  apply List.app_eq_nil in He as [Hid He].
  apply List.app_eq_nil in He as [Hmeta He].
  apply List.app_eq_nil in He as [_ He].
  apply List.app_eq_nil in He as [_ Hgov].
  destruct (Js.truthy_str (schema_version a)); [|discriminate].
  destruct (Validate.matches_semver (Js.render (schema_version a)));
    [|discriminate].
  destruct (Js.truthy_str (artifact_id a)); [|discriminate].
  destruct (meta a) as [m|]; [|discriminate].
  destruct (governance a) as [g|] eqn:Hg; [|discriminate].
  cbn [fst] in Hgov. apply map_eq_nil in Hgov.
  repeat split; try assumption; eauto.
Qed.

(** X29. An artifact the default validator finds valid is fit for the rest
    of the server: its version is a semantic version, its governance
    validates, the store accepts it under its own id and gives it back,
    and no access check on it can fail with a [TypeError], whoever asks
    for whatever purpose at whatever time. *)
Theorem validated_artifact_is_fit_for_use (a : EdmArtifact) :
  Validate.valid (Validate.defaultValidator Date_parse (Some a)) = true ->
  SemverSpec.semver (Js.render (schema_version a))
  /\ Governance.valid (Governance.validateGovernance a) = true
  /\ (exists m created,
         meta a = Some m /\ created_at m = Some created
         /\ Date_parse created <> None
         /\ (visibility m = None \/ visibility m = Some ""
             \/ declared_visibility (Js.render (visibility m)) = true))
  /\ (forall now context purpose,
         exists decision,
           Governance.canAccess Date_parse now a context purpose = Returns decision)
  /\ (forall store nowMs random,
         exists id store',
           artifact_id a = Some id
           /\ Memory.save store nowMs random a = Returns (id, store')
           /\ Memory.load store' id = Returns a).
Proof.
  intros Hvalid.
  destruct (valid_requirements a Hvalid)
    as (Hversion & Hsemver & Hid & (m & Hm & Hmeta) & (g & Hg) & Hgov).
  split; [now apply matches_semver_is_semver|].
  assert (Hgovernance : Governance.valid (Governance.validateGovernance a) = true).
  { revert Hgov. unfold Governance.validateGovernance. rewrite Hg.
    cbn [Governance.errors Governance.valid].
    now intros ->. }
  split; [exact Hgovernance|].
  split.
  { exists m. unfold Validate.check_meta in Hmeta. cbn [fst] in Hmeta.
    apply List.app_eq_nil in Hmeta as [Hcreated Hvisible].
    destruct (created_at m) as [created|] eqn:Hc; [|discriminate].
    exists created. split; [assumption|]. split; [reflexivity|].
    cbn [Js.truthy_str Js.render] in Hcreated.
    destruct (negb (negb (String.eqb created ""))); [discriminate|].
    split.
    - destruct (Date_parse created); [discriminate | discriminate].
    - destruct (visibility m) as [v|]; [|now left].
      right. cbn [Js.truthy_str Js.render] in *.
      destruct (String.eqb v "") eqn:Hv.
      + left. apply String.eqb_eq in Hv. now subst v.
      + right. cbn [negb] in Hvisible.
        now destruct (declared_visibility v). }
  split.
  { intros now context purpose.
    exact (canAccess_returns Date_parse now a g m context purpose Hg Hm). }
  intros store nowMs random.
  destruct (artifact_id a) as [id|] eqn:Ha; [|discriminate].
  exists id. unfold Memory.save, Memory.ensure_id. rewrite Ha, Hid.
  cbn [negb]. unfold Storage.validateArtifact. rewrite Ha, Hid, Hversion, Hg.
  eexists. split; [reflexivity|]. split; [reflexivity|].
  unfold Memory.load. cbn [Js.render]. now rewrite get_set_eq.
Qed.

End ValidateFacts.

Section StrictFacts.
Import Types.

Variable validateFn : option EdmArtifact -> Validate.ValidationResult.

(** X30. Strict mode turns every warning of the validator into an error
    and leaves none behind: the strict verdict is valid exactly when the
    validator's is and it gave no warning, the validator's errors come
    first and unchanged, each warning follows as an error under the same
    path with "[Strict] " before its message and "STRICT_" before its
    code.  Without strict mode, or without warnings, the validator's
    result is returned as it is. *)
Theorem strict_mode_turns_warnings_into_errors (args : Validate.Args) :
  let plain := validateFn (Validate.arg_artifact args) in
  let ws := default [] (Validate.warnings plain) in
  (Validate.strict args = Some true ->
   (Validate.valid (Validate.execute validateFn args) = true
    <-> Validate.valid plain = true /\ ws = [])
   /\ default [] (Validate.warnings (Validate.execute validateFn args)) = []
   /\ (ws <> [] ->
       Validate.errors (Validate.execute validateFn args)
       = (Validate.errors plain
            ++ map (fun w => {| Validate.path := Validate.path w;
                                Validate.message := "[Strict] " ++ Validate.message w;
                                Validate.code := "STRICT_" ++ Validate.code w |})
                   ws)%list))
  /\ ((Validate.strict args <> Some true \/ ws = []) ->
      Validate.execute validateFn args = plain).
Proof.
  cbv zeta. unfold Validate.execute.
  destruct (Validate.warnings (validateFn (Validate.arg_artifact args)))
    as [[|w ws]|] eqn:Hw; simpl.
  - split.
    + intros ->. simpl. rewrite ?Hw. simpl.
      repeat split; try assumption; try reflexivity; try congruence.
      now intros [? _].
    + intros _. now destruct (default false (Validate.strict args)).
  - split.
    + intros ->. simpl. repeat split; try discriminate.
      intros [_ H]. discriminate.
    + intros [Hstrict|H]; [|discriminate].
      destruct (Validate.strict args) as [[|]|]; simpl; congruence.
  - split.
    + intros ->. simpl. rewrite ?Hw. simpl.
      repeat split; try assumption; try reflexivity; try congruence.
      now intros [? _].
    + intros _. now destruct (default false (Validate.strict args)).
Qed.

End StrictFacts.

(** X29, at the complete sample artifact. *)
Lemma validated_artifact_witness :
  SemverSpec.semver (Js.render (Types.schema_version SampleValidate.complete))
  /\ Governance.valid (Governance.validateGovernance SampleValidate.complete) = true
  /\ (exists m created,
         Types.meta SampleValidate.complete = Some m
         /\ Types.created_at m = Some created
         /\ Sample.Date_parse created <> None
         /\ (Types.visibility m = None \/ Types.visibility m = Some ""
             \/ Types.declared_visibility (Js.render (Types.visibility m)) = true))
  /\ (forall now context purpose,
         exists decision,
           Governance.canAccess Sample.Date_parse now SampleValidate.complete
                                context purpose
           = Returns decision)
  /\ (forall store nowMs random,
         exists id store',
           Types.artifact_id SampleValidate.complete = Some id
           /\ Memory.save store nowMs random SampleValidate.complete
              = Returns (id, store')
           /\ Memory.load store' id = Returns SampleValidate.complete).
Proof.
  apply (validated_artifact_is_fit_for_use Sample.Date_parse SampleValidate.complete).
  reflexivity.
Defined.

(** Strict mode on the artifact without visibility: the validator's two
    warnings, its own and the one of [validateGovernance], come back as
    errors. *)
Example strict_rejects_the_unlabelled :
  Validate.execute (Validate.defaultValidator Sample.Date_parse)
                   (SampleValidate.strictly SampleValidate.unlabelled)
  = {| Validate.valid := false;
       Validate.errors :=
         [{| Validate.path := "meta.visibility";
             Validate.message := "[Strict] Missing visibility, will default to private";
             Validate.code := "STRICT_MISSING_OPTIONAL" |};
          {| Validate.path := "governance";
             Validate.message :=
               "[Strict] Missing visibility setting, defaulting to private";
             Validate.code := "STRICT_GOVERNANCE_WARNING" |}];
       Validate.warnings := None |}
  /\ Validate.valid (Validate.defaultValidator Sample.Date_parse
                                               (Some SampleValidate.unlabelled))
     = true.
Proof. split; reflexivity. Qed.
